(** * strava-api: the authenticated paginated-fetch engine of [main.go]

    A shallow embedding of the refactored [main.go] (the variant with
    [ensureAccessToken], [refreshAccessToken], [fetchActivitiesPage],
    [backoff] and [truncate]) together with the properties of its token
    manager, page fetcher, pagination driver and aggregator.

    Conventions.
    - Go strings are byte strings: [string] of the Standard Library.
    - Go's [int] and [time.Duration] are 64-bit two's complement integers,
      carried as [Z] with the wrap-around written out ([wrap64]).
    - Go's [float64] is IEEE 754 binary64: the primitive [float].
    - The network, the logger and the clock are an explicit trace of events
      threaded through the program (a state monad [M]); the remote server is
      a function of the requests seen so far.
    - What the program takes from outside the repository is a parameter:
      the JSON decoder, the Unicode paths of package [strings] and the
      server are the fields of [Env]; the outcome of the configuration
      loader is an argument of [main]. *)

From Stdlib Require Import ZArith List String Ascii Bool Lia Floats.
From Stdlib Require Import DecimalString.
Import ListNotations.

Set Warnings "-inexact-float".
Open Scope string_scope.
Open Scope list_scope.
Open Scope Z_scope.

(* ================================================================= *)
(** ** Machine integers *)

(** The value of an integer as an [int64]. *)
Definition wrap64 (z : Z) : Z := (z + 2 ^ 63) mod 2 ^ 64 - 2 ^ 63.

(** [x << n] on an [int64] with an unsigned count: counts of 64 and more
    shift every bit out. *)
Definition shl64 (x n : Z) : Z :=
  if 64 <=? n then 0 else wrap64 (Z.shiftl x n).

Definition mul64 (x y : Z) : Z := wrap64 (x * y).
Definition add64 (x y : Z) : Z := wrap64 (x + y).

(** [uint(x)] for an [int] x. *)
Definition to_uint64 (x : Z) : Z := x mod 2 ^ 64.

(* ================================================================= *)
(** ** Package [strings], [strconv] *)

Definition byte_of (c : ascii) : Z := Z.of_N (N_of_ascii c).

Definition len (s : string) : Z := Z.of_nat (String.length s).

(** [len] of a slice. *)
Definition lenSlice {A : Type} (l : list A) : Z := Z.of_nat (List.length l).

(** [utf8.RuneSelf] *)
Definition RuneSelf : Z := 128.

(** The table [asciiSpace] of package [strings]. *)
Definition asciiSpace (c : ascii) : bool :=
  let b := byte_of c in
  (b =? 9) || (b =? 10) || (b =? 11) || (b =? 12) || (b =? 13) || (b =? 32).

Definition string_of_bytes (l : list ascii) : string := string_of_list_ascii l.
Definition bytes_of_string (s : string) : list ascii := list_ascii_of_string s.

Section Strings.

(** [strings.TrimFunc(s, unicode.IsSpace)], [strings.TrimRightFunc(s,
    unicode.IsSpace)] and the rune-by-rune tail of [strings.EqualFold]:
    the paths package [strings] takes once it meets a byte outside
    ASCII. They depend on the Unicode tables and are left abstract. *)
Variable TrimFunc_IsSpace : string -> string.
Variable TrimRightFunc_IsSpace : string -> string.
Variable EqualFold_runes : string -> string -> bool.

(** Second loop of [strings.TrimSpace]: [r] is [s[start:stop]] reversed,
    scanned from the end of the string. *)
Fixpoint trimSpaceRight (r : list ascii) : string :=
  match r with
  | [] => ""
  | c :: r' =>
      if RuneSelf <=? byte_of c then TrimRightFunc_IsSpace (string_of_bytes (rev r))
      else if asciiSpace c then trimSpaceRight r'
      else string_of_bytes (rev r)
  end.

(** [strings.TrimSpace]: the first loop skips leading ASCII space. *)
Fixpoint TrimSpace (s : string) : string :=
  match s with
  | EmptyString => ""
  | String c s' =>
      if RuneSelf <=? byte_of c then TrimFunc_IsSpace s
      else if asciiSpace c then TrimSpace s'
      else trimSpaceRight (rev (bytes_of_string s))
  end.

(** [strings.EqualFold]: byte-wise ASCII loop; the first byte outside
    ASCII on either side hands the two remainders to the rune loop. *)
Fixpoint EqualFold (s t : string) : bool :=
  match s, t with
  | String sr s', String tr t' =>
      let a := byte_of sr in
      let b := byte_of tr in
      if RuneSelf <=? Z.lor a b then EqualFold_runes s t
      else if b =? a then EqualFold s' t'
      else
        let lo := Z.min a b in
        let hi := Z.max a b in
        if (65 <=? lo) && (lo <=? 90) && (hi =? lo + 97 - 65)
        then EqualFold s' t'
        else false
  | EmptyString, EmptyString => true
  | _, _ => false
  end.

End Strings.

(** [strconv.Itoa] *)
Definition Itoa (z : Z) : string := NilZero.string_of_int (Z.to_int z).

(** The three bytes of U+2026 (horizontal ellipsis) in UTF-8. *)
Definition ellipsis : string :=
  String (ascii_of_nat 226) (String (ascii_of_nat 128) (String (ascii_of_nat 166) "")).

(** [s[:n]] for [0 <= n <= len(s)]. *)
Definition slice_to (s : string) (n : Z) : string := substring 0 (Z.to_nat n) s.

Definition truncate (s : string) (n : Z) : string :=
  if len s <=? n then s else (slice_to s n ++ ellipsis)%string.

(* ================================================================= *)
(** ** Constants and data of [main.go] *)

Definition authURL : string := "https://www.strava.com/oauth/token".
Definition activitiesURL : string := "https://www.strava.com/api/v3/athlete/activities".
Definition athleteURL : string := "https://www.strava.com/api/v3/athlete".
Definition perPage : Z := 200.
Definition Second : Z := 1000000000.
Definition httpTimeout : Z := 30 * Second.
Definition maxRetries : Z := 3.

Definition StatusOK : Z := 200.
Definition StatusUnauthorized : Z := 401.
Definition StatusTooManyRequests : Z := 429.

Record authResponse := mkAuth {
  AccessToken : string;
  ExpiresIn : Z;
  TokenType : string;
  RefreshToken : string
}.

Record activity := mkActivity {
  ID : Z;
  Name : string;
  Distance : float
}.

Record envVars := mkEnv {
  StravaClientId : string;
  StravaClientSecret : string;
  StravaRefreshToken : string;
  StravaAccessToken : string
}.

Record rateLimitUsage := mkRL {
  Usage : string;
  Limit : string
}.

Definition rateLimitUsage_String (r : rateLimitUsage) : string :=
  if String.eqb (Usage r) "" && String.eqb (Limit r) "" then ""
  else ("usage=" ++ Usage r ++ " limit=" ++ Limit r)%string.

(* ================================================================= *)
(** ** Errors, log lines, requests and responses *)

(** A Go [error] value: one raised outside the program (transport, JSON
    decoder, configuration loader), [errors.New], or [fmt.Errorf] with its
    format and arguments. The same arguments feed the logger. *)
Inductive error : Type :=
| ExternalError (msg : string)
| errors_New (msg : string)
| fmt_Errorf (format : string) (args : list fmtArg)
with fmtArg : Type :=
| AInt (z : Z)
| AStr (s : string)
| AFloat (f : float)
| AErr (e : error).

Inductive result (A : Type) : Type :=
| Ok (a : A)
| Err (e : error).
Arguments Ok {A} a.
Arguments Err {A} e.

(** [url.Values] and [http.Header] restricted to single values. *)
Definition Values := list (string * string).

Fixpoint Values_Set (k v : string) (q : Values) : Values :=
  match q with
  | [] => [(k, v)]
  | (k', v') :: q' =>
      if String.eqb k' k then (k, v) :: q' else (k', v') :: Values_Set k v q'
  end.

Fixpoint Values_Get (k : string) (q : Values) : string :=
  match q with
  | [] => ""
  | (k', v') :: q' => if String.eqb k' k then v' else Values_Get k q'
  end.

Record Request := mkReq {
  Method : string;
  URL : string;          (* the URL given to http.NewRequestWithContext *)
  RawQuery : Values;     (* the pairs encoded into req.URL.RawQuery *)
  Header : Values;
  Form : option Values   (* the form-encoded body, if any *)
}.

(** [RespHeader] is [res.Header], looked up under the names the program
    passes to [Header.Get]. *)
Record Response := mkResp {
  StatusCode : Z;
  RespHeader : Values;
  Body : string;             (* the bytes io.ReadAll returns *)
  ReadErr : option error     (* the error io.ReadAll returns *)
}.

(** The remote side: what [client.Do] returns for a request, given the
    requests that were sent before it. *)
Definition Server := list Request -> Request -> result Response.

Inductive Event : Type :=
| EvDo (req : Request) (res : result Response)
| EvSleep (d : Z)
| EvLog (format : string) (args : list fmtArg).

Definition Trace := list Event.

Fixpoint sent (t : Trace) : list Request :=
  match t with
  | [] => []
  | EvDo req _ :: t' => req :: sent t'
  | _ :: t' => sent t'
  end.

Fixpoint slept (t : Trace) : list Z :=
  match t with
  | [] => []
  | EvSleep d :: t' => d :: slept t'
  | _ :: t' => slept t'
  end.

(** *** The effect monad: a state monad over the trace *)

Definition M (A : Type) : Type := Trace -> A * Trace.

Definition ret {A} (a : A) : M A := fun t => (a, t).

Definition bind {A B} (c : M A) (k : A -> M B) : M B :=
  fun t => let (a, t') := c t in k a t'.

Notation "x <- c ;; k" := (bind c (fun x => k))
  (at level 61, c at next level, right associativity).
Notation "' p <- c ;; k" := (bind c (fun x => let 'p := x in k))
  (at level 61, p pattern, c at next level, right associativity).
Notation "c ;;; k" := (bind c (fun _ => k))
  (at level 61, right associativity).

Definition emit (e : Event) : M unit := fun t => (tt, t ++ [e]).

Definition Printf (format : string) (args : list fmtArg) : M unit :=
  emit (EvLog format args).
Definition Println (line : string) : M unit := emit (EvLog line []).
Definition Sleep (d : Z) : M unit := emit (EvSleep d).

(** [http.NewRequestWithContext]: with the literal methods and URLs of this
    program and a non-nil context it cannot fail. *)
Definition NewRequestWithContext (method url : string) (body : option Values)
  : result Request :=
  Ok {| Method := method; URL := url; RawQuery := []; Header := []; Form := body |}.

Definition setHeader (k v : string) (r : Request) : Request :=
  {| Method := Method r; URL := URL r; RawQuery := RawQuery r;
     Header := Values_Set k v (Header r); Form := Form r |}.

Definition setRawQuery (q : Values) (r : Request) : Request :=
  {| Method := Method r; URL := URL r; RawQuery := q;
     Header := Header r; Form := Form r |}.

(* ================================================================= *)
(** ** [backoff] *)

Definition backoff (attempt : Z) : Z :=
  let attempt := if attempt <? 1 then 1 else attempt in
  let d := mul64 (shl64 1 (to_uint64 (wrap64 (attempt - 1)))) Second in
  if d >? 30 * Second then 30 * Second else d.

(* ================================================================= *)
(** ** The program *)

Inductive viperOutcome : Type :=
| ReadInConfigError (e : error)
| UnmarshalConfigError (e : error)
| Loaded (cfg : envVars).

(** State of the page loop of [main]: the variables it updates. *)
Record driver := mkDriver {
  accessToken : string;
  refreshToken : string;
  page : Z;
  all : list activity
}.

Inductive stepResult : Type :=
| Continue (d : driver)     (* next iteration *)
| Break (d : driver)        (* [break]: last page *)
| Fatal.                    (* [logger.Fatalf]: the process exits *)

Inductive loopResult : Type :=
| LoopDone (d : driver)
| LoopFatal
| LoopOutOfFuel.

Inductive exit : Type :=
| Exit (code : Z)
| OutOfFuel.

(** What a run depends on and the repository does not contain: the Unicode
    paths of package [strings] (see [TrimSpace], [EqualFold]),
    [json.Unmarshal] into a fresh [[]activity] and into a fresh
    [authResponse], and the remote server. *)
Class Env : Type := {
  TrimFunc_IsSpace : string -> string;
  TrimRightFunc_IsSpace : string -> string;
  EqualFold_runes : string -> string -> bool;
  json_Unmarshal_activities : string -> result (list activity);
  json_Unmarshal_auth : string -> result authResponse;
  srv : Server
}.

Section Program.

Context {E : Env}.

Definition trimSpace : string -> string :=
  TrimSpace TrimFunc_IsSpace TrimRightFunc_IsSpace.
Definition equalFold : string -> string -> bool :=
  EqualFold EqualFold_runes.

(** The test [strings.TrimSpace(s) == ""]. *)
Definition blank (s : string) : bool := String.eqb (trimSpace s) "".

(** [client.Do] *)
Definition Do (req : Request) : M (result Response) :=
  fun t => let res := srv (sent t) req in (res, t ++ [EvDo req res]).

(** *** [refreshAccessToken] *)

Definition refreshForm (cfg : envVars) : Values :=
  Values_Set "refresh_token" (StravaRefreshToken cfg)
    (Values_Set "grant_type" "refresh_token"
       (Values_Set "client_secret" (StravaClientSecret cfg)
          (Values_Set "client_id" (StravaClientId cfg) []))).

Definition refreshAccessToken (cfg : envVars) : M (result (string * string)) :=
  if blank (StravaClientId cfg) ||
     blank (StravaClientSecret cfg) ||
     blank (StravaRefreshToken cfg)
  then ret (Err (errors_New "missing STRAVA_CLIENT_ID/SECRET/REFRESH_TOKEN"))
  else
    let form := refreshForm cfg in
    match NewRequestWithContext "POST" authURL (Some form) with
    | Err err => ret (Err (fmt_Errorf "new refresh req: %w" [AErr err]))
    | Ok req =>
        let req := setHeader "Content-Type" "application/x-www-form-urlencoded" req in
        let req := setHeader "Accept" "application/json" req in
        r <- Do req ;;
        match r with
        | Err err => ret (Err (fmt_Errorf "refresh req: %w" [AErr err]))
        | Ok res =>
            let body := Body res in
            if negb (StatusCode res =? StatusOK) then
              ret (Err (fmt_Errorf "refresh failed status=%d body=%s"
                          [AInt (StatusCode res); AStr body]))
            else
              match json_Unmarshal_auth body with
              | Err err => ret (Err (fmt_Errorf "unmarshal refresh: %w" [AErr err]))
              | Ok auth =>
                  Printf "token refreshed; expires in ~%d seconds" [AInt (ExpiresIn auth)] ;;;
                  ret (Ok (AccessToken auth, RefreshToken auth))
              end
        end
    end.

(** *** [ensureAccessToken] *)

Definition probeRequest (cfg : envVars) : Request :=
  let req :=
    match NewRequestWithContext "GET" (activitiesURL ++ "?per_page=1&page=1")%string None with
    | Ok req => req
    | Err _ => mkReq "" "" [] [] None
    end in
  let req := setHeader "Authorization" ("Bearer " ++ StravaAccessToken cfg)%string req in
  setHeader "Accept" "application/json" req.

Definition ensureAccessToken (cfg : envVars) : M (result (string * string)) :=
  if blank (StravaAccessToken cfg) then
    Println "No STRAVA_ACCESS_TOKEN provided; refreshing with STRAVA_REFRESH_TOKEN…" ;;;
    refreshAccessToken cfg
  else
    r <- Do (probeRequest cfg) ;;
    match r with
    | Err err =>
        Printf "token probe failed (will refresh): %v" [AErr err] ;;;
        refreshAccessToken cfg
    | Ok res =>
        if StatusCode res =? StatusUnauthorized then
          Println "Configured access token rejected; refreshing…" ;;;
          refreshAccessToken cfg
        else
          ret (Ok (StravaAccessToken cfg, StravaRefreshToken cfg))
    end.

(** *** [fetchActivitiesPage] *)

Definition pageRequest (req : Request) (accessToken : string) (page : Z) : Request :=
  let q := RawQuery req in
  let q := Values_Set "per_page" (Itoa perPage) q in
  let q := Values_Set "page" (Itoa page) q in
  let req := setRawQuery q req in
  let req := setHeader "Authorization" ("Bearer " ++ accessToken)%string req in
  setHeader "Accept" "application/json" req.

(** The attempts of the [for attempt := 1; attempt <= maxRetries;
    attempt++] loop still to run; [lastStatus] and [lastRL] are the
    variables the loop carries. *)
Fixpoint fetchAttempts (attempts : list Z) (accessToken : string) (page : Z)
    (lastStatus : Z) (lastRL : rateLimitUsage)
  : M (list activity * Z * rateLimitUsage) :=
  match attempts with
  | [] => ret ([], lastStatus, lastRL)
  | attempt :: rest =>
      match NewRequestWithContext "GET" activitiesURL None with
      | Err err =>
          Printf "build request: %v" [AErr err] ;;;
          ret ([], 0, lastRL)
      | Ok req =>
          let req := pageRequest req accessToken page in
          r <- Do req ;;
          match r with
          | Err err =>
              Printf "request error (attempt %d/%d): %v"
                [AInt attempt; AInt maxRetries; AErr err] ;;;
              Sleep (backoff attempt) ;;;
              fetchAttempts rest accessToken page lastStatus lastRL
          | Ok res =>
              let lastStatus := StatusCode res in
              let lastRL := {| Usage := Values_Get "X-RateLimit-Usage" (RespHeader res);
                               Limit := Values_Get "X-RateLimit-Limit" (RespHeader res) |} in
              let body := Body res in
              match ReadErr res with
              | Some readErr =>
                  Printf "read body (attempt %d/%d): %v"
                    [AInt attempt; AInt maxRetries; AErr readErr] ;;;
                  Sleep (backoff attempt) ;;;
                  fetchAttempts rest accessToken page lastStatus lastRL
              | None =>
                  if StatusCode res =? StatusOK then
                    match json_Unmarshal_activities body with
                    | Err err =>
                        Printf "unmarshal activities: %v" [AErr err] ;;;
                        ret ([], StatusCode res, lastRL)
                    | Ok items => ret (items, StatusCode res, lastRL)
                    end
                  else if StatusCode res =? StatusTooManyRequests then
                    let sleepFor := backoff attempt in
                    Printf "429 rate limited; retrying in %s (attempt %d/%d)…"
                      [AInt sleepFor; AInt attempt; AInt maxRetries] ;;;
                    Sleep sleepFor ;;;
                    fetchAttempts rest accessToken page lastStatus lastRL
                  else if StatusCode res =? StatusUnauthorized then
                    let wa := Values_Get "WWW-Authenticate" (RespHeader res) in
                    Printf "401 unauthorized. WWW-Authenticate=%q body=%s"
                      [AStr wa; AStr (truncate body 300)] ;;;
                    ret ([], StatusCode res, lastRL)
                  else
                    Printf "unexpected status=%d body=%s"
                      [AInt (StatusCode res); AStr (truncate body 300)] ;;;
                    ret ([], StatusCode res, lastRL)
              end
          end
      end
  end.

Definition attemptsFrom1 : list Z :=
  map Z.of_nat (seq 1 (Z.to_nat maxRetries)).

Definition fetchActivitiesPage (accessToken : string) (page : Z)
  : M (list activity * Z * rateLimitUsage) :=
  fetchAttempts attemptsFrom1 accessToken page 0 (mkRL "" "").

(** *** [probeToken] *)

Definition probeToken (accessToken : string) : M (option error) :=
  let req :=
    match NewRequestWithContext "GET" athleteURL None with
    | Ok req => req
    | Err _ => mkReq "" "" [] [] None
    end in
  let req := setHeader "Authorization" ("Bearer " ++ accessToken)%string req in
  let req := setHeader "Accept" "application/json" req in
  r <- Do req ;;
  match r with
  | Err err => ret (Some (fmt_Errorf "probe /athlete request: %w" [AErr err]))
  | Ok res =>
      let b := Body res in
      if negb (StatusCode res =? StatusOK) then
        ret (Some (fmt_Errorf "probe /athlete status=%d body=%s"
                     [AInt (StatusCode res); AStr (truncate b 200)]))
      else ret None
  end.

(** *** The aggregation loop of [main] *)

Definition isDeskTreadmill (a : activity) : bool :=
  equalFold (trimSpace (Name a)) "Desk Treadmill".

(** [for _, a := range all] with the running [deskCount] and
    [totalMeters]. *)
Fixpoint aggregateFrom (l : list activity) (deskCount : Z) (totalMeters : float)
  : Z * float :=
  match l with
  | [] => (deskCount, totalMeters)
  | a :: l' =>
      if isDeskTreadmill a
      then aggregateFrom l' (add64 deskCount 1) (totalMeters + Distance a)%float
      else aggregateFrom l' deskCount totalMeters
  end.

Definition aggregate (l : list activity) : Z * float :=
  aggregateFrom l 0 0%float.

Definition milesOf (totalMeters : float) : float :=
  (totalMeters * 0.000621371)%float.

(** *** The page loop of [main] *)

Definition Fatalf (format : string) (args : list fmtArg) : M stepResult :=
  Printf format args ;;; ret Fatal.

(** The tail of the loop body: log, append, then [break] or [page++]. *)
Definition appendPage (d : driver) (pageActs : list activity) : M stepResult :=
  Printf "Page %d retrieved with %d activities"
    [AInt (page d); AInt (lenSlice pageActs)] ;;;
  let all' := all d ++ pageActs in
  if lenSlice pageActs <? perPage then
    ret (Break (mkDriver (accessToken d) (refreshToken d) (page d) all'))
  else
    ret (Continue (mkDriver (accessToken d) (refreshToken d) (add64 (page d) 1) all')).

(** One iteration of the [for] loop of [main]. *)
Definition pageStep (cfg : envVars) (d : driver) : M stepResult :=
  ' (pageActs, status, rl) <- fetchActivitiesPage (accessToken d) (page d) ;;
  Printf "page=%d status=%d rateLimitUsage=%q"
    [AInt (page d); AInt status; AStr (rateLimitUsage_String rl)] ;;;
  if status =? StatusUnauthorized then
    Printf "401 unauthorized on page %d; attempting token refresh…" [AInt (page d)] ;;;
    r <- refreshAccessToken cfg ;;
    match r with
    | Err rerr => Fatalf "refresh after 401 failed: %v" [AErr rerr]
    | Ok (at', rt) =>
        let d := mkDriver at' rt (page d) (all d) in
        ' (pageActs, status, rl) <- fetchActivitiesPage (accessToken d) (page d) ;;
        Printf "retry page=%d status=%d rateLimitUsage=%q"
          [AInt (page d); AInt status; AStr (rateLimitUsage_String rl)] ;;;
        if negb (status =? StatusOK) then
          Fatalf "after refresh, fetch failed status=%d" [AInt status]
        else appendPage d pageActs
    end
  else if status =? StatusTooManyRequests then
    Println "429 rate limited; backing off for 60s before retry…" ;;;
    Sleep (60 * Second) ;;;
    ret (Continue d)
  else if negb (status =? StatusOK) then
    Fatalf "unexpected status code: %d" [AInt status]
  else appendPage d pageActs.

(** The [for] loop itself. It has no bound in the source (a 429 repeats
    the same page for ever), so the model counts iterations down. *)
Fixpoint fetchAll (fuel : nat) (cfg : envVars) (d : driver) : M loopResult :=
  match fuel with
  | O => ret LoopOutOfFuel
  | S fuel' =>
      s <- pageStep cfg d ;;
      match s with
      | Continue d' => fetchAll fuel' cfg d'
      | Break d' => ret (LoopDone d')
      | Fatal => ret LoopFatal
      end
  end.

(** *** [main] *)

Definition noticeRotation (cfg : envVars) (rt : string) : M unit :=
  if negb (String.eqb rt "") &&
     negb (String.eqb rt (StravaRefreshToken cfg))
  then
    Println "NOTICE: Strava issued a new refresh token during auth." ;;;
    Println "Update STRAVA_REFRESH_TOKEN in your secrets to avoid future auth failures."
  else ret tt.

(** The end of [main], after the page loop: totals, summary lines, the
    rotation notice. *)
Definition report (cfg : envVars) (d : driver) : M exit :=
  Printf "Total activities fetched: %d" [AInt (lenSlice (all d))] ;;;
  let (deskCount, totalMeters) := aggregate (all d) in
  let miles := milesOf totalMeters in
  Printf "Desk Treadmill Activities: %d" [AInt deskCount] ;;;
  Printf "Total Distance: %.2f miles" [AFloat miles] ;;;
  noticeRotation cfg (refreshToken d) ;;;
  ret (Exit 0).

Definition main (fuel : nat) (config : viperOutcome) : M exit :=
  match config with
  | ReadInConfigError err =>
      Printf "read config: %v" [AErr err] ;;; ret (Exit 1)
  | UnmarshalConfigError err =>
      Printf "unmarshal config: %v" [AErr err] ;;; ret (Exit 1)
  | Loaded cfg =>
      r <- ensureAccessToken cfg ;;
      match r with
      | Err err => Printf "ensure access token: %v" [AErr err] ;;; ret (Exit 1)
      | Ok (at0, rt0) =>
          perr <- probeToken at0 ;;
          match perr with
          | Some err => Printf "token probe warning: %v" [AErr err]
          | None => ret tt
          end ;;;
          Println "Authenticated. Fetching activities (pages of 200)…" ;;;
          l <- fetchAll fuel cfg (mkDriver at0 rt0 1 []) ;;
          match l with
          | LoopOutOfFuel => ret OutOfFuel
          | LoopFatal => ret (Exit 1)
          | LoopDone d => report cfg d
          end
      end
  end.

End Program.

(* ================================================================= *)
(** ** Vocabulary of the properties *)

(** The error of the credentials guard of [refreshAccessToken]
    (the specification's [ConfigError]). *)
Definition missingCredentials : error :=
  errors_New "missing STRAVA_CLIENT_ID/SECRET/REFRESH_TOKEN".

(** The error of a rejected refresh grant (the specification's
    [AuthError]): status and body text. *)
Definition refreshFailed (status : Z) (body : string) : error :=
  fmt_Errorf "refresh failed status=%d body=%s" [AInt status; AStr body].

(** The request [refreshAccessToken] sends. *)
Definition refreshRequest (cfg : envVars) : Request :=
  setHeader "Accept" "application/json"
    (setHeader "Content-Type" "application/x-www-form-urlencoded"
       (mkReq "POST" authURL [] [] (Some (refreshForm cfg)))).

(** The request [probeToken] sends. *)
Definition athleteRequest (tok : string) : Request :=
  setHeader "Accept" "application/json"
    (setHeader "Authorization" ("Bearer " ++ tok)%string
       (mkReq "GET" athleteURL [] [] None)).

(** The request [fetchActivitiesPage] sends on every attempt. *)
Definition pageReq (tok : string) (p : Z) : Request :=
  pageRequest (mkReq "GET" activitiesURL [] [] None) tok p.

(** The rate-limit snapshot [fetchActivitiesPage] takes from a response. *)
Definition rateLimitOf (res : Response) : rateLimitUsage :=
  {| Usage := Values_Get "X-RateLimit-Usage" (RespHeader res);
     Limit := Values_Get "X-RateLimit-Limit" (RespHeader res) |}.

Definition isRefreshRequest (r : Request) : bool := String.eqb (URL r) authURL.

Definition refreshTokenSent (r : Request) : string :=
  match Form r with
  | Some f => Values_Get "refresh_token" f
  | None => ""
  end.

Definition is2xx (status : Z) : bool := (200 <=? status) && (status <? 300).

(** The refresh tokens that went out in the refresh grants of a trace. *)
Definition refreshTokensSent (t : Trace) : list string :=
  map refreshTokenSent (filter isRefreshRequest (sent t)).

(** The page indices of the calls of [fetchActivitiesPage] by [main]: each
    call is followed by the "page=" line or, for the retry after a refresh,
    by the "retry page=" line. *)
Fixpoint fetchCalls (t : Trace) : list Z :=
  match t with
  | [] => []
  | EvLog f (AInt p :: _) :: t' =>
      if String.eqb f "page=%d status=%d rateLimitUsage=%q" ||
         String.eqb f "retry page=%d status=%d rateLimitUsage=%q"
      then p :: fetchCalls t' else fetchCalls t'
  | _ :: t' => fetchCalls t'
  end.

(** The page indices for which the loop of [main] went into a token
    refresh: each is announced by the "401 unauthorized on page" line. *)
Fixpoint refreshAttempts (t : Trace) : list Z :=
  match t with
  | [] => []
  | EvLog f (AInt p :: _) :: t' =>
      if String.eqb f "401 unauthorized on page %d; attempting token refresh…"
      then p :: refreshAttempts t' else refreshAttempts t'
  | _ :: t' => refreshAttempts t'
  end.

(** The log lines of a trace. *)
Fixpoint logged (t : Trace) : list (string * list fmtArg) :=
  match t with
  | [] => []
  | EvLog f a :: t' => (f, a) :: logged t'
  | _ :: t' => logged t'
  end.

(** The log line of [main] after the first fetch of an iteration, and
    after the retry. *)
Definition pageLog (p st : Z) (rl : rateLimitUsage) : Event :=
  EvLog "page=%d status=%d rateLimitUsage=%q"
    [AInt p; AInt st; AStr (rateLimitUsage_String rl)].

Definition retryLog (p st : Z) (rl : rateLimitUsage) : Event :=
  EvLog "retry page=%d status=%d rateLimitUsage=%q"
    [AInt p; AInt st; AStr (rateLimitUsage_String rl)].

Definition retrievedLog (p : Z) (acts : list activity) : Event :=
  EvLog "Page %d retrieved with %d activities" [AInt p; AInt (lenSlice acts)].

Definition unauthorizedLog (p : Z) : Event :=
  EvLog "401 unauthorized on page %d; attempting token refresh…" [AInt p].

(** The driver after a page was accepted: the page is appended once, and
    the loop ends on a short page or moves to the next index. *)
Definition afterPage (d : driver) (acts : list activity) : stepResult :=
  if lenSlice acts <? perPage
  then Break (mkDriver (accessToken d) (refreshToken d) (page d) (all d ++ acts))
  else Continue (mkDriver (accessToken d) (refreshToken d) (add64 (page d) 1)
                   (all d ++ acts)).

Section Vocabulary.

Context {E : Env}.

Definition credentialsMissing (cfg : envVars) : bool :=
  blank (StravaClientId cfg) || blank (StravaClientSecret cfg) ||
  blank (StravaRefreshToken cfg).

(** The requests one call of [refreshAccessToken] puts on the wire. *)
Definition refreshRequests (cfg : envVars) : list Request :=
  if credentialsMissing cfg then [] else [refreshRequest cfg].

(** The server answers the page requests [p], [p+1], ... that follow the
    history [hist] with status 200 and bodies that decode to [pages], one
    clean response per request. *)
Fixpoint servesPages (hist : list Request) (tok : string) (p : Z)
    (pages : list (list activity)) : Prop :=
  match pages with
  | [] => True
  | pg :: rest =>
      (exists res,
          srv hist (pageReq tok p) = Ok res /\
          StatusCode res = StatusOK /\
          ReadErr res = None /\
          json_Unmarshal_activities (Body res) = Ok pg) /\
      servesPages (hist ++ [pageReq tok p]) tok (p + 1) rest
  end.

(** From the trace [t] on, the calls of [fetchActivitiesPage] by the loop
    of [main] for the pages [p], [p+1], ... return status 200 and the pages
    [pages], one after the other. *)
Fixpoint fetchesPages (t : Trace) (tok : string) (p : Z)
    (pages : list (list activity)) : Prop :=
  match pages with
  | [] => True
  | pg :: rest =>
      exists rl t1,
        fetchActivitiesPage tok p t = ((pg, StatusOK, rl), t1) /\
        fetchesPages (t1 ++ [pageLog p StatusOK rl; retrievedLog p pg])
          tok (p + 1) rest
  end.

End Vocabulary.

(** The page indices [p], [p+1], ..., [p+n-1]. *)
Fixpoint pagesFrom (p : Z) (n : nat) : list Z :=
  match n with
  | O => []
  | S n' => p :: pagesFrom (p + 1) n'
  end.

(** *** Names *)

Definition isASCII (l : list ascii) : Prop :=
  Forall (fun c => byte_of c < RuneSelf) l.

Definition spaces (l : list ascii) : Prop :=
  Forall (fun c => asciiSpace c = true) l.

Definition lowerByte (b : Z) : Z :=
  if (65 <=? b) && (b <=? 90) then b + 32 else b.

(** Equal up to ASCII letter case. *)
Definition sameLetter (c1 c2 : ascii) : Prop :=
  lowerByte (byte_of c1) = lowerByte (byte_of c2).

(** [name] is [target], in any letter case, between two runs of white
    space. *)
Definition trimmedNameIs (target name : string) : Prop :=
  exists l core r,
    bytes_of_string name = l ++ core ++ r /\
    spaces l /\ spaces r /\
    Forall2 sameLetter core (bytes_of_string target).

(** The float64 sum the aggregation loop builds, in slice order. *)
Definition sumDistances (l : list activity) : float :=
  fold_left (fun acc a => (acc + Distance a)%float) l 0%float.

(* ================================================================= *)
(** ** Concrete runs *)

Module Scenario.

(** A server that plays a script: the n-th request gets the n-th entry;
    past the end the connection fails. *)
Definition scriptServer (script : list (result Response)) : Server :=
  fun hist _ => nth (List.length hist) script (Err (ExternalError "connection refused")).

(** A decoder given by a table of the bodies it accepts. *)
Fixpoint decodeWith {A : Type} (table : list (string * A)) (body : string) : result A :=
  match table with
  | [] => Err (ExternalError "invalid character")
  | (b, v) :: rest => if String.eqb b body then Ok v else decodeWith rest body
  end.

(** The Unicode paths are never reached on the ASCII data below. *)
Definition env (acts : list (string * list activity))
    (auths : list (string * authResponse)) (s : Server) : Env :=
  {| TrimFunc_IsSpace := fun x => x;
     TrimRightFunc_IsSpace := fun x => x;
     EqualFold_runes := fun _ _ => false;
     json_Unmarshal_activities := decodeWith acts;
     json_Unmarshal_auth := decodeWith auths;
     srv := s |}.

Definition ok (status : Z) (body : string) : result Response :=
  Ok (mkResp status [] body None).

Definition walk : activity := mkActivity 7 "Desk Treadmill" 1000.

Definition cfg0 : envVars :=
  {| StravaClientId := "12345";
     StravaClientSecret := "s3cret";
     StravaRefreshToken := "R0";
     StravaAccessToken := "A0" |}.

Definition grant1 : authResponse := mkAuth "A1" 21600 "Bearer" "R1".
Definition grant2 : authResponse := mkAuth "A2" 21600 "Bearer" "R2".

Definition grants : list (string * authResponse) :=
  [("grant-1", grant1); ("grant-2", grant2)].

Definition pageA : list activity := repeat walk 200.
Definition pageB : list activity := repeat (mkActivity 8 "Run" 5000) 200.
Definition pageC : list activity := repeat walk 150.
Definition page80 : list activity := repeat walk 80.

Definition pages : list (string * list activity) :=
  [("page-a", pageA); ("page-b", pageB); ("page-c", pageC);
   ("page-80", page80); ("[]", [])].

(** Three pages of 200, 200 and 150 activities. *)
Definition threePages : Env :=
  env pages grants
    (scriptServer [ok 200 "page-a"; ok 200 "page-b"; ok 200 "page-c"]).

(** A server that accepts everything with status 200. *)
Definition alwaysOK : Env := env pages grants (fun _ _ => ok 200 "grant-1").

(** A server that rejects every bearer token. *)
Definition always401 : Env := env pages grants (fun _ _ => ok 401 "unauthorized").

(** A cached access token that is one space. *)
Definition cfgSpace : envVars :=
  {| StravaClientId := "12345";
     StravaClientSecret := "s3cret";
     StravaRefreshToken := "R0";
     StravaAccessToken := " " |}.

(** A client secret of white space only. *)
Definition cfgBlankSecret : envVars :=
  {| StravaClientId := "12345";
     StravaClientSecret := String (ascii_of_nat 9) "  ";
     StravaRefreshToken := "R0";
     StravaAccessToken := "A0" |}.

(** No cached access token. *)
Definition cfgNoAccess : envVars :=
  {| StravaClientId := "12345";
     StravaClientSecret := "s3cret";
     StravaRefreshToken := "R0";
     StravaAccessToken := "" |}.

(** The token endpoint answers 201 Created with a well-formed grant. *)
Definition created201 : Env := env pages grants (fun _ _ => ok 201 "grant-1").

(** The token endpoint answers 500 with a body of 400 bytes. *)
Definition longBody : string := string_of_bytes (repeat "x"%char 400).
Definition failing500 : Env := env pages grants (fun _ _ => ok 500 longBody).

(** The token endpoint answers 200 with a body that is not JSON. *)
Definition html200 : Env :=
  env pages grants (fun _ _ => ok 200 "<html>Bad Gateway</html>").

(** Page 1 is rejected with 401; the refresh is granted; the retry of
    page 1 returns 80 activities. *)
Definition expiredOnce : Env :=
  env pages grants
    (scriptServer [ok 401 "expired"; ok 200 "grant-1"; ok 200 "page-80"]).

(** Page 1 is rejected with 401; the refresh is granted; the retry is
    rejected too. *)
Definition expiredTwice : Env :=
  env pages grants
    (scriptServer [ok 401 "expired"; ok 200 "grant-1"; ok 401 "expired";
                   ok 200 "page-80"]).

(** The cached token passes both probes; page 1 holds 200 activities; the
    body of page 2 is an error page sent with status 200. *)
Definition brokenSecondPage : Env :=
  env pages grants
    (scriptServer [ok 200 "[]"; ok 200 "{}"; ok 200 "page-a";
                   ok 200 "<html>Bad Gateway</html>"; ok 200 "page-c"]).

(** A provider that rotates refresh tokens: the first grant takes "R0" and
    issues "R1"; from then on only "R1" is honoured. The first request for
    activities finds the access token expired. *)
Definition rotatingServer : Server :=
  fun hist req =>
    if isRefreshRequest req then
      if existsb isRefreshRequest hist then
        if String.eqb (refreshTokenSent req) "R1"
        then ok 200 "grant-2" else ok 400 "invalid_grant"
      else
        if String.eqb (refreshTokenSent req) "R0"
        then ok 200 "grant-1" else ok 400 "invalid_grant"
    else if String.eqb (URL req) athleteURL then ok 200 "{}"
    else if existsb (fun r => String.eqb (URL r) activitiesURL) hist
    then ok 200 "page-80"
    else ok 401 "expired".

Definition rotating : Env := env pages grants rotatingServer.

Definition threeActivities : list activity :=
  [mkActivity 1 "Desk Treadmill" 1000;
   mkActivity 2 "desk treadmill " 500;
   mkActivity 3 "Run" 5000].

End Scenario.

(* ================================================================= *)
(** ** Proof tools *)

Ltac run_step :=
  unfold Fatalf, Printf, Println, Sleep in *;
  unfold bind, ret, emit, Do in *; cbn beta iota zeta.

(* ================================================================= *)
(** ** More vocabulary: retries, summaries *)

(** What makes [fetchActivitiesPage] go to its next attempt: a transport
    error, a body that cannot be read, or status 429. *)
Definition retryable (r : result Response) : bool :=
  match r with
  | Err _ => true
  | Ok res =>
      match ReadErr res with
      | Some _ => true
      | None => StatusCode res =? StatusTooManyRequests
      end
  end.

(** The sleeps of one call of [fetchActivitiesPage] that runs out of
    attempts. *)
Definition backoffs : list Z := [1 * Second; 2 * Second; 4 * Second].

(** A request of the page loop: a page request, or the refresh grant of
    the configuration. *)
Definition loopRequest (cfg : envVars) (r : Request) : Prop :=
  r = refreshRequest cfg \/ exists tok p, r = pageReq tok p.

(** The trace [t'] continues the trace [t]. *)
Definition continues (t t' : Trace) : Prop := exists l, t' = t ++ l.

Section Accepted.

Context {E : Env}.

(** [acceptedFrom p t pages q t']: between the traces [t] and [t'],
    [pages] are the activities returned, each with status 200, by calls of
    [fetchActivitiesPage] made one after the other for the indices [p],
    [p + 1], ... up to [q]; each call starts where the trace then stood
    and after the call before it ended; every page but the last has at
    least [perPage] items and the last has fewer. *)
Inductive acceptedFrom : Z -> Trace -> list (list activity) -> Z -> Trace -> Prop :=
| accepted_last (p : Z) (t t0 t1 t' : Trace) (tok : string)
    (acts : list activity) (rl : rateLimitUsage) :
    continues t t0 ->
    fetchActivitiesPage tok p t0 = ((acts, StatusOK, rl), t1) ->
    lenSlice acts < perPage ->
    continues t1 t' ->
    acceptedFrom p t [acts] p t'
| accepted_next (p q : Z) (t t0 t1 t' : Trace) (tok : string)
    (acts : list activity) (rl : rateLimitUsage) (rest : list (list activity)) :
    continues t t0 ->
    fetchActivitiesPage tok p t0 = ((acts, StatusOK, rl), t1) ->
    perPage <= lenSlice acts ->
    acceptedFrom (add64 p 1) t1 rest q t' ->
    acceptedFrom p t (acts :: rest) q t'.

(** What one accepted page does to the driver. *)
Definition tookPage (d d1 : driver) (t t' : Trace) (short : bool) : Prop :=
  exists tok t0 acts rl t1,
    continues t t0 /\
    fetchActivitiesPage tok (page d) t0 = ((acts, StatusOK, rl), t1) /\
    continues t1 t' /\
    (if short then lenSlice acts < perPage /\ page d1 = page d
     else perPage <= lenSlice acts /\ page d1 = add64 (page d) 1) /\
    all d1 = all d ++ acts.

End Accepted.

Section Summary.

Context {E : Env}.

(** The three summary lines of [main]. *)
Definition summaryLines (d : driver) : list Event :=
  [EvLog "Total activities fetched: %d" [AInt (lenSlice (all d))];
   EvLog "Desk Treadmill Activities: %d" [AInt (fst (aggregate (all d)))];
   EvLog "Total Distance: %.2f miles"
     [AFloat (snd (aggregate (all d)) * 0.000621371)%float]].

End Summary.

(* ================================================================= *)
(** ** The earlier [main] of [main.go]

    The first variant in the file: no token refresh, no status test, no
    retry; every failure is [logger.Fatal]. Format strings are kept as
    the source writes them. *)

Module Legacy.

Record activity := mkActivity {
  Id : Z;
  Name : string;
  Description : string;
  Distance : float;
  MovingTime : Z;
  ElapsedTime : Z;
  Type_ : string;
  StartDate : string;
  StartTime : string;
  EndDate : string;
  EndTime : string
}.

Definition activitesUrl : string := "https://www.strava.com/api/v3/athlete/activities".

(** [q.Add] on [url.Values]. *)
Definition Values_Add (k v : string) (q : Values) : Values := q ++ [(k, v)].

(** [http.NewRequest] with the literal method and URL of this program. *)
Definition NewRequest (method url : string) : result Request :=
  Ok {| Method := method; URL := url; RawQuery := []; Header := []; Form := None |}.

(** The request of one iteration: the query is added, the header map is
    replaced by one holding the bearer token. *)
Definition pageRequest (req : Request) (token : string) (page : Z) : Request :=
  let q := RawQuery req in
  let q := Values_Add "per_page" "200" q in
  let q := Values_Add "page" (Itoa page) q in
  {| Method := Method req; URL := URL req; RawQuery := q;
     Header := [("Authorization", ("Bearer " ++ token)%string)];
     Form := Form req |}.

Definition pageReq (token : string) (p : Z) : Request :=
  pageRequest (mkReq "GET" activitesUrl [] [] None) token p.

Definition lowerAscii (c : ascii) : ascii :=
  let b := byte_of c in
  if (65 <=? b) && (b <=? 90) then ascii_of_N (Z.to_N (b + 32)) else c.

Inductive stepResult : Type :=
| Continue (page : Z) (activities : list activity)
| Break (activities : list activity)
| Fatal.

Inductive loopResult : Type :=
| LoopDone (activities : list activity)
| LoopFatal
| LoopOutOfFuel.

Section Program.

Context {E : Env}.

(** [strings.Map(unicode.ToLower, s)], the path [strings.ToLower] takes on
    a string with a byte outside ASCII, and [json.Unmarshal] into a
    [[]activity] of this variant. *)
Variable ToLower_runes : string -> string.
Variable json_Unmarshal_activities : string -> result (list activity).

(** [strings.ToLower]: ASCII strings are lowered byte by byte. *)
Definition ToLower (s : string) : string :=
  if forallb (fun c => byte_of c <? RuneSelf) (bytes_of_string s)
  then string_of_bytes (map lowerAscii (bytes_of_string s))
  else ToLower_runes s.

(** [logger.Fatal(err)] *)
Definition Fatal_ (err : error) : M stepResult :=
  Printf "%v" [AErr err] ;;; ret Fatal.

(** One iteration of the [for] loop. *)
Definition pageStep (token : string) (page : Z) (activities : list activity)
  : M stepResult :=
  match NewRequest "GET" activitesUrl with
  | Err err => Fatal_ err
  | Ok req =>
      let req := pageRequest req token page in
      r <- Do req ;;
      match r with
      | Err err => Fatal_ err
      | Ok res =>
          match ReadErr res with
          | Some readErr => Fatal_ readErr
          | None =>
              let body := Body res in
              Println body ;;;
              match json_Unmarshal_activities body with
              | Err err => Fatal_ err
              | Ok pageActivities =>
                  if lenSlice pageActivities =? 200 then
                    Printf "Page %d retrieved with %d activities\n"
                      [AInt page; AInt (lenSlice pageActivities)] ;;;
                    ret (Continue (add64 page 1) (activities ++ pageActivities))
                  else
                    Printf "Page %d retrieved with %d activities\n"
                      [AInt page; AInt (lenSlice pageActivities)] ;;;
                    ret (Break (activities ++ pageActivities))
              end
          end
      end
  end.

(** The loop; it has no bound in the source. *)
Fixpoint fetchAll (fuel : nat) (token : string) (page : Z)
    (activities : list activity) : M loopResult :=
  match fuel with
  | O => ret LoopOutOfFuel
  | S fuel' =>
      s <- pageStep token page activities ;;
      match s with
      | Continue page' activities' => fetchAll fuel' token page' activities'
      | Break activities' => ret (LoopDone activities')
      | Fatal => ret LoopFatal
      end
  end.

Definition isDeskTreadmill (a : activity) : bool :=
  String.eqb (ToLower (Name a)) "desk treadmill".

(** [for _, activity := range activities] with the running [distance]
    and [deskCount]. *)
Fixpoint aggregateFrom (l : list activity) (deskCount : Z) (distance : float)
  : Z * float :=
  match l with
  | [] => (deskCount, distance)
  | a :: l' =>
      if isDeskTreadmill a
      then aggregateFrom l' (add64 deskCount 1) (distance + Distance a)%float
      else aggregateFrom l' deskCount distance
  end.

Definition main (fuel : nat) (config : viperOutcome) : M exit :=
  match config with
  | ReadInConfigError err => Printf "%v" [AErr err] ;;; ret (Exit 1)
  | UnmarshalConfigError err => Printf "%v" [AErr err] ;;; ret (Exit 1)
  | Loaded config =>
      let token := StravaAccessToken config in
      Println "Authenticated - Preparing to get activities by page of 200" ;;;
      l <- fetchAll fuel token 1 [] ;;
      match l with
      | LoopOutOfFuel => ret OutOfFuel
      | LoopFatal => ret (Exit 1)
      | LoopDone activities =>
          Printf "Total Number of activities: %d\n" [AInt (lenSlice activities)] ;;;
          let (deskCount, distance) := aggregateFrom activities 0 0%float in
          Printf "Desk Treadmill Activities: %d\n" [AInt deskCount] ;;;
          Printf "Total Distance: %f Miles since September 12th \n"
            [AFloat (distance * 0.000621371)%float] ;;;
          ret (Exit 0)
      end
  end.

End Program.

(** The answers on which an iteration stops the run: a transport error,
    a body that cannot be read, a body that does not decode. *)
Definition fails (decode : string -> result (list activity))
    (r : result Response) : bool :=
  match r with
  | Err _ => true
  | Ok res =>
      match ReadErr res with
      | Some _ => true
      | None => match decode (Body res) with Err _ => true | Ok _ => false end
      end
  end.

(** What every request of this variant looks like. *)
Definition bearerGet (tok : string) (r : Request) : Prop :=
  Method r = "GET" /\ URL r = activitesUrl /\ Form r = None /\
  Header r = [("Authorization", ("Bearer " ++ tok)%string)] /\
  Values_Get "per_page" (RawQuery r) = "200".

(** The server answers the requests for the pages [p], [p+1], ... that
    follow the history [hist] with bodies that can be read and decode to
    [pages]; nothing is asked of the status. *)
Fixpoint servesPages {E : Env} (decode : string -> result (list activity))
    (hist : list Request) (tok : string) (p : Z)
    (pages : list (list activity)) : Prop :=
  match pages with
  | [] => True
  | pg :: rest =>
      (exists res,
          srv hist (pageReq tok p) = Ok res /\
          ReadErr res = None /\
          decode (Body res) = Ok pg) /\
      servesPages decode (hist ++ [pageReq tok p]) tok (p + 1) rest
  end.

End Legacy.

(* ================================================================= *)
(** ** More concrete runs *)

Module Scenario2.

Import Scenario.

(** No connection at all. *)
Definition unreachable : Env :=
  env pages grants (fun _ _ => Err (ExternalError "dial tcp: i/o timeout")).

(** Every request is rate limited. *)
Definition always429 : Env :=
  env pages grants (fun _ _ => ok 429 "rate limit exceeded").

(** Status 200, but the body breaks off while it is read. *)
Definition unreadable200 : Env :=
  env pages grants
    (fun _ _ => Ok (mkResp 200 [] "" (Some (ExternalError "unexpected EOF")))).

(** Both probes pass, then three pages of 200, 200 and 150 activities. *)
Definition fullRun : Env :=
  env pages grants
    (scriptServer [ok 200 "[]"; ok 200 "{}";
                   ok 200 "page-a"; ok 200 "page-b"; ok 200 "page-c"]).

(** The grant is answered with status 200 and a JSON object that has no
    member. [json.Unmarshal] into a struct accepts an object without the
    struct's members, and [null], and leaves the struct as it was: the
    zero value here. *)
Definition emptyObject200 : Env :=
  env pages (("{}", mkAuth "" 0 "" "") :: ("null", mkAuth "" 0 "" "") :: grants)
    (fun _ _ => ok 200 "{}").

(** Nothing configured. *)
Definition cfgEmpty : envVars :=
  {| StravaClientId := "";
     StravaClientSecret := "";
     StravaRefreshToken := "";
     StravaAccessToken := "  " |}.

Definition oldWalk : Legacy.activity :=
  Legacy.mkActivity 7 "DESK treadmill" "" 1000 900 900 "Walk"
    "2023-09-12T10:00:00Z" "" "" "".

Definition oldPageA : list Legacy.activity := repeat oldWalk 200.
Definition oldPageC : list Legacy.activity := repeat oldWalk 150.

Definition oldPages : string -> result (list Legacy.activity) :=
  decodeWith [("page-a", oldPageA); ("page-c", oldPageC); ("[]", [])].

(** Two pages, the first of them sent with status 500. *)
Definition twoOldPages : Env :=
  env pages grants (scriptServer [ok 500 "page-a"; ok 200 "page-c"]).

End Scenario2.

(* ================================================================= *)
(** ** [backoff] *)

(** In the range where nanoseconds fit 63 bits, [backoff] is the capped
    exponential. *)
Lemma backoff_in_range (n : Z) :
  1 <= n <= 34 ->
  backoff n = Z.min (2 ^ (n - 1) * Second) (30 * Second).
Proof.
  intros H.
  assert (Hk : exists k : nat, (k < 34)%nat /\ n = Z.of_nat k + 1).
  { exists (Z.to_nat (n - 1)). lia. }
  destruct Hk as (k & Hk & ->).
  do 34 (destruct k as [| k]; [vm_compute; reflexivity |]).
  lia.
Qed.

Lemma backoff_below_one (n : Z) : n < 1 -> backoff n = Second.
Proof.
  intros H. unfold backoff.
  destruct (n <? 1) eqn:En; [reflexivity | apply Z.ltb_ge in En; lia].
Qed.


(* ================================================================= *)
(** ** Traces *)

Lemma sent_app (t1 t2 : Trace) : sent (t1 ++ t2) = sent t1 ++ sent t2.
Proof.
  induction t1 as [| e t1 IH]; [reflexivity |].
  destruct e; cbn [sent app]; rewrite IH; reflexivity.
Qed.

Lemma slept_app (t1 t2 : Trace) : slept (t1 ++ t2) = slept t1 ++ slept t2.
Proof.
  induction t1 as [| e t1 IH]; [reflexivity |].
  destruct e; cbn [slept app]; rewrite IH; reflexivity.
Qed.

Lemma fetchCalls_app (t1 t2 : Trace) :
  fetchCalls (t1 ++ t2) = fetchCalls t1 ++ fetchCalls t2.
Proof.
  induction t1 as [| e t1 IH]; [reflexivity |].
  destruct e as [req res | d | f a]; cbn [app fetchCalls]; try exact IH.
  destruct a as [| [z | s | fl | er] a]; try exact IH.
  destruct (String.eqb f "page=%d status=%d rateLimitUsage=%q" ||
            String.eqb f "retry page=%d status=%d rateLimitUsage=%q");
    [cbn [app]; f_equal; exact IH | exact IH].
Qed.

Lemma refreshAttempts_app (t1 t2 : Trace) :
  refreshAttempts (t1 ++ t2) = refreshAttempts t1 ++ refreshAttempts t2.
Proof.
  induction t1 as [| e t1 IH]; [reflexivity |].
  destruct e as [req res | d | f a]; cbn [app refreshAttempts]; try exact IH.
  destruct a as [| [z | s | fl | er] a]; try exact IH.
  destruct (String.eqb f "401 unauthorized on page %d; attempting token refresh…");
    [cbn [app]; f_equal; exact IH | exact IH].
Qed.

Lemma sent_log (t : Trace) (f : string) (a : list fmtArg) :
  sent (t ++ [EvLog f a]) = sent t.
Proof. rewrite sent_app. cbn. apply app_nil_r. Qed.

Lemma sent_do (t : Trace) (req : Request) (res : result Response) :
  sent (t ++ [EvDo req res]) = sent t ++ [req].
Proof. rewrite sent_app. reflexivity. Qed.

(* ================================================================= *)
(** ** Token manager *)

Section TokenManager.

Context {E : Env}.

(** [refreshAccessToken] once the credentials guard has passed: one
    request, then a case analysis on the response. *)
Lemma refresh_unfold (cfg : envVars) (t : Trace) :
  credentialsMissing cfg = false ->
  refreshAccessToken cfg t =
  let r := srv (sent t) (refreshRequest cfg) in
  let t1 := t ++ [EvDo (refreshRequest cfg) r] in
  match r with
  | Err err => (Err (fmt_Errorf "refresh req: %w" [AErr err]), t1)
  | Ok res =>
      if StatusCode res =? StatusOK then
        match json_Unmarshal_auth (Body res) with
        | Err err => (Err (fmt_Errorf "unmarshal refresh: %w" [AErr err]), t1)
        | Ok auth =>
            (Ok (AccessToken auth, RefreshToken auth),
             t1 ++ [EvLog "token refreshed; expires in ~%d seconds"
                      [AInt (ExpiresIn auth)]])
        end
      else (Err (refreshFailed (StatusCode res) (Body res)), t1)
  end.
Proof.
  intros Hc. unfold refreshAccessToken.
  unfold credentialsMissing in Hc. rewrite Hc.
  cbn [NewRequestWithContext]. fold (refreshRequest cfg).
  run_step.
  destruct (srv (sent t) (refreshRequest cfg)) as [res | err]; [| reflexivity].
  destruct (StatusCode res =? StatusOK); cbn [negb]; [| reflexivity].
  destruct (json_Unmarshal_auth (Body res)); reflexivity.
Qed.

Lemma refresh_missing (cfg : envVars) (t : Trace) :
  credentialsMissing cfg = true ->
  refreshAccessToken cfg t = (Err missingCredentials, t).
Proof.
  intros Hc. unfold refreshAccessToken.
  unfold credentialsMissing in Hc. rewrite Hc. reflexivity.
Qed.

(** One call of [refreshAccessToken] sends [refreshRequests cfg]: nothing
    when a credential is blank, one POST otherwise. *)
Lemma refresh_sent (cfg : envVars) (t : Trace) :
  sent (snd (refreshAccessToken cfg t)) = sent t ++ refreshRequests cfg.
Proof.
  unfold refreshRequests.
  destruct (credentialsMissing cfg) eqn:Hc.
  - rewrite refresh_missing by exact Hc. cbn. symmetry. apply app_nil_r.
  - rewrite refresh_unfold by exact Hc. cbv zeta.
    destruct (srv (sent t) (refreshRequest cfg)) as [res | err];
      [| apply sent_do].
    destruct (StatusCode res =? StatusOK); [| apply sent_do].
    destruct (json_Unmarshal_auth (Body res)); cbn [snd];
      rewrite ?sent_log; apply sent_do.
Qed.

(** What one call of [refreshAccessToken] adds to the trace: its
    requests, and no line of the page loop. *)
Lemma refresh_delta (cfg : envVars) (t : Trace) :
  exists l,
    snd (refreshAccessToken cfg t) = t ++ l /\
    sent l = refreshRequests cfg /\
    fetchCalls l = [] /\ refreshAttempts l = [].
Proof.
  unfold refreshRequests.
  destruct (credentialsMissing cfg) eqn:Hc.
  - rewrite refresh_missing by exact Hc. exists []. cbn [snd].
    rewrite app_nil_r. repeat split; reflexivity.
  - rewrite refresh_unfold by exact Hc. cbv zeta.
    destruct (srv (sent t) (refreshRequest cfg)) as [res | err].
    + destruct (StatusCode res =? StatusOK).
      * destruct (json_Unmarshal_auth (Body res)) as [auth | err]; cbn [snd].
        -- rewrite <- app_assoc. eexists. split; [reflexivity |].
           repeat split; reflexivity.
        -- eexists. split; [reflexivity |]. repeat split; reflexivity.
      * eexists. split; [reflexivity |]. repeat split; reflexivity.
    + eexists. split; [reflexivity |]. repeat split; reflexivity.
Qed.

(** C5. When the client id, the client secret or the refresh token is
    blank (empty, or nothing but white space: [strings.TrimSpace] leaves
    the empty string), [refreshAccessToken] returns the missing-credentials
    error and the trace is unchanged: no request is sent. *)
Theorem refresh_blank_credentials (cfg : envVars) (t : Trace) :
  blank (StravaClientId cfg) = true \/
  blank (StravaClientSecret cfg) = true \/
  blank (StravaRefreshToken cfg) = true ->
  refreshAccessToken cfg t = (Err missingCredentials, t) /\
  sent (snd (refreshAccessToken cfg t)) = sent t.
Proof.
  intros H.
  assert (Hc : credentialsMissing cfg = true).
  { unfold credentialsMissing.
    destruct H as [H | [H | H]]; rewrite H; rewrite ?orb_true_r; reflexivity. }
  rewrite refresh_missing by exact Hc. split; reflexivity.
Qed.

(** A failed refresh carries the body as read, whatever its length. *)
Lemma refresh_failure_body (cfg : envVars) (t : Trace) (res : Response) :
  credentialsMissing cfg = false ->
  srv (sent t) (refreshRequest cfg) = Ok res ->
  StatusCode res <> StatusOK ->
  fst (refreshAccessToken cfg t) = Err (refreshFailed (StatusCode res) (Body res)).
Proof.
  intros Hc Hs Hst. rewrite refresh_unfold by exact Hc. cbv zeta. rewrite Hs.
  destruct (StatusCode res =? StatusOK) eqn:Est; [| reflexivity].
  apply Z.eqb_eq in Est. contradiction.
Qed.

(** C6, as amended. The test is on status 200 alone. A response with any
    other status gives the refresh-failed error with that status and the
    body of the response, as it was read; a response with status 200 whose
    body decodes gives the decoded access and refresh tokens. Exactly one
    request is sent. *)
Theorem refresh_response_status (cfg : envVars) (t : Trace) (res : Response) :
  credentialsMissing cfg = false ->
  srv (sent t) (refreshRequest cfg) = Ok res ->
  (StatusCode res <> StatusOK ->
   refreshAccessToken cfg t =
   (Err (fmt_Errorf "refresh failed status=%d body=%s"
           [AInt (StatusCode res); AStr (Body res)]),
    t ++ [EvDo (refreshRequest cfg) (Ok res)])) /\
  (StatusCode res = StatusOK ->
   forall auth, json_Unmarshal_auth (Body res) = Ok auth ->
     fst (refreshAccessToken cfg t) = Ok (AccessToken auth, RefreshToken auth) /\
     sent (snd (refreshAccessToken cfg t)) = sent t ++ [refreshRequest cfg]).
Proof.
  intros Hc Hs. rewrite refresh_unfold by exact Hc. cbv zeta. rewrite Hs.
  split.
  - intros Hst.
    destruct (StatusCode res =? StatusOK) eqn:Est; [| reflexivity].
    apply Z.eqb_eq in Est. contradiction.
  - intros Hst auth Hj. rewrite Hst, Hj. cbn.
    rewrite sent_log, sent_do. split; reflexivity.
Qed.

(** C10, as amended. The test is the error of [json.Unmarshal] alone. A
    200 response whose body the decoder rejects makes [refreshAccessToken]
    return the decoder's error, wrapped; whenever [refreshAccessToken]
    succeeds, a 200 response was received, its body decoded, and the
    tokens returned are the decoded fields; and every 200 response whose
    body decodes is a success with the decoded fields, whatever they hold:
    nothing asks that a token is not empty. *)
Theorem refresh_undecodable_body :
  (forall (cfg : envVars) (t : Trace) (res : Response) (err : error),
      credentialsMissing cfg = false ->
      srv (sent t) (refreshRequest cfg) = Ok res ->
      StatusCode res = StatusOK ->
      json_Unmarshal_auth (Body res) = Err err ->
      refreshAccessToken cfg t =
      (Err (fmt_Errorf "unmarshal refresh: %w" [AErr err]),
       t ++ [EvDo (refreshRequest cfg) (Ok res)])) /\
  (forall (cfg : envVars) (t t' : Trace) (tok rtok : string),
      refreshAccessToken cfg t = (Ok (tok, rtok), t') ->
      exists res auth,
        srv (sent t) (refreshRequest cfg) = Ok res /\
        StatusCode res = StatusOK /\
        json_Unmarshal_auth (Body res) = Ok auth /\
        tok = AccessToken auth /\ rtok = RefreshToken auth) /\
  (forall (cfg : envVars) (t : Trace) (res : Response) (auth : authResponse),
      credentialsMissing cfg = false ->
      srv (sent t) (refreshRequest cfg) = Ok res ->
      StatusCode res = StatusOK ->
      json_Unmarshal_auth (Body res) = Ok auth ->
      fst (refreshAccessToken cfg t) = Ok (AccessToken auth, RefreshToken auth)).
Proof.
  split; [| split].
  - intros cfg t res err Hc Hs Hst Hj.
    rewrite refresh_unfold by exact Hc. cbv zeta. rewrite Hs, Hst, Hj.
    reflexivity.
  - intros cfg t t' tok rtok H.
    destruct (credentialsMissing cfg) eqn:Hc.
    + rewrite refresh_missing in H by exact Hc. discriminate.
    + rewrite refresh_unfold in H by exact Hc. cbv zeta in H.
      destruct (srv (sent t) (refreshRequest cfg)) as [res | err];
        [| discriminate].
      destruct (StatusCode res =? StatusOK) eqn:Est; [| discriminate].
      destruct (json_Unmarshal_auth (Body res)) as [auth | err] eqn:Ej;
        [| discriminate].
      inversion H; subst. exists res, auth.
      apply Z.eqb_eq in Est. repeat split; auto.
  - intros cfg t res auth Hc Hs Hst Hj.
    rewrite refresh_unfold by exact Hc. cbv zeta. rewrite Hs, Hst, Hj.
    reflexivity.
Qed.

(** [ensureAccessToken] with a cached token that is not blank: the probe
    is sent, and the rest depends on its outcome. *)
Lemma ensure_unfold (cfg : envVars) (t : Trace) :
  blank (StravaAccessToken cfg) = false ->
  ensureAccessToken cfg t =
  let r := srv (sent t) (probeRequest cfg) in
  let t1 := t ++ [EvDo (probeRequest cfg) r] in
  match r with
  | Err err =>
      refreshAccessToken cfg
        (t1 ++ [EvLog "token probe failed (will refresh): %v" [AErr err]])
  | Ok res =>
      if StatusCode res =? StatusUnauthorized then
        refreshAccessToken cfg
          (t1 ++ [EvLog "Configured access token rejected; refreshing…" []])
      else (Ok (StravaAccessToken cfg, StravaRefreshToken cfg), t1)
  end.
Proof.
  intros Hb. unfold ensureAccessToken. rewrite Hb. run_step.
  destruct (srv (sent t) (probeRequest cfg)) as [res | err]; [| reflexivity].
  destruct (StatusCode res =? StatusUnauthorized); reflexivity.
Qed.

(** C4, as amended. With a cached access token that is not blank: a probe
    answered with any status but 401 returns the cached access and refresh
    tokens, and the probe is the only request sent; a probe answered with
    401, or failing in transport, is followed by one run of
    [refreshAccessToken], whose result is returned, and by at most its one
    request. *)
Theorem ensure_cached_token (cfg : envVars) (t : Trace) :
  blank (StravaAccessToken cfg) = false ->
  (forall res,
      srv (sent t) (probeRequest cfg) = Ok res ->
      StatusCode res <> StatusUnauthorized ->
      ensureAccessToken cfg t =
      (Ok (StravaAccessToken cfg, StravaRefreshToken cfg),
       t ++ [EvDo (probeRequest cfg) (Ok res)]) /\
      sent (snd (ensureAccessToken cfg t)) = sent t ++ [probeRequest cfg]) /\
  (forall r,
      srv (sent t) (probeRequest cfg) = r ->
      (exists err, r = Err err) \/
      (exists res, r = Ok res /\ StatusCode res = StatusUnauthorized) ->
      exists f a,
        ensureAccessToken cfg t =
        refreshAccessToken cfg (t ++ [EvDo (probeRequest cfg) r; EvLog f a]) /\
        sent (snd (ensureAccessToken cfg t)) =
        sent t ++ [probeRequest cfg] ++ refreshRequests cfg).
Proof.
  intros Hb. split.
  - intros res Hs Hst. rewrite ensure_unfold by exact Hb. cbv zeta. rewrite Hs.
    destruct (StatusCode res =? StatusUnauthorized) eqn:Est.
    + apply Z.eqb_eq in Est. contradiction.
    + cbn [snd]. rewrite sent_do. split; reflexivity.
  - intros r Hs Hr. rewrite ensure_unfold by exact Hb. cbv zeta. rewrite Hs.
    destruct Hr as [(err & ->) | (res & -> & Hst)].
    + exists "token probe failed (will refresh): %v", [AErr err].
      rewrite <- app_assoc. cbn [app]. split; [reflexivity |].
      rewrite refresh_sent, sent_app. cbn [sent]. rewrite <- app_assoc.
      reflexivity.
    + rewrite Hst. cbn [Z.eqb StatusUnauthorized Pos.eqb].
      exists "Configured access token rejected; refreshing…", [].
      rewrite <- app_assoc. cbn [app]. split; [reflexivity |].
      rewrite refresh_sent, sent_app. cbn [sent]. rewrite <- app_assoc.
      reflexivity.
Qed.

End TokenManager.

(* ================================================================= *)
(** ** Page fetcher *)

Section PageFetcher.

Context {E : Env}.

Lemma attemptsFrom1_eq : attemptsFrom1 = [1; 2; 3].
Proof. reflexivity. Qed.

(** One attempt of the retry loop, by outcome of [client.Do]. *)
Lemma fetchAttempts_cons (attempt : Z) (rest : list Z) (tok : string) (p : Z)
    (lastStatus : Z) (lastRL : rateLimitUsage) (t : Trace) :
  fetchAttempts (attempt :: rest) tok p lastStatus lastRL t =
  let r := srv (sent t) (pageReq tok p) in
  let t1 := t ++ [EvDo (pageReq tok p) r] in
  match r with
  | Err err =>
      fetchAttempts rest tok p lastStatus lastRL
        (t1 ++ [EvLog "request error (attempt %d/%d): %v"
                  [AInt attempt; AInt maxRetries; AErr err];
                EvSleep (backoff attempt)])
  | Ok res =>
      match ReadErr res with
      | Some readErr =>
          fetchAttempts rest tok p (StatusCode res) (rateLimitOf res)
            (t1 ++ [EvLog "read body (attempt %d/%d): %v"
                      [AInt attempt; AInt maxRetries; AErr readErr];
                    EvSleep (backoff attempt)])
      | None =>
          if StatusCode res =? StatusOK then
            match json_Unmarshal_activities (Body res) with
            | Err err =>
                (([], StatusCode res, rateLimitOf res),
                 t1 ++ [EvLog "unmarshal activities: %v" [AErr err]])
            | Ok items => ((items, StatusCode res, rateLimitOf res), t1)
            end
          else if StatusCode res =? StatusTooManyRequests then
            fetchAttempts rest tok p (StatusCode res) (rateLimitOf res)
              (t1 ++ [EvLog "429 rate limited; retrying in %s (attempt %d/%d)…"
                        [AInt (backoff attempt); AInt attempt; AInt maxRetries];
                      EvSleep (backoff attempt)])
          else if StatusCode res =? StatusUnauthorized then
            (([], StatusCode res, rateLimitOf res),
             t1 ++ [EvLog "401 unauthorized. WWW-Authenticate=%q body=%s"
                      [AStr (Values_Get "WWW-Authenticate" (RespHeader res));
                       AStr (truncate (Body res) 300)]])
          else
            (([], StatusCode res, rateLimitOf res),
             t1 ++ [EvLog "unexpected status=%d body=%s"
                      [AInt (StatusCode res); AStr (truncate (Body res) 300)]])
      end
  end.
Proof.
  cbn [fetchAttempts NewRequestWithContext]. fold (pageReq tok p).
  run_step.
  destruct (srv (sent t) (pageReq tok p)) as [res | err].
  - fold (rateLimitOf res).
    destruct (ReadErr res) as [readErr |].
    + rewrite <- !app_assoc. reflexivity.
    + destruct (StatusCode res =? StatusOK).
      { destruct (json_Unmarshal_activities (Body res)); reflexivity. }
      destruct (StatusCode res =? StatusTooManyRequests).
      { rewrite <- !app_assoc. reflexivity. }
      destruct (StatusCode res =? StatusUnauthorized); reflexivity.
  - rewrite <- !app_assoc. reflexivity.
Qed.

(** A clean 200 on the first attempt ends the call with the decoded page. *)
Lemma fetch_clean_200 (tok : string) (p : Z) (t : Trace) (res : Response)
    (pg : list activity) :
  srv (sent t) (pageReq tok p) = Ok res ->
  StatusCode res = StatusOK ->
  ReadErr res = None ->
  json_Unmarshal_activities (Body res) = Ok pg ->
  fetchActivitiesPage tok p t =
  ((pg, StatusOK, rateLimitOf res), t ++ [EvDo (pageReq tok p) (Ok res)]).
Proof.
  intros Hs Hst Hr Hj. unfold fetchActivitiesPage.
  rewrite attemptsFrom1_eq, fetchAttempts_cons. cbv zeta.
  rewrite Hs, Hr, Hst, Hj. reflexivity.
Qed.

(** A 200 whose body does not decode ends the call too: empty page, status
    200. *)
Lemma fetch_undecodable_200 (tok : string) (p : Z) (t : Trace) (res : Response)
    (err : error) :
  srv (sent t) (pageReq tok p) = Ok res ->
  StatusCode res = StatusOK ->
  ReadErr res = None ->
  json_Unmarshal_activities (Body res) = Err err ->
  fetchActivitiesPage tok p t =
  (([], StatusOK, rateLimitOf res),
   t ++ [EvDo (pageReq tok p) (Ok res);
         EvLog "unmarshal activities: %v" [AErr err]]).
Proof.
  intros Hs Hst Hr Hj. unfold fetchActivitiesPage.
  rewrite attemptsFrom1_eq, fetchAttempts_cons. cbv zeta.
  rewrite Hs, Hr, Hst, Hj. rewrite <- app_assoc. reflexivity.
Qed.

(** What one call adds to the trace: at most as many requests as there
    are attempts, each for the same page with the same token, and no line
    of the page loop. *)
Lemma fetchAttempts_delta (attempts : list Z) (tok : string) (p : Z) :
  forall (lastStatus : Z) (lastRL : rateLimitUsage) (t : Trace),
  exists (l : Trace) (k : nat),
    snd (fetchAttempts attempts tok p lastStatus lastRL t) = t ++ l /\
    (k <= List.length attempts)%nat /\
    sent l = repeat (pageReq tok p) k /\
    fetchCalls l = [] /\ refreshAttempts l = [].
Proof.
  induction attempts as [| attempt rest IH]; intros lastStatus lastRL t.
  - exists [], 0%nat. cbn. rewrite app_nil_r. repeat split. apply Nat.le_refl.
  - rewrite fetchAttempts_cons. cbv zeta.
    set (r := srv (sent t) (pageReq tok p)).
    assert (Hnext : forall st rl l0,
               sent l0 = [] -> fetchCalls l0 = [] -> refreshAttempts l0 = [] ->
               exists (l : Trace) (k : nat),
                 snd (fetchAttempts rest tok p st rl
                        ((t ++ [EvDo (pageReq tok p) r]) ++ l0)) = t ++ l /\
                 (k <= List.length (attempt :: rest))%nat /\
                 sent l = repeat (pageReq tok p) k /\
                 fetchCalls l = [] /\ refreshAttempts l = []).
    { intros st rl l0 H1 H2 H3.
      destruct (IH st rl ((t ++ [EvDo (pageReq tok p) r]) ++ l0))
        as (l' & k & Heq & Hk & Hs & Hf & Hr).
      exists ([EvDo (pageReq tok p) r] ++ l0 ++ l'), (S k).
      split; [rewrite Heq, <- !app_assoc; reflexivity |].
      split; [cbn; lia |].
      rewrite !sent_app, !fetchCalls_app, !refreshAttempts_app.
      rewrite H1, H2, H3, Hs, Hf, Hr. repeat split. }
    assert (Hstop : forall l0,
               sent l0 = [] -> fetchCalls l0 = [] -> refreshAttempts l0 = [] ->
               exists (l : Trace) (k : nat),
                 (t ++ [EvDo (pageReq tok p) r]) ++ l0 = t ++ l /\
                 (k <= List.length (attempt :: rest))%nat /\
                 sent l = repeat (pageReq tok p) k /\
                 fetchCalls l = [] /\ refreshAttempts l = []).
    { intros l0 H1 H2 H3.
      exists ([EvDo (pageReq tok p) r] ++ l0), 1%nat.
      split; [rewrite <- app_assoc; reflexivity |].
      split; [cbn; lia |].
      rewrite !sent_app, !fetchCalls_app, !refreshAttempts_app.
      rewrite H1, H2, H3. repeat split. }
    destruct r as [res | err].
    + destruct (ReadErr res); [apply Hnext; reflexivity |].
      destruct (StatusCode res =? StatusOK).
      { destruct (json_Unmarshal_activities (Body res)); cbn [snd].
        - specialize (Hstop [] eq_refl eq_refl eq_refl).
          rewrite app_nil_r in Hstop. exact Hstop.
        - apply Hstop; reflexivity. }
      destruct (StatusCode res =? StatusTooManyRequests);
        [apply Hnext; reflexivity |].
      destruct (StatusCode res =? StatusUnauthorized); cbn [snd];
        apply Hstop; reflexivity.
    + apply Hnext; reflexivity.
Qed.

Lemma fetch_delta (tok : string) (p : Z) (t : Trace) :
  exists (l : Trace) (k : nat),
    snd (fetchActivitiesPage tok p t) = t ++ l /\
    (k <= 3)%nat /\
    sent l = repeat (pageReq tok p) k /\
    fetchCalls l = [] /\ refreshAttempts l = [].
Proof.
  unfold fetchActivitiesPage.
  apply (fetchAttempts_delta attemptsFrom1 tok p 0 (mkRL "" "") t).
Qed.

(** Activities come back only with status 200. *)
Lemma fetchAttempts_activities (attempts : list Z) (tok : string) (p : Z) :
  forall (lastStatus : Z) (lastRL : rateLimitUsage) (t : Trace)
         (acts : list activity) (st : Z) (rl : rateLimitUsage) (t' : Trace),
    fetchAttempts attempts tok p lastStatus lastRL t = ((acts, st, rl), t') ->
    st <> StatusOK -> acts = [].
Proof.
  induction attempts as [| attempt rest IH];
    intros lastStatus lastRL t acts st rl t' H Hst.
  - cbn in H. unfold ret in H. inversion H. reflexivity.
  - rewrite fetchAttempts_cons in H. cbv zeta in H.
    destruct (srv (sent t) (pageReq tok p)) as [res | err];
      [| eapply IH; eassumption].
    destruct (ReadErr res); [eapply IH; eassumption |].
    destruct (StatusCode res =? StatusOK) eqn:E200.
    { apply Z.eqb_eq in E200.
      destruct (json_Unmarshal_activities (Body res));
        inversion H; subst; congruence. }
    destruct (StatusCode res =? StatusTooManyRequests);
      [eapply IH; eassumption |].
    destruct (StatusCode res =? StatusUnauthorized); inversion H; reflexivity.
Qed.

End PageFetcher.

(* ================================================================= *)
(** ** Pagination driver *)

Lemma add64_small (p : Z) : - 2 ^ 63 <= p -> p + 1 < 2 ^ 63 -> add64 p 1 = p + 1.
Proof.
  intros Hlo Hhi. unfold add64, wrap64.
  rewrite Z.mod_small by lia. lia.
Qed.

Lemma lenSlice_app {A : Type} (l1 l2 : list A) :
  lenSlice (l1 ++ l2) = lenSlice l1 + lenSlice l2.
Proof. unfold lenSlice. rewrite length_app. lia. Qed.

Lemma lenSlice_nonneg {A : Type} (l : list A) : 0 <= lenSlice l.
Proof. unfold lenSlice. lia. Qed.

Section Driver.

Context {E : Env}.

Lemma appendPage_eq (d : driver) (acts : list activity) (t : Trace) :
  appendPage d acts t = (afterPage d acts, t ++ [retrievedLog (page d) acts]).
Proof.
  unfold appendPage, afterPage, retrievedLog. run_step.
  destruct (lenSlice acts <? perPage); reflexivity.
Qed.

(** One iteration, by the status of its first fetch. *)
Lemma pageStep_unfold (cfg : envVars) (d : driver) (t t1 : Trace)
    (acts : list activity) (st : Z) (rl : rateLimitUsage) :
  fetchActivitiesPage (accessToken d) (page d) t = ((acts, st, rl), t1) ->
  pageStep cfg d t =
  let t1' := t1 ++ [pageLog (page d) st rl] in
  if st =? StatusUnauthorized then
    let (r, t2) := refreshAccessToken cfg (t1' ++ [unauthorizedLog (page d)]) in
    match r with
    | Err rerr => (Fatal, t2 ++ [EvLog "refresh after 401 failed: %v" [AErr rerr]])
    | Ok (tok, rtok) =>
        let '((acts', st', rl'), t3) := fetchActivitiesPage tok (page d) t2 in
        let t3' := t3 ++ [retryLog (page d) st' rl'] in
        if st' =? StatusOK then
          (afterPage (mkDriver tok rtok (page d) (all d)) acts',
           t3' ++ [retrievedLog (page d) acts'])
        else
          (Fatal, t3' ++ [EvLog "after refresh, fetch failed status=%d" [AInt st']])
    end
  else if st =? StatusTooManyRequests then
    (Continue d,
     t1' ++ [EvLog "429 rate limited; backing off for 60s before retry…" [];
             EvSleep (60 * Second)])
  else if st =? StatusOK then
    (afterPage d acts, t1' ++ [retrievedLog (page d) acts])
  else (Fatal, t1' ++ [EvLog "unexpected status code: %d" [AInt st]]).
Proof.
  intros Hf. unfold pageStep. unfold bind at 1. rewrite Hf. cbv zeta.
  unfold bind at 1. unfold Printf at 1, emit at 1. fold (pageLog (page d) st rl).
  destruct (st =? StatusUnauthorized).
  - unfold bind at 1. unfold Printf at 1, emit at 1.
    fold (unauthorizedLog (page d)).
    unfold bind at 1.
    destruct (refreshAccessToken cfg
                ((t1 ++ [pageLog (page d) st rl]) ++ [unauthorizedLog (page d)]))
      as [[[tok rtok] | rerr] t2].
    + cbn [accessToken page all].
      unfold bind at 1.
      destruct (fetchActivitiesPage tok (page d) t2) as [[[acts' st'] rl'] t3].
      unfold bind at 1. unfold Printf at 1, emit at 1.
      fold (retryLog (page d) st' rl').
      destruct (st' =? StatusOK); cbn [negb].
      * rewrite appendPage_eq. reflexivity.
      * reflexivity.
    + reflexivity.
  - destruct (st =? StatusTooManyRequests).
    + run_step. rewrite <- !app_assoc. reflexivity.
    + destruct (st =? StatusOK); cbn [negb].
      * rewrite appendPage_eq. reflexivity.
      * reflexivity.
Qed.


Lemma fetchAll_S (fuel : nat) (cfg : envVars) (d : driver) (t : Trace) :
  fetchAll (S fuel) cfg d t =
  let (s, t') := pageStep cfg d t in
  match s with
  | Continue d' => fetchAll fuel cfg d' t'
  | Break d' => (LoopDone d', t')
  | Fatal => (LoopFatal, t')
  end.
Proof.
  cbn [fetchAll]. unfold bind.
  destruct (pageStep cfg d t) as [[d' | d' |] t']; reflexivity.
Qed.

Lemma fetchAll_fatal (fuel : nat) (cfg : envVars) (d : driver) (t t' : Trace) :
  pageStep cfg d t = (Fatal, t') -> fetchAll (S fuel) cfg d t = (LoopFatal, t').
Proof. intros H. rewrite fetchAll_S, H. reflexivity. Qed.

(** An iteration whose fetch is a clean 200. *)
Lemma pageStep_clean_200 (cfg : envVars) (d : driver) (t : Trace)
    (res : Response) (pg : list activity) :
  srv (sent t) (pageReq (accessToken d) (page d)) = Ok res ->
  StatusCode res = StatusOK ->
  ReadErr res = None ->
  json_Unmarshal_activities (Body res) = Ok pg ->
  pageStep cfg d t =
  (afterPage d pg,
   t ++ [EvDo (pageReq (accessToken d) (page d)) (Ok res);
         pageLog (page d) StatusOK (rateLimitOf res);
         retrievedLog (page d) pg]).
Proof.
  intros Hs Hst Hr Hj.
  erewrite pageStep_unfold by (apply fetch_clean_200; eassumption).
  cbn. rewrite <- !app_assoc. reflexivity.
Qed.

(** The loop over a server that hands out [full ++ [last]] from page [p]
    on, one clean 200 response per request: one request per page, in
    index order, and no sleep. *)
Lemma fetchAll_serves (cfg : envVars) (tok rt : string) (last : list activity)
    (extra : nat) :
  lenSlice last < perPage ->
  forall (full : list (list activity)) (p : Z) (acc : list activity) (t : Trace),
    - 2 ^ 63 <= p ->
    p + lenSlice full < 2 ^ 63 ->
    Forall (fun pg => perPage <= lenSlice pg) full ->
    servesPages (sent t) tok p (full ++ [last]) ->
    exists t',
      fetchAll (S (List.length full) + extra) cfg (mkDriver tok rt p acc) t =
      (LoopDone (mkDriver tok rt (p + lenSlice full)
                   (acc ++ List.concat (full ++ [last]))), t') /\
      sent t' = sent t ++ map (pageReq tok) (pagesFrom p (S (List.length full))) /\
      slept t' = slept t.
Proof.
  intros Hlast. induction full as [| pg full IH]; intros p acc t Hlo Hhi Hfull Hsv.
  - cbn [app servesPages] in Hsv. destruct Hsv as ((res & Hs & Hst & Hr & Hj) & _).
    cbn [List.length Nat.add]. rewrite fetchAll_S.
    erewrite pageStep_clean_200 by eassumption.
    unfold afterPage. apply Z.ltb_lt in Hlast. rewrite Hlast.
    cbn [accessToken refreshToken page all].
    eexists. split; [| split].
    + unfold lenSlice at 1. cbn [List.length Z.of_nat]. rewrite Z.add_0_r.
      cbn [app List.concat]. rewrite app_nil_r. reflexivity.
    + rewrite sent_app. reflexivity.
    + rewrite slept_app. cbn. apply app_nil_r.
  - cbn [app servesPages] in Hsv.
    destruct Hsv as ((res & Hs & Hst & Hr & Hj) & Hrest).
    inversion Hfull as [| ? ? Hpg Hfull']; subst.
    assert (Hlen : lenSlice (pg :: full) = 1 + lenSlice full).
    { unfold lenSlice. cbn [List.length]. lia. }
    pose proof (lenSlice_nonneg full) as Hnn.
    cbn [List.length Nat.add]. rewrite fetchAll_S.
    erewrite pageStep_clean_200 by eassumption.
    unfold afterPage. cbn [accessToken refreshToken page all].
    assert (Hge : (lenSlice pg <? perPage) = false) by (apply Z.ltb_ge; exact Hpg).
    rewrite Hge. rewrite add64_small by lia.
    destruct (IH (p + 1) (acc ++ pg)
                (t ++ [EvDo (pageReq tok p) (Ok res);
                       pageLog p StatusOK (rateLimitOf res);
                       retrievedLog p pg])) as (t' & Hrun & Hsent & Hslept).
    + lia.
    + lia.
    + exact Hfull'.
    + rewrite sent_app. cbn [sent pageLog retrievedLog]. exact Hrest.
    + exists t'. split; [| split].
      * cbn [Nat.add] in Hrun. rewrite Hrun. rewrite Hlen.
        cbn [app List.concat]. rewrite <- app_assoc.
        replace (p + 1 + lenSlice full) with (p + (1 + lenSlice full)) by lia.
        reflexivity.
      * rewrite Hsent. rewrite sent_app. cbn [sent pageLog retrievedLog].
        rewrite <- app_assoc. reflexivity.
      * rewrite Hslept. rewrite slept_app. cbn. apply app_nil_r.
Qed.

(** An iteration whose fetch returns status 200. *)
Lemma pageStep_200 (cfg : envVars) (d : driver) (t t1 : Trace)
    (pg : list activity) (rl : rateLimitUsage) :
  fetchActivitiesPage (accessToken d) (page d) t = ((pg, StatusOK, rl), t1) ->
  pageStep cfg d t =
  (afterPage d pg, t1 ++ [pageLog (page d) StatusOK rl; retrievedLog (page d) pg]).
Proof.
  intros Hf. rewrite (pageStep_unfold cfg d _ _ _ _ _ Hf).
  cbn. rewrite <- app_assoc. reflexivity.
Qed.

(** Clean 200 responses make the calls of [fetchActivitiesPage] return the
    pages. *)
Lemma servesPages_fetchesPages (tok : string) (pages : list (list activity)) :
  forall (p : Z) (t : Trace),
    servesPages (sent t) tok p pages -> fetchesPages t tok p pages.
Proof.
  induction pages as [| pg rest IH]; intros p t H; [exact I |].
  cbn [servesPages] in H. destruct H as ((res & Hs & Hst & Hr & Hj) & Hrest).
  cbn [fetchesPages].
  exists (rateLimitOf res), (t ++ [EvDo (pageReq tok p) (Ok res)]).
  split; [apply fetch_clean_200; assumption |].
  apply IH. rewrite !sent_app. cbn [sent pageLog retrievedLog].
  rewrite app_nil_r. exact Hrest.
Qed.

(** The loop over fetches that return [full ++ [last]] from page [p] on:
    one call of [fetchActivitiesPage] per page, in index order. *)
Lemma fetchAll_fetches (cfg : envVars) (tok rt : string) (last : list activity)
    (extra : nat) :
  lenSlice last < perPage ->
  forall (full : list (list activity)) (p : Z) (acc : list activity) (t : Trace),
    - 2 ^ 63 <= p ->
    p + lenSlice full < 2 ^ 63 ->
    Forall (fun pg => perPage <= lenSlice pg) full ->
    fetchesPages t tok p (full ++ [last]) ->
    exists t',
      fetchAll (S (List.length full) + extra) cfg (mkDriver tok rt p acc) t =
      (LoopDone (mkDriver tok rt (p + lenSlice full)
                   (acc ++ List.concat (full ++ [last]))), t') /\
      fetchCalls t' = fetchCalls t ++ pagesFrom p (S (List.length full)) /\
      refreshAttempts t' = refreshAttempts t.
Proof.
  intros Hlast. induction full as [| pg full IH]; intros p acc t Hlo Hhi Hfull Hf.
  - cbn [app fetchesPages] in Hf. destruct Hf as (rl & t1 & Hfetch & _).
    destruct (fetch_delta tok p t) as (l & k & Hl & _ & _ & Hcalls & Hrefresh).
    rewrite Hfetch in Hl. cbn [snd] in Hl. subst t1.
    cbn [List.length Nat.add]. rewrite fetchAll_S.
    rewrite (pageStep_200 cfg (mkDriver tok rt p acc) t _ _ _ Hfetch).
    unfold afterPage. apply Z.ltb_lt in Hlast. rewrite Hlast.
    cbn [accessToken refreshToken page all].
    eexists. split; [| split].
    + unfold lenSlice at 1. cbn [List.length Z.of_nat]. rewrite Z.add_0_r.
      cbn [app List.concat]. rewrite app_nil_r. reflexivity.
    + rewrite !fetchCalls_app, Hcalls, app_nil_r. reflexivity.
    + rewrite !refreshAttempts_app, Hrefresh. cbn. rewrite !app_nil_r. reflexivity.
  - cbn [app fetchesPages] in Hf. destruct Hf as (rl & t1 & Hfetch & Hrest).
    destruct (fetch_delta tok p t) as (l & k & Hl & _ & _ & Hcalls & Hrefresh).
    rewrite Hfetch in Hl. cbn [snd] in Hl. subst t1.
    inversion Hfull as [| ? ? Hpg Hfull']; subst.
    assert (Hlen : lenSlice (pg :: full) = 1 + lenSlice full).
    { unfold lenSlice. cbn [List.length]. lia. }
    pose proof (lenSlice_nonneg full) as Hnn.
    cbn [List.length Nat.add]. rewrite fetchAll_S.
    rewrite (pageStep_200 cfg (mkDriver tok rt p acc) t _ _ _ Hfetch).
    unfold afterPage. cbn [accessToken refreshToken page all].
    assert (Hge : (lenSlice pg <? perPage) = false) by (apply Z.ltb_ge; exact Hpg).
    rewrite Hge. rewrite add64_small by lia.
    destruct (IH (p + 1) (acc ++ pg)
                ((t ++ l) ++ [pageLog p StatusOK rl; retrievedLog p pg]))
      as (t' & Hrun & Hc & Hr); [lia | lia | exact Hfull' | exact Hrest |].
    exists t'. split; [| split].
    + cbn [Nat.add] in Hrun. rewrite Hrun. rewrite Hlen.
      cbn [app List.concat]. rewrite <- app_assoc.
      replace (p + 1 + lenSlice full) with (p + (1 + lenSlice full)) by lia.
      reflexivity.
    + rewrite Hc. rewrite !fetchCalls_app, Hcalls. cbn [pagesFrom].
      rewrite app_nil_r, <- app_assoc. reflexivity.
    + rewrite Hr. rewrite !refreshAttempts_app, Hrefresh. cbn.
      rewrite !app_nil_r. reflexivity.
Qed.

(** C1. When the calls of [fetchActivitiesPage] for the pages 1, 2, ...
    return status 200 and the pages [full ++ [last]], where the pages of
    [full] hold at least [perPage] items and [last] fewer, the loop ends
    with [LoopDone]: the accumulated slice is the concatenation of the
    pages in index order, [fetchActivitiesPage] was called once per page,
    for the indices 1, 2, ... in order, with no call after [last] and no
    token refresh. Sizes 200, 200, 150 take three calls and give 550
    activities; sizes 200, 200, 200, 0 take four and give 600. *)
Theorem driver_pages_until_short_page :
  (forall (cfg : envVars) (tok rt : string) (full : list (list activity))
          (last : list activity) (t : Trace) (extra : nat),
      lenSlice full < 2 ^ 63 - 1 ->
      Forall (fun pg => perPage <= lenSlice pg) full ->
      lenSlice last < perPage ->
      fetchesPages t tok 1 (full ++ [last]) ->
      exists t',
        fetchAll (S (List.length full) + extra) cfg (mkDriver tok rt 1 []) t =
        (LoopDone (mkDriver tok rt (1 + lenSlice full)
                     (List.concat (full ++ [last]))), t') /\
        fetchCalls t' = fetchCalls t ++ pagesFrom 1 (S (List.length full)) /\
        refreshAttempts t' = refreshAttempts t) /\
  (forall (cfg : envVars) (tok rt : string) (p1 p2 p3 : list activity) (t : Trace),
      lenSlice p1 = 200 -> lenSlice p2 = 200 -> lenSlice p3 = 150 ->
      fetchesPages t tok 1 [p1; p2; p3] ->
      exists t',
        fetchAll 3 cfg (mkDriver tok rt 1 []) t =
        (LoopDone (mkDriver tok rt 3 (p1 ++ p2 ++ p3)), t') /\
        fetchCalls t' = fetchCalls t ++ [1; 2; 3] /\
        lenSlice (p1 ++ p2 ++ p3) = 550) /\
  (forall (cfg : envVars) (tok rt : string) (p1 p2 p3 p4 : list activity)
          (t : Trace),
      lenSlice p1 = 200 -> lenSlice p2 = 200 -> lenSlice p3 = 200 ->
      lenSlice p4 = 0 ->
      fetchesPages t tok 1 [p1; p2; p3; p4] ->
      exists t',
        fetchAll 4 cfg (mkDriver tok rt 1 []) t =
        (LoopDone (mkDriver tok rt 4 (p1 ++ p2 ++ p3 ++ p4)), t') /\
        fetchCalls t' = fetchCalls t ++ [1; 2; 3; 4] /\
        lenSlice (p1 ++ p2 ++ p3 ++ p4) = 600).
Proof.
  split; [| split].
  - intros cfg tok rt full last t extra Hlen Hfull Hlast Hf.
    destruct (fetchAll_fetches cfg tok rt last extra Hlast full 1 [] t)
      as (t' & Hrun & Hcalls & Hrefresh); try assumption; try lia.
    exists t'. repeat split; assumption.
  - intros cfg tok rt p1 p2 p3 t H1 H2 H3 Hf.
    destruct (fetchAll_fetches cfg tok rt p3 0%nat) with
      (full := [p1; p2]) (p := 1) (acc := @nil activity) (t := t)
      as (t' & Hrun & Hcalls & _).
    + unfold perPage. lia.
    + lia.
    + unfold lenSlice. cbn [List.length]. lia.
    + repeat constructor; unfold perPage; lia.
    + exact Hf.
    + exists t'. split; [| split].
      * cbn [List.length Nat.add] in Hrun. rewrite Hrun.
        cbn [List.concat app]. rewrite app_nil_r. reflexivity.
      * rewrite Hcalls. reflexivity.
      * rewrite !lenSlice_app. lia.
  - intros cfg tok rt p1 p2 p3 p4 t H1 H2 H3 H4 Hf.
    destruct (fetchAll_fetches cfg tok rt p4 0%nat) with
      (full := [p1; p2; p3]) (p := 1) (acc := @nil activity) (t := t)
      as (t' & Hrun & Hcalls & _).
    + unfold perPage. lia.
    + lia.
    + unfold lenSlice. cbn [List.length]. lia.
    + repeat constructor; unfold perPage; lia.
    + exact Hf.
    + exists t'. split; [| split].
      * cbn [List.length Nat.add] in Hrun. rewrite Hrun.
        cbn [List.concat app]. rewrite app_nil_r. reflexivity.
      * rewrite Hcalls. reflexivity.
      * rewrite !lenSlice_app. lia.
Qed.

End Driver.

(* ================================================================= *)
(** ** Re-authentication and undecodable pages *)

Section Reauthentication.

Context {E : Env}.


(** What the loop does with a 200 whose body does not decode: the
    iteration ends the loop as a short page would, with nothing appended. *)
Lemma pageStep_undecodable_200 (cfg : envVars) (d : driver) (t : Trace)
    (res : Response) (err : error) :
  srv (sent t) (pageReq (accessToken d) (page d)) = Ok res ->
  StatusCode res = StatusOK ->
  ReadErr res = None ->
  json_Unmarshal_activities (Body res) = Err err ->
  fst (fetchActivitiesPage (accessToken d) (page d) t) =
  ([], StatusOK, rateLimitOf res) /\
  fst (pageStep cfg d t) =
  Break (mkDriver (accessToken d) (refreshToken d) (page d) (all d)).
Proof.
  intros Hs Hst Hr Hj.
  pose proof (fetch_undecodable_200 _ _ _ _ _ Hs Hst Hr Hj) as Hf.
  split; [rewrite Hf; reflexivity |].
  rewrite (pageStep_unfold cfg d _ _ _ _ _ Hf). cbn.
  rewrite app_nil_r. reflexivity.
Qed.

(** The grant always carries the refresh token of the configuration; the
    loop hands [cfg] to [refreshAccessToken] whatever [refreshToken d]
    holds. *)
Lemma refresh_grant_sends_configured_token (cfg : envVars) :
  refreshTokenSent (refreshRequest cfg) = StravaRefreshToken cfg /\
  isRefreshRequest (refreshRequest cfg) = true.
Proof. split; reflexivity. Qed.

(** The rotation notice: two lines at the end of a run that reached the
    summary, when the last refresh token is neither empty nor the
    configured one. *)
Lemma noticeRotation_eq (cfg : envVars) (rt : string) (t : Trace) :
  noticeRotation cfg rt t =
  (tt,
   if String.eqb rt "" || String.eqb rt (StravaRefreshToken cfg) then t
   else t ++ [EvLog "NOTICE: Strava issued a new refresh token during auth." [];
              EvLog "Update STRAVA_REFRESH_TOKEN in your secrets to avoid future auth failures." []]).
Proof.
  unfold noticeRotation.
  destruct (String.eqb rt ""); destruct (String.eqb rt (StravaRefreshToken cfg));
    cbn [negb andb orb]; try reflexivity.
  run_step. rewrite <- app_assoc. reflexivity.
Qed.

End Reauthentication.

(* ================================================================= *)
(** ** Names: [strings.TrimSpace] and [strings.EqualFold] on ASCII *)

Lemma bytes_of_string_of_bytes (l : list ascii) :
  bytes_of_string (string_of_bytes l) = l.
Proof. apply list_ascii_of_string_of_list_ascii. Qed.

Lemma string_of_bytes_of_string (s : string) :
  string_of_bytes (bytes_of_string s) = s.
Proof. apply string_of_list_ascii_of_string. Qed.

Lemma byte_of_range (c : ascii) : 0 <= byte_of c < 256.
Proof.
  unfold byte_of. pose proof (N_ascii_bounded c) as H. lia.
Qed.

Lemma asciiSpace_cases (c : ascii) :
  asciiSpace c = true ->
  byte_of c = 9 \/ byte_of c = 10 \/ byte_of c = 11 \/
  byte_of c = 12 \/ byte_of c = 13 \/ byte_of c = 32.
Proof.
  unfold asciiSpace. cbv zeta. rewrite !orb_true_iff, !Z.eqb_eq. tauto.
Qed.

Lemma asciiSpace_below_RuneSelf (c : ascii) :
  asciiSpace c = true -> (RuneSelf <=? byte_of c) = false.
Proof.
  intros H. apply asciiSpace_cases in H. apply Z.leb_gt. unfold RuneSelf. lia.
Qed.

Lemma lor_below_RuneSelf (a b : Z) :
  0 <= a < RuneSelf -> 0 <= b < RuneSelf -> (RuneSelf <=? Z.lor a b) = false.
Proof.
  unfold RuneSelf. intros Ha Hb. apply Z.leb_gt.
  assert (H0 : 0 <= Z.lor a b) by (apply Z.lor_nonneg; lia).
  destruct (Z.eq_dec (Z.lor a b) 0) as [-> | Hnz]; [lia |].
  change 128 with (2 ^ 7). apply Z.log2_lt_pow2; [lia |].
  rewrite Z.log2_lor by lia.
  apply Z.max_lub_lt.
  - destruct (Z.eq_dec a 0) as [-> | ?]; [cbn; lia |].
    apply Z.log2_lt_pow2; [lia |]. change (2 ^ 7) with 128. lia.
  - destruct (Z.eq_dec b 0) as [-> | ?]; [cbn; lia |].
    apply Z.log2_lt_pow2; [lia |]. change (2 ^ 7) with 128. lia.
Qed.

(** The byte test of [EqualFold] is equality of lower-cased bytes. *)
Lemma fold_test_lowerByte (a b : Z) :
  ((b =? a) ||
   ((65 <=? Z.min a b) && (Z.min a b <=? 90) && (Z.max a b =? Z.min a b + 97 - 65)))
  = true <->
  lowerByte a = lowerByte b.
Proof.
  unfold lowerByte.
  rewrite orb_true_iff, !andb_true_iff, !Z.eqb_eq, !Z.leb_le.
  destruct ((65 <=? a) && (a <=? 90)) eqn:Ea;
    destruct ((65 <=? b) && (b <=? 90)) eqn:Eb;
    rewrite ?andb_true_iff, ?andb_false_iff, ?Z.leb_le, ?Z.leb_gt in Ea, Eb;
    lia.
Qed.

Section Names.

Context {E : Env}.

Lemma trimSpaceRight_spaces (sp r : list ascii) :
  spaces sp ->
  trimSpaceRight TrimRightFunc_IsSpace (sp ++ r) =
  trimSpaceRight TrimRightFunc_IsSpace r.
Proof.
  induction 1 as [| c sp Hc Hsp IH]; [reflexivity |].
  cbn [app trimSpaceRight].
  rewrite asciiSpace_below_RuneSelf by exact Hc. rewrite Hc. exact IH.
Qed.

Lemma trimSpaceRight_stop (c : ascii) (r : list ascii) :
  byte_of c < RuneSelf -> asciiSpace c = false ->
  trimSpaceRight TrimRightFunc_IsSpace (c :: r) = string_of_bytes (rev (c :: r)).
Proof.
  intros Hc Hs. cbn [trimSpaceRight].
  apply Z.leb_gt in Hc. rewrite Hc, Hs. reflexivity.
Qed.

(** On ASCII input the second loop drops a run of spaces from the end. *)
Lemma trimSpaceRight_ascii (r : list ascii) :
  isASCII r ->
  exists sp r',
    r = sp ++ r' /\ spaces sp /\
    trimSpaceRight TrimRightFunc_IsSpace r = string_of_bytes (rev r').
Proof.
  induction 1 as [| c r Hc Hr IH].
  - exists [], []. repeat split. constructor.
  - destruct (asciiSpace c) eqn:Hs.
    + destruct IH as (sp & r' & -> & Hsp & Htrim).
      exists (c :: sp), r'. split; [reflexivity |]. split.
      * constructor; assumption.
      * cbn [app trimSpaceRight].
        rewrite asciiSpace_below_RuneSelf by exact Hs. rewrite Hs. exact Htrim.
    + exists [], (c :: r). split; [reflexivity |]. split; [constructor |].
      apply trimSpaceRight_stop; assumption.
Qed.

Lemma trimSpace_spaces (l x : list ascii) :
  spaces l ->
  trimSpace (string_of_bytes (l ++ x)) = trimSpace (string_of_bytes x).
Proof.
  induction 1 as [| c l Hc Hl IH]; [reflexivity |].
  cbn [app string_of_bytes string_of_list_ascii]. unfold trimSpace.
  cbn [TrimSpace].
  rewrite asciiSpace_below_RuneSelf by exact Hc. rewrite Hc. exact IH.
Qed.

(** On ASCII input [TrimSpace] removes a run of spaces at each end. *)
Lemma trimSpace_ascii (s : string) :
  isASCII (bytes_of_string s) ->
  exists l r,
    bytes_of_string s = l ++ bytes_of_string (trimSpace s) ++ r /\
    spaces l /\ spaces r.
Proof.
  induction s as [| c s IH]; intros Hs.
  - exists [], []. repeat split; constructor.
  - cbn [bytes_of_string list_ascii_of_string] in Hs.
    inversion Hs as [| ? ? Hc Hs']; subst.
    unfold trimSpace. cbn [TrimSpace].
    assert (Hc' : (RuneSelf <=? byte_of c) = false) by (apply Z.leb_gt; exact Hc).
    rewrite Hc'. destruct (asciiSpace c) eqn:Hsp.
    + destruct (IH Hs') as (l & r & Heq & Hl & Hr).
      exists (c :: l), r. split; [| split].
      * cbn [bytes_of_string list_ascii_of_string app]. f_equal. exact Heq.
      * constructor; assumption.
      * exact Hr.
    + destruct (trimSpaceRight_ascii (rev (bytes_of_string (String c s))))
        as (sp & r' & Hrev & Hsp' & Htrim).
      { apply Forall_rev. exact Hs. }
      exists [], (rev sp). rewrite Htrim, bytes_of_string_of_bytes.
      split; [| split].
      * cbn [app]. rewrite <- rev_app_distr, <- Hrev, rev_involutive. reflexivity.
      * constructor.
      * apply Forall_rev. exact Hsp'.
Qed.

(** Spaces around a core that neither starts nor ends with a space are
    exactly what [TrimSpace] removes. *)
Lemma trimSpace_core (l r m : list ascii) (c c' : ascii) (m' : list ascii) :
  spaces l -> spaces r ->
  byte_of c < RuneSelf -> asciiSpace c = false ->
  rev (c :: m) = c' :: m' ->
  byte_of c' < RuneSelf -> asciiSpace c' = false ->
  trimSpace (string_of_bytes (l ++ (c :: m) ++ r)) = string_of_bytes (c :: m).
Proof.
  intros Hl Hr Hc Hs Hrev Hc' Hs'.
  rewrite trimSpace_spaces by exact Hl.
  cbn [app string_of_bytes string_of_list_ascii]. unfold trimSpace.
  cbn [TrimSpace]. apply Z.leb_gt in Hc. rewrite Hc, Hs.
  change (String c (string_of_list_ascii (m ++ r)))
    with (string_of_bytes ((c :: m) ++ r)).
  rewrite bytes_of_string_of_bytes, rev_app_distr.
  rewrite trimSpaceRight_spaces by (apply Forall_rev; exact Hr).
  rewrite Hrev, trimSpaceRight_stop by assumption.
  rewrite <- Hrev, rev_involutive. reflexivity.
Qed.

(** A string of ASCII white space only is blank, and an ASCII string is
    blank only if it is white space throughout. *)
Lemma blank_of_spaces (s : string) :
  spaces (bytes_of_string s) -> blank s = true.
Proof.
  intros H. unfold blank.
  rewrite <- (string_of_bytes_of_string s).
  rewrite <- (app_nil_r (bytes_of_string s)).
  rewrite trimSpace_spaces by exact H. reflexivity.
Qed.

Lemma spaces_of_blank (s : string) :
  isASCII (bytes_of_string s) -> blank s = true -> spaces (bytes_of_string s).
Proof.
  intros Hs Hb. unfold blank in Hb. apply String.eqb_eq in Hb.
  destruct (trimSpace_ascii s Hs) as (l & r & Heq & Hl & Hr).
  rewrite Hb in Heq. cbn [bytes_of_string list_ascii_of_string app] in Heq.
  rewrite Heq. apply Forall_app. split; assumption.
Qed.

(** On ASCII input [EqualFold] compares byte by byte up to letter case. *)
Lemma equalFold_ascii (s : string) :
  forall t : string,
    isASCII (bytes_of_string s) -> isASCII (bytes_of_string t) ->
    (equalFold s t = true <->
     Forall2 sameLetter (bytes_of_string s) (bytes_of_string t)).
Proof.
  induction s as [| a s IH]; intros [| b t] Hs Ht;
    cbn [bytes_of_string list_ascii_of_string] in *.
  - split; [constructor | reflexivity].
  - split; [discriminate | intros H; inversion H].
  - split; [discriminate | intros H; inversion H].
  - inversion Hs as [| ? ? Ha Hs']; inversion Ht as [| ? ? Hb Ht']; subst.
    pose proof (byte_of_range a) as Ra. pose proof (byte_of_range b) as Rb.
    unfold equalFold. cbn [EqualFold]. cbv zeta.
    rewrite lor_below_RuneSelf by lia.
    fold (equalFold s t).
    pose proof (fold_test_lowerByte (byte_of a) (byte_of b)) as Hfold.
    specialize (IH t Hs' Ht').
    destruct (byte_of b =? byte_of a) eqn:Eab.
    + cbn [orb] in Hfold. rewrite IH. split.
      * intros H. constructor; [apply Hfold; reflexivity | exact H].
      * intros H. inversion H; assumption.
    + cbn [orb] in Hfold.
      destruct ((65 <=? Z.min (byte_of a) (byte_of b)) &&
                (Z.min (byte_of a) (byte_of b) <=? 90) &&
                (Z.max (byte_of a) (byte_of b) =?
                 Z.min (byte_of a) (byte_of b) + 97 - 65)) eqn:Etest.
      * rewrite IH. split.
        -- intros H. constructor; [apply Hfold; reflexivity | exact H].
        -- intros H. inversion H; assumption.
      * split; [discriminate |].
        intros H. inversion H as [| ? ? ? ? Hl _]; subst.
        apply Hfold in Hl. discriminate.
Qed.

End Names.

(* ================================================================= *)
(** ** Aggregator *)

Lemma sameLetter_ascii (c1 c2 : ascii) :
  sameLetter c1 c2 -> byte_of c2 < RuneSelf -> byte_of c1 < RuneSelf.
Proof.
  unfold sameLetter, lowerByte, RuneSelf. intros H H2.
  destruct ((65 <=? byte_of c1) && (byte_of c1 <=? 90)) eqn:E1;
    destruct ((65 <=? byte_of c2) && (byte_of c2 <=? 90)) eqn:E2;
    rewrite ?andb_true_iff, ?andb_false_iff, ?Z.leb_le, ?Z.leb_gt in E1, E2;
    lia.
Qed.

Lemma sameLetter_not_space (c1 c2 : ascii) :
  sameLetter c1 c2 -> asciiSpace c2 = false -> asciiSpace c1 = false.
Proof.
  intros H H2. destruct (asciiSpace c1) eqn:H1; [| reflexivity].
  apply asciiSpace_cases in H1.
  assert (Heq : byte_of c2 = byte_of c1).
  { unfold sameLetter, lowerByte in H.
    destruct ((65 <=? byte_of c1) && (byte_of c1 <=? 90)) eqn:E1;
      destruct ((65 <=? byte_of c2) && (byte_of c2 <=? 90)) eqn:E2;
      rewrite ?andb_true_iff, ?andb_false_iff, ?Z.leb_le, ?Z.leb_gt in E1, E2;
      lia. }
  unfold asciiSpace in H2. cbv zeta in H2. rewrite Heq in H2.
  rewrite !orb_false_iff, !Z.eqb_neq in H2. lia.
Qed.

Section Aggregator.

Context {E : Env}.

(** The running count and sum: the count goes up by the number of
    matching activities, the sum takes their distances in order. *)
Lemma aggregateFrom_filter (l : list activity) :
  forall (n : Z) (m : float),
    - 2 ^ 63 <= n ->
    n + lenSlice (filter isDeskTreadmill l) < 2 ^ 63 ->
    aggregateFrom l n m =
    (n + lenSlice (filter isDeskTreadmill l),
     fold_left (fun acc a => (acc + Distance a)%float)
       (filter isDeskTreadmill l) m).
Proof.
  induction l as [| a l IH]; intros n m Hlo Hhi.
  - cbn. unfold lenSlice. cbn. rewrite Z.add_0_r. reflexivity.
  - cbn [aggregateFrom filter] in *.
    destruct (isDeskTreadmill a).
    + assert (Hlen : lenSlice (a :: filter isDeskTreadmill l) =
                     1 + lenSlice (filter isDeskTreadmill l)).
      { unfold lenSlice. cbn [List.length]. lia. }
      pose proof (lenSlice_nonneg (filter isDeskTreadmill l)) as Hnn.
      rewrite Hlen in *. rewrite add64_small by lia.
      rewrite IH by lia. cbn [fold_left]. f_equal. lia.
    + apply IH; assumption.
Qed.

Lemma lenSlice_filter_le (f : activity -> bool) (l : list activity) :
  lenSlice (filter f l) <= lenSlice l.
Proof.
  unfold lenSlice. pose proof (filter_length_le f l). lia.
Qed.

(** The name test of the aggregation loop, on ASCII names. *)
Lemma isDeskTreadmill_ascii (a : activity) :
  isASCII (bytes_of_string (Name a)) ->
  (isDeskTreadmill a = true <-> trimmedNameIs "Desk Treadmill" (Name a)).
Proof.
  intros Hascii. unfold isDeskTreadmill, trimmedNameIs.
  assert (Htarget : isASCII (bytes_of_string "Desk Treadmill")).
  { repeat constructor. }
  split.
  - intros Hfold.
    destruct (trimSpace_ascii (Name a) Hascii) as (l & r & Heq & Hl & Hr).
    exists l, (bytes_of_string (trimSpace (Name a))), r.
    repeat split; try assumption.
    apply equalFold_ascii; try assumption.
    rewrite Heq in Hascii. apply Forall_app in Hascii. destruct Hascii as (_ & H).
    apply Forall_app in H. tauto.
  - intros (l & core & r & Heq & Hl & Hr & Hcore).
    assert (Hcore_ascii : isASCII core).
    { clear - Hcore Htarget.
      induction Hcore as [| c1 c2 core tgt Hc Hcore IH]; [constructor |].
      inversion Htarget; subst. constructor.
      - eapply sameLetter_ascii; eassumption.
      - apply IH. assumption. }
    assert (Htrim : trimSpace (Name a) = string_of_bytes core).
    { rewrite <- (string_of_bytes_of_string (Name a)), Heq.
      cbn in Hcore.
      repeat match goal with
             | H : Forall2 _ _ (_ :: _) |- _ => inversion H; subst; clear H
             | H : Forall2 _ _ [] |- _ => inversion H; subst; clear H
             end.
      eapply trimSpace_core; try eassumption.
      - inversion Hcore_ascii; assumption.
      - eapply sameLetter_not_space; [eassumption | reflexivity].
      - cbn [rev app]. reflexivity.
      - eapply sameLetter_ascii; [eassumption | reflexivity].
      - eapply sameLetter_not_space; [eassumption | reflexivity]. }
    rewrite Htrim. apply equalFold_ascii.
    + rewrite bytes_of_string_of_bytes. exact Hcore_ascii.
    + exact Htarget.
    + rewrite bytes_of_string_of_bytes. exact Hcore.
Qed.

(** The summary lines of [main] carry the count, and the total converted
    to miles; the accumulated slice is only read. *)
Lemma report_eq (cfg : envVars) (d : driver) (t : Trace) :
  report cfg d t =
  (Exit 0,
   snd (noticeRotation cfg (refreshToken d)
          (t ++ [EvLog "Total activities fetched: %d" [AInt (lenSlice (all d))];
                 EvLog "Desk Treadmill Activities: %d"
                   [AInt (fst (aggregate (all d)))];
                 EvLog "Total Distance: %.2f miles"
                   [AFloat (snd (aggregate (all d)) * 0.000621371)%float]]))).
Proof.
  unfold report. destruct (aggregate (all d)) as [deskCount totalMeters].
  run_step. unfold milesOf. rewrite <- !app_assoc. cbn [app fst snd].
  destruct (noticeRotation cfg (refreshToken d) _). reflexivity.
Qed.

(** C8. For a slice of Go length, the aggregation loop returns the number
    of activities passing the name test and the float64 sum of their
    distances in slice order; on an ASCII name the test holds exactly when
    the name is the literal, in any letter case, between runs of white
    space; miles are the total times 0.000621371, computed for the summary
    line only. The three-activity example gives 2, 1500 m and 0.932 miles
    to three decimals. *)
Theorem aggregate_desk_treadmill :
  (forall l : list activity,
      lenSlice l < 2 ^ 63 ->
      aggregate l =
      (lenSlice (filter isDeskTreadmill l),
       sumDistances (filter isDeskTreadmill l))) /\
  (forall a : activity,
      isASCII (bytes_of_string (Name a)) ->
      (isDeskTreadmill a = true <-> trimmedNameIs "Desk Treadmill" (Name a))) /\
  (forall (cfg : envVars) (d : driver) (t : Trace),
      exists notice,
        report cfg d t =
        (Exit 0,
         t ++ [EvLog "Total activities fetched: %d" [AInt (lenSlice (all d))];
               EvLog "Desk Treadmill Activities: %d"
                 [AInt (fst (aggregate (all d)))];
               EvLog "Total Distance: %.2f miles"
                 [AFloat (snd (aggregate (all d)) * 0.000621371)%float]]
           ++ notice)) /\
  (forall i1 i2 i3 : Z,
      let l := [mkActivity i1 "Desk Treadmill" 1000;
                mkActivity i2 "desk treadmill " 500;
                mkActivity i3 "Run" 5000] in
      aggregate l = (2, 1500%float) /\
      milesOf (snd (aggregate l)) = (1500 * 0.000621371)%float /\
      (0.9315 <? milesOf (snd (aggregate l)))%float = true /\
      (milesOf (snd (aggregate l)) <? 0.9325)%float = true).
Proof.
  split; [| split; [| split]].
  - intros l Hl. unfold aggregate, sumDistances.
    pose proof (lenSlice_filter_le isDeskTreadmill l) as Hle.
    rewrite aggregateFrom_filter by lia. reflexivity.
  - exact isDeskTreadmill_ascii.
  - intros cfg d t. rewrite report_eq.
    unfold noticeRotation.
    destruct (negb (String.eqb (refreshToken d) "") &&
              negb (String.eqb (refreshToken d) (StravaRefreshToken cfg))).
    + run_step. cbn [snd]. rewrite <- !app_assoc. eexists. reflexivity.
    + exists []. rewrite app_nil_r. reflexivity.
  - intros i1 i2 i3 l.
    assert (Hagg : aggregate l = (2, 1500%float)) by reflexivity.
    rewrite Hagg. cbn [snd]. repeat split; reflexivity.
Qed.

End Aggregator.

(* ================================================================= *)
(** ** Concrete runs *)

Module Run.

Import Scenario.

(** Witness of C1: three pages of 200, 200 and 150 activities. *)
Lemma driver_pages_witness :
  lenSlice [pageA; pageB] < 2 ^ 63 - 1 /\
  Forall (fun pg => perPage <= lenSlice pg) [pageA; pageB] /\
  lenSlice pageC < perPage /\
  fetchesPages (E := threePages) [] "A0" 1 ([pageA; pageB] ++ [pageC]) /\
  exists t',
    fetchAll (E := threePages) (S (List.length [pageA; pageB]) + 0) cfg0
      (mkDriver "A0" "R0" 1 []) [] =
    (LoopDone (mkDriver "A0" "R0" (1 + lenSlice [pageA; pageB])
                 (List.concat ([pageA; pageB] ++ [pageC]))), t') /\
    fetchCalls t' = fetchCalls [] ++ pagesFrom 1 (S (List.length [pageA; pageB])) /\
    refreshAttempts t' = refreshAttempts [].
Proof.
  assert (H1 : lenSlice [pageA; pageB] < 2 ^ 63 - 1) by (vm_compute; reflexivity).
  assert (H2 : Forall (fun pg => perPage <= lenSlice pg) [pageA; pageB]).
  { repeat constructor; vm_compute; discriminate. }
  assert (H3 : lenSlice pageC < perPage) by (vm_compute; reflexivity).
  assert (H4 : fetchesPages (E := threePages) [] "A0" 1
                 ([pageA; pageB] ++ [pageC])).
  { cbn [app fetchesPages].
    exists (mkRL "" ""), [EvDo (pageReq "A0" 1) (ok 200 "page-a")].
    split; [vm_compute; reflexivity |].
    exists (mkRL "" ""),
      ([EvDo (pageReq "A0" 1) (ok 200 "page-a")] ++
       [pageLog 1 StatusOK (mkRL "" ""); retrievedLog 1 pageA] ++
       [EvDo (pageReq "A0" (1 + 1)) (ok 200 "page-b")]).
    split; [vm_compute; reflexivity |].
    exists (mkRL "" ""),
      ((([EvDo (pageReq "A0" 1) (ok 200 "page-a")] ++
         [pageLog 1 StatusOK (mkRL "" ""); retrievedLog 1 pageA] ++
         [EvDo (pageReq "A0" (1 + 1)) (ok 200 "page-b")]) ++
        [pageLog (1 + 1) StatusOK (mkRL "" ""); retrievedLog (1 + 1) pageB]) ++
       [EvDo (pageReq "A0" (1 + 1 + 1)) (ok 200 "page-c")]).
    split; [vm_compute; reflexivity | exact I]. }
  refine (conj H1 (conj H2 (conj H3 (conj H4 _)))).
  exact (proj1 (@driver_pages_until_short_page threePages)
           cfg0 "A0" "R0" [pageA; pageB] pageC [] 0%nat H1 H2 H3 H4).
Defined.

(** The same three pages on the wire: three requests, for the pages 1, 2
    and 3, and 550 activities. *)
Example three_pages_on_the_wire :
  let out := fetchAll (E := threePages) 3 cfg0 (mkDriver "A0" "R0" 1 []) [] in
  fst out = LoopDone (mkDriver "A0" "R0" 3 (pageA ++ pageB ++ pageC)) /\
  sent (snd out) = [pageReq "A0" 1; pageReq "A0" 2; pageReq "A0" 3] /\
  lenSlice (pageA ++ pageB ++ pageC) = 550.
Proof. vm_compute. repeat split; reflexivity. Qed.


(** The run of the specification's example: a 401, a granted refresh, a
    retry with 80 activities as the short last page. Three requests, the 80
    activities once. *)
Example reauthenticated_short_page :
  let out := fetchAll (E := expiredOnce) 1 cfg0 (mkDriver "A0" "R0" 1 []) [] in
  fst out = LoopDone (mkDriver "A1" "R1" 1 page80) /\
  sent (snd out) = [pageReq "A0" 1; refreshRequest cfg0; pageReq "A1" 1] /\
  fetchCalls (snd out) = [1; 1] /\ refreshAttempts (snd out) = [1].
Proof. vm_compute. repeat split; reflexivity. Qed.

(** Two 401 in a row: the run fails after the one retry; the script's
    fourth response is never asked for. *)
Example second_unauthorized_is_fatal :
  let out := fetchAll (E := expiredTwice) 5 cfg0 (mkDriver "A0" "R0" 1 []) [] in
  fst out = LoopFatal /\
  sent (snd out) = [pageReq "A0" 1; refreshRequest cfg0; pageReq "A1" 1] /\
  fetchCalls (snd out) = [1; 1] /\ refreshAttempts (snd out) = [1].
Proof. vm_compute. repeat split; reflexivity. Qed.

(** C2 (evaluation at the failing input). Page 1 holds 200 activities; the
    response for page 2 has status 200 and a body that does not decode.
    [fetchActivitiesPage] returns no activities with status 200, and [main]
    takes that for a short last page: it exits with code 0 and reports the
    200 activities of page 1 as the total, with no fatal line. *)
Theorem undecodable_page_taken_as_last :
  let out := main (E := brokenSecondPage) 2 (Loaded cfg0) [] in
  @json_Unmarshal_activities brokenSecondPage "<html>Bad Gateway</html>" =
  Err (ExternalError "invalid character") /\
  fst (fetchActivitiesPage (E := brokenSecondPage) "A0" 2
         [EvDo (probeRequest cfg0) (ok 200 "[]");
          EvDo (athleteRequest "A0") (ok 200 "{}");
          EvDo (pageReq "A0" 1) (ok 200 "page-a")]) =
  ([], StatusOK, mkRL "" "") /\
  fst out = Exit 0 /\
  sent (snd out) =
  [probeRequest cfg0; athleteRequest "A0"; pageReq "A0" 1; pageReq "A0" 2] /\
  logged (snd out) =
  [("Authenticated. Fetching activities (pages of 200)…", []);
   ("page=%d status=%d rateLimitUsage=%q", [AInt 1; AInt 200; AStr ""]);
   ("Page %d retrieved with %d activities", [AInt 1; AInt 200]);
   ("unmarshal activities: %v", [AErr (ExternalError "invalid character")]);
   ("page=%d status=%d rateLimitUsage=%q", [AInt 2; AInt 200; AStr ""]);
   ("Page %d retrieved with %d activities", [AInt 2; AInt 0]);
   ("Total activities fetched: %d", [AInt 200]);
   ("Desk Treadmill Activities: %d", [AInt 200]);
   ("Total Distance: %.2f miles", [AFloat (200000 * 0.000621371)%float])].
Proof. vm_compute. repeat split; reflexivity. Qed.

(** C7 (evaluation at the failing input). No cached access token; the
    first refresh sends "R0" and is granted "A1" with the rotated refresh
    token "R1". Page 1 comes back with 401, and the refresh that follows
    sends "R0" again, from the configuration: the provider answers 400 and
    the run exits with code 1. No notice about the rotation is logged. *)
Theorem second_refresh_sends_configured_token :
  let out := main (E := rotating) 3 (Loaded cfgNoAccess) [] in
  fst (ensureAccessToken (E := rotating) cfgNoAccess []) = Ok ("A1", "R1") /\
  refreshTokensSent (snd out) = ["R0"; "R0"] /\
  fst out = Exit 1 /\
  logged (snd out) =
  [("No STRAVA_ACCESS_TOKEN provided; refreshing with STRAVA_REFRESH_TOKEN…", []);
   ("token refreshed; expires in ~%d seconds", [AInt 21600]);
   ("Authenticated. Fetching activities (pages of 200)…", []);
   ("401 unauthorized. WWW-Authenticate=%q body=%s", [AStr ""; AStr "expired"]);
   ("page=%d status=%d rateLimitUsage=%q", [AInt 1; AInt 401; AStr ""]);
   ("401 unauthorized on page %d; attempting token refresh…", [AInt 1]);
   ("refresh after 401 failed: %v", [AErr (refreshFailed 400 "invalid_grant")])].
Proof. vm_compute. repeat split; reflexivity. Qed.

(** Witness of C5: a client secret of a tab and two spaces. *)
Lemma refresh_blank_credentials_witness :
  (blank (E := alwaysOK) (StravaClientId cfgBlankSecret) = true \/
   blank (E := alwaysOK) (StravaClientSecret cfgBlankSecret) = true \/
   blank (E := alwaysOK) (StravaRefreshToken cfgBlankSecret) = true) /\
  refreshAccessToken (E := alwaysOK) cfgBlankSecret [] =
  (Err missingCredentials, []) /\
  sent (snd (refreshAccessToken (E := alwaysOK) cfgBlankSecret [])) = sent [].
Proof.
  assert (H : blank (E := alwaysOK) (StravaClientId cfgBlankSecret) = true \/
              blank (E := alwaysOK) (StravaClientSecret cfgBlankSecret) = true \/
              blank (E := alwaysOK) (StravaRefreshToken cfgBlankSecret) = true).
  { right. left. vm_compute. reflexivity. }
  split; [exact H |].
  exact (@refresh_blank_credentials alwaysOK cfgBlankSecret [] H).
Defined.

(** Counterexample to C6 as stated. A 201 response, which is 2xx, with a
    body that decodes: [refreshAccessToken] returns the refresh-failed
    error, not the tokens. And the body of a failed refresh is carried
    whole: 400 bytes stay 400 bytes, where [truncate] with the limit the
    program uses elsewhere would leave 303. *)
Lemma refresh_201_not_parsed :
  (let res := mkResp 201 [] "grant-1" None in
   @srv created201 (sent []) (refreshRequest cfg0) = Ok res /\
   is2xx (StatusCode res) = true /\
   @json_Unmarshal_auth created201 (Body res) = Ok grant1 /\
   fst (refreshAccessToken (E := created201) cfg0 []) =
   Err (refreshFailed 201 "grant-1") /\
   fst (refreshAccessToken (E := created201) cfg0 []) <>
   Ok (AccessToken grant1, RefreshToken grant1)) /\
  (let res := mkResp 500 [] longBody None in
   @srv failing500 (sent []) (refreshRequest cfg0) = Ok res /\
   is2xx (StatusCode res) = false /\
   fst (refreshAccessToken (E := failing500) cfg0 []) =
   Err (refreshFailed 500 longBody) /\
   len longBody = 400 /\
   len (truncate longBody 300) = 303 /\
   fst (refreshAccessToken (E := failing500) cfg0 []) <>
   Err (refreshFailed 500 (truncate longBody 300))).
Proof.
  split.
  - cbv zeta. repeat split; try (vm_compute; reflexivity).
    vm_compute. discriminate.
  - cbv zeta. repeat split; try (vm_compute; reflexivity).
    vm_compute. intros H. inversion H.
Qed.

(** Witness of C6 as amended: status 500 gives the error with status 500
    and the 400 bytes of the body;
    status 200 with a body that decodes gives the tokens. *)
Lemma refresh_response_status_witness :
  (credentialsMissing (E := failing500) cfg0 = false /\
   @srv failing500 (sent []) (refreshRequest cfg0) =
   Ok (mkResp 500 [] longBody None) /\
   StatusCode (mkResp 500 [] longBody None) <> StatusOK /\
   refreshAccessToken (E := failing500) cfg0 [] =
   (Err (fmt_Errorf "refresh failed status=%d body=%s"
           [AInt (StatusCode (mkResp 500 [] longBody None));
            AStr (Body (mkResp 500 [] longBody None))]),
    [] ++ [EvDo (refreshRequest cfg0) (Ok (mkResp 500 [] longBody None))])) /\
  (credentialsMissing (E := alwaysOK) cfg0 = false /\
   @srv alwaysOK (sent []) (refreshRequest cfg0) =
   Ok (mkResp 200 [] "grant-1" None) /\
   StatusCode (mkResp 200 [] "grant-1" None) = StatusOK /\
   @json_Unmarshal_auth alwaysOK (Body (mkResp 200 [] "grant-1" None)) = Ok grant1 /\
   fst (refreshAccessToken (E := alwaysOK) cfg0 []) =
   Ok (AccessToken grant1, RefreshToken grant1) /\
   sent (snd (refreshAccessToken (E := alwaysOK) cfg0 [])) =
   sent [] ++ [refreshRequest cfg0]).
Proof.
  split.
  - assert (Hc : credentialsMissing (E := failing500) cfg0 = false)
      by (vm_compute; reflexivity).
    assert (Hs : @srv failing500 (sent []) (refreshRequest cfg0) =
                 Ok (mkResp 500 [] longBody None)) by reflexivity.
    assert (Hst : StatusCode (mkResp 500 [] longBody None) <> StatusOK)
      by (vm_compute; discriminate).
    refine (conj Hc (conj Hs (conj Hst _))).
    exact (proj1 (@refresh_response_status failing500 cfg0 []
                    (mkResp 500 [] longBody None) Hc Hs) Hst).
  - assert (Hc : credentialsMissing (E := alwaysOK) cfg0 = false)
      by (vm_compute; reflexivity).
    assert (Hs : @srv alwaysOK (sent []) (refreshRequest cfg0) =
                 Ok (mkResp 200 [] "grant-1" None)) by reflexivity.
    assert (Hst : StatusCode (mkResp 200 [] "grant-1" None) = StatusOK)
      by reflexivity.
    assert (Hj : @json_Unmarshal_auth alwaysOK
                   (Body (mkResp 200 [] "grant-1" None)) = Ok grant1)
      by (vm_compute; reflexivity).
    refine (conj Hc (conj Hs (conj Hst (conj Hj _)))).
    exact (proj2 (@refresh_response_status alwaysOK cfg0 []
                    (mkResp 200 [] "grant-1" None) Hc Hs) Hst grant1 Hj).
Defined.

(** Counterexample to C10 as stated. The grant is answered with status
    200 and the body [{}]: JSON, but with neither token. [json.Unmarshal]
    reports no error on it and leaves the struct at its zero value, so
    [refreshAccessToken] reports success with two empty token strings,
    after the line about a token that expires in 0 seconds. *)
Lemma empty_object_gives_empty_tokens :
  let res := mkResp 200 [] "{}" None in
  @srv Scenario2.emptyObject200 (sent []) (refreshRequest cfg0) = Ok res /\
  StatusCode res = StatusOK /\
  @json_Unmarshal_auth Scenario2.emptyObject200 (Body res) =
  Ok (mkAuth "" 0 "" "") /\
  refreshAccessToken (E := Scenario2.emptyObject200) cfg0 [] =
  (Ok ("", ""),
   [EvDo (refreshRequest cfg0) (Ok res);
    EvLog "token refreshed; expires in ~%d seconds" [AInt 0]]) /\
  (forall err,
      fst (refreshAccessToken (E := Scenario2.emptyObject200) cfg0 []) <> Err err).
Proof.
  cbv zeta. repeat split; try (vm_compute; reflexivity).
  intros err. vm_compute. discriminate.
Qed.

(** Witness of C10 as amended: status 200 with an HTML body. *)
Lemma refresh_undecodable_body_witness :
  credentialsMissing (E := html200) cfg0 = false /\
  @srv html200 (sent []) (refreshRequest cfg0) =
  Ok (mkResp 200 [] "<html>Bad Gateway</html>" None) /\
  StatusCode (mkResp 200 [] "<html>Bad Gateway</html>" None) = StatusOK /\
  @json_Unmarshal_auth html200
    (Body (mkResp 200 [] "<html>Bad Gateway</html>" None)) =
  Err (ExternalError "invalid character") /\
  refreshAccessToken (E := html200) cfg0 [] =
  (Err (fmt_Errorf "unmarshal refresh: %w"
          [AErr (ExternalError "invalid character")]),
   [] ++ [EvDo (refreshRequest cfg0)
            (Ok (mkResp 200 [] "<html>Bad Gateway</html>" None))]).
Proof.
  assert (Hc : credentialsMissing (E := html200) cfg0 = false)
    by (vm_compute; reflexivity).
  assert (Hs : @srv html200 (sent []) (refreshRequest cfg0) =
               Ok (mkResp 200 [] "<html>Bad Gateway</html>" None)) by reflexivity.
  assert (Hst : StatusCode (mkResp 200 [] "<html>Bad Gateway</html>" None) =
                StatusOK) by reflexivity.
  assert (Hj : @json_Unmarshal_auth html200
                 (Body (mkResp 200 [] "<html>Bad Gateway</html>" None)) =
               Err (ExternalError "invalid character"))
    by (vm_compute; reflexivity).
  refine (conj Hc (conj Hs (conj Hst (conj Hj _)))).
  exact (proj1 (@refresh_undecodable_body html200) cfg0 []
           (mkResp 200 [] "<html>Bad Gateway</html>" None)
           (ExternalError "invalid character") Hc Hs Hst Hj).
Defined.

(** Counterexample to C4 as stated. The cached access token is one space:
    not empty, yet blank. The server would answer the probe with 200, but
    no probe is sent: [ensureAccessToken] sends a refresh grant and returns
    the granted tokens, not the cached ones. *)
Lemma whitespace_token_is_refreshed :
  StravaAccessToken cfgSpace <> "" /\
  @srv alwaysOK (sent []) (probeRequest cfgSpace) = ok 200 "grant-1" /\
  fst (ensureAccessToken (E := alwaysOK) cfgSpace []) = Ok ("A1", "R1") /\
  fst (ensureAccessToken (E := alwaysOK) cfgSpace []) <>
  Ok (StravaAccessToken cfgSpace, StravaRefreshToken cfgSpace) /\
  sent (snd (ensureAccessToken (E := alwaysOK) cfgSpace [])) =
  [refreshRequest cfgSpace].
Proof.
  repeat split; try (vm_compute; reflexivity); vm_compute; discriminate.
Qed.

(** Witness of C4 as amended: the cached token "A0" is kept when the probe
    gets 200, and refreshed once when the probe gets 401. *)
Lemma ensure_cached_token_witness :
  (blank (E := alwaysOK) (StravaAccessToken cfg0) = false /\
   @srv alwaysOK (sent []) (probeRequest cfg0) =
   Ok (mkResp 200 [] "grant-1" None) /\
   StatusCode (mkResp 200 [] "grant-1" None) <> StatusUnauthorized /\
   ensureAccessToken (E := alwaysOK) cfg0 [] =
   (Ok (StravaAccessToken cfg0, StravaRefreshToken cfg0),
    [] ++ [EvDo (probeRequest cfg0) (Ok (mkResp 200 [] "grant-1" None))]) /\
   sent (snd (ensureAccessToken (E := alwaysOK) cfg0 [])) =
   sent [] ++ [probeRequest cfg0]) /\
  (blank (E := always401) (StravaAccessToken cfg0) = false /\
   @srv always401 (sent []) (probeRequest cfg0) = ok 401 "unauthorized" /\
   exists f a,
     ensureAccessToken (E := always401) cfg0 [] =
     refreshAccessToken (E := always401) cfg0
       ([] ++ [EvDo (probeRequest cfg0) (ok 401 "unauthorized"); EvLog f a]) /\
     sent (snd (ensureAccessToken (E := always401) cfg0 [])) =
     sent [] ++ [probeRequest cfg0] ++ refreshRequests (E := always401) cfg0).
Proof.
  split.
  - assert (Hb : blank (E := alwaysOK) (StravaAccessToken cfg0) = false)
      by (vm_compute; reflexivity).
    assert (Hs : @srv alwaysOK (sent []) (probeRequest cfg0) =
                 Ok (mkResp 200 [] "grant-1" None)) by reflexivity.
    assert (Hst : StatusCode (mkResp 200 [] "grant-1" None) <> StatusUnauthorized)
      by (vm_compute; discriminate).
    refine (conj Hb (conj Hs (conj Hst _))).
    exact (proj1 (@ensure_cached_token alwaysOK cfg0 [] Hb)
             (mkResp 200 [] "grant-1" None) Hs Hst).
  - assert (Hb : blank (E := always401) (StravaAccessToken cfg0) = false)
      by (vm_compute; reflexivity).
    assert (Hs : @srv always401 (sent []) (probeRequest cfg0) =
                 ok 401 "unauthorized") by reflexivity.
    refine (conj Hb (conj Hs _)).
    apply (proj2 (@ensure_cached_token always401 cfg0 [] Hb)
             (ok 401 "unauthorized") Hs).
    right. exists (mkResp 401 [] "unauthorized" None). split; reflexivity.
Defined.

(** Witness of C8: the three activities of the specification's example. *)
Lemma aggregate_desk_treadmill_witness :
  lenSlice threeActivities < 2 ^ 63 /\
  aggregate (E := alwaysOK) threeActivities =
  (lenSlice (filter (isDeskTreadmill (E := alwaysOK)) threeActivities),
   sumDistances (filter (isDeskTreadmill (E := alwaysOK)) threeActivities)) /\
  isASCII (bytes_of_string "desk treadmill ") /\
  (isDeskTreadmill (E := alwaysOK) (mkActivity 2 "desk treadmill " 500) = true <->
   trimmedNameIs "Desk Treadmill" "desk treadmill ").
Proof.
  assert (H1 : lenSlice threeActivities < 2 ^ 63) by (vm_compute; reflexivity).
  assert (H2 : isASCII (bytes_of_string "desk treadmill ")).
  { repeat constructor. }
  refine (conj H1 (conj _ (conj H2 _))).
  - exact (proj1 (@aggregate_desk_treadmill alwaysOK) threeActivities H1).
  - exact (proj1 (proj2 (@aggregate_desk_treadmill alwaysOK))
             (mkActivity 2 "desk treadmill " 500) H2).
Defined.

End Run.

(* ================================================================= *)
(** ** [truncate], [rateLimitUsage.String], [backoff] *)

Lemma length_substring_le (n : nat) :
  forall s : string, (n <= String.length s)%nat ->
    String.length (substring 0 n s) = n.
Proof.
  induction n as [| n IH]; intros [| c s] H; cbn in *; try lia.
  rewrite IH by lia. reflexivity.
Qed.

Lemma substring_append_left (n : nat) :
  forall s e : string, String.length s = n -> substring 0 n (s ++ e)%string = s.
Proof.
  induction n as [| n IH]; intros [| c s] e H; cbn in *; try lia.
  - destruct e; reflexivity.
  - rewrite IH by lia. reflexivity.
Qed.

Lemma length_append (s e : string) :
  String.length (s ++ e)%string = (String.length s + String.length e)%nat.
Proof. induction s as [| c s IH]; cbn; [reflexivity | rewrite IH; reflexivity]. Qed.

Lemma truncate_cases (s : string) (n : Z) :
  0 <= n ->
  (len s <= n -> truncate s n = s) /\
  (n < len s ->
   len (truncate s n) = n + 3 /\ slice_to (truncate s n) n = slice_to s n) /\
  len (truncate s n) <= n + 3.
Proof.
  intros Hn. unfold truncate.
  assert (Hcut : n < len s -> len (slice_to s n) = n).
  { intros Hlt. unfold len, slice_to in *.
    rewrite length_substring_le by lia. lia. }
  destruct (len s <=? n) eqn:Hle.
  - apply Z.leb_le in Hle. repeat split; intros; try reflexivity; lia.
  - apply Z.leb_gt in Hle. specialize (Hcut Hle).
    assert (Hlen : len (slice_to s n ++ ellipsis)%string = n + 3).
    { unfold len in *. rewrite length_append. cbn [String.length ellipsis]. lia. }
    repeat split; try lia.
    unfold slice_to at 1. apply substring_append_left.
    unfold len in Hcut. lia.
Qed.

Lemma bytes_of_string_append (a b : string) :
  bytes_of_string (a ++ b)%string = bytes_of_string a ++ bytes_of_string b.
Proof.
  unfold bytes_of_string.
  induction a as [| c a IH]; cbn; [reflexivity | rewrite IH; reflexivity].
Qed.

Lemma substring_prefix (n : nat) :
  forall s : string, (n <= String.length s)%nat ->
    exists rest, s = (substring 0 n s ++ rest)%string.
Proof.
  induction n as [| n IH]; intros [| c s] H; cbn in *; try lia.
  - exists "". reflexivity.
  - exists (String c s). reflexivity.
  - destruct (IH s) as (rest & Hrest); [lia |].
    exists rest. rewrite <- Hrest. reflexivity.
Qed.

(** X1. [truncate] with a limit [n >= 0] returns a string of at most
    [n + 3] bytes: the string itself when it has at most [n] bytes, and
    otherwise its first [n] bytes followed by the three bytes E2 80 A6 of
    the ellipsis. *)
Theorem truncate_length (s : string) (n : Z) :
  0 <= n ->
  (len s <= n -> truncate s n = s) /\
  (n < len s ->
   exists head rest,
     s = (head ++ rest)%string /\ len head = n /\
     map byte_of (bytes_of_string (truncate s n)) =
     map byte_of (bytes_of_string head) ++ [226; 128; 166] /\
     len (truncate s n) = n + 3) /\
  len (truncate s n) <= n + 3.
Proof.
  intros Hn. destruct (truncate_cases s n Hn) as (Hshort & Hlong & Hbound).
  split; [exact Hshort |]. split; [| exact Hbound].
  intros Hlt. destruct (Hlong Hlt) as (Hlen & _).
  destruct (substring_prefix (Z.to_nat n) s) as (rest & Hrest).
  { unfold len in Hlt. lia. }
  exists (slice_to s n), rest. split; [exact Hrest |].
  split; [| split; [| exact Hlen]].
  - unfold len, slice_to in *. rewrite length_substring_le by lia. lia.
  - unfold truncate. destruct (len s <=? n) eqn:Hle.
    + apply Z.leb_le in Hle. lia.
    + rewrite bytes_of_string_append, map_app. reflexivity.
Qed.

(** X2. Truncating twice with the same limit changes nothing more. *)
Theorem truncate_idempotent (s : string) (n : Z) :
  0 <= n -> truncate (truncate s n) n = truncate s n.
Proof.
  intros Hn. destruct (truncate_cases s n Hn) as (Hshort & Hlong & _).
  destruct (Z.le_gt_cases (len s) n) as [Hle | Hgt].
  - rewrite (Hshort Hle). exact (Hshort Hle).
  - destruct (Hlong Hgt) as (Hlen & Hpre).
    unfold truncate at 1.
    assert (Hle : (len (truncate s n) <=? n) = false) by (apply Z.leb_gt; lia).
    rewrite Hle, Hpre. unfold truncate.
    assert (Hle' : (len s <=? n) = false) by (apply Z.leb_gt; lia).
    rewrite Hle'. reflexivity.
Qed.

(** X3. The rate-limit snapshot prints as the empty string exactly when
    both of its fields are empty. *)
Theorem rateLimitUsage_String_empty (r : rateLimitUsage) :
  rateLimitUsage_String r = "" <-> Usage r = "" /\ Limit r = "".
Proof.
  unfold rateLimitUsage_String. split.
  - destruct (String.eqb (Usage r) "") eqn:Hu;
      destruct (String.eqb (Limit r) "") eqn:Hl; cbn [andb]; intros H;
      try discriminate.
    apply String.eqb_eq in Hu, Hl. split; assumption.
  - intros (-> & ->). reflexivity.
Qed.

(** X4. [backoff] never returns more than 30 seconds, whatever the
    attempt, and an attempt below 1 counts as attempt 1. *)
Theorem backoff_capped (n : Z) :
  backoff n <= 30 * Second /\ (n < 1 -> backoff n = backoff 1).
Proof.
  split.
  - unfold backoff. cbv zeta.
    match goal with
    | |- (if ?d >? _ then _ else _) <= _ => destruct (Z.gtb_spec d (30 * Second))
    end; lia.
  - intros H. rewrite backoff_below_one by exact H. reflexivity.
Qed.

(** X5. For the attempts 1 to 34 [backoff] is the capped exponential
    min(2^(n-1) s, 30 s): it is at least one second, and never decreases
    from one attempt to the next. *)
Theorem backoff_exponential (n : Z) :
  1 <= n <= 34 ->
  backoff n = Z.min (2 ^ (n - 1) * Second) (30 * Second) /\
  Second <= backoff n /\
  (n < 34 -> backoff n <= backoff (n + 1)).
Proof.
  intros H.
  assert (Hk : exists k : nat, (k < 34)%nat /\ n = Z.of_nat k + 1).
  { exists (Z.to_nat (n - 1)). lia. }
  destruct Hk as (k & Hk & ->).
  do 34 (destruct k as [| k];
         [vm_compute; repeat split; intros; discriminate |]).
  lia.
Qed.

(* ================================================================= *)
(** ** Page fetcher: retries, sleeps, exhaustion *)

Section Retries.

Context {E : Env}.

(** The trace of the retry loop: after [j] retried attempts, each followed
    by its backoff sleep, the call ends on a final response ([k = j + 1]
    requests) or out of attempts ([k = j]). *)
Lemma fetchAttempts_schedule (attempts : list Z) (tok : string) (p : Z) :
  forall (lastStatus : Z) (lastRL : rateLimitUsage) (t : Trace),
  exists (l : Trace) (k j : nat),
    snd (fetchAttempts attempts tok p lastStatus lastRL t) = t ++ l /\
    (k <= List.length attempts)%nat /\
    (j <= k <= S j)%nat /\
    sent l = repeat (pageReq tok p) k /\
    slept l = map backoff (firstn j attempts).
Proof.
  induction attempts as [| attempt rest IH]; intros lastStatus lastRL t.
  - exists [], 0%nat, 0%nat. cbn. rewrite app_nil_r. repeat split; lia.
  - rewrite fetchAttempts_cons. cbv zeta.
    set (r := srv (sent t) (pageReq tok p)).
    assert (Hnext : forall st rl f a,
               exists (l : Trace) (k j : nat),
                 snd (fetchAttempts rest tok p st rl
                        ((t ++ [EvDo (pageReq tok p) r]) ++
                         [EvLog f a; EvSleep (backoff attempt)])) = t ++ l /\
                 (k <= List.length (attempt :: rest))%nat /\
                 (j <= k <= S j)%nat /\
                 sent l = repeat (pageReq tok p) k /\
                 slept l = map backoff (firstn j (attempt :: rest))).
    { intros st rl f a.
      destruct (IH st rl ((t ++ [EvDo (pageReq tok p) r]) ++
                          [EvLog f a; EvSleep (backoff attempt)]))
        as (l' & k & j & Heq & Hk & Hj & Hs & Hz).
      exists ([EvDo (pageReq tok p) r] ++
              [EvLog f a; EvSleep (backoff attempt)] ++ l'), (S k), (S j).
      split; [rewrite Heq, <- !app_assoc; reflexivity |].
      split; [cbn; lia |]. split; [lia |].
      rewrite !sent_app, !slept_app, Hs, Hz. split; reflexivity. }
    assert (Hstop : forall l0,
               sent l0 = [] -> slept l0 = [] ->
               exists (l : Trace) (k j : nat),
                 (t ++ [EvDo (pageReq tok p) r]) ++ l0 = t ++ l /\
                 (k <= List.length (attempt :: rest))%nat /\
                 (j <= k <= S j)%nat /\
                 sent l = repeat (pageReq tok p) k /\
                 slept l = map backoff (firstn j (attempt :: rest))).
    { intros l0 H1 H2.
      exists ([EvDo (pageReq tok p) r] ++ l0), 1%nat, 0%nat.
      split; [rewrite <- app_assoc; reflexivity |].
      split; [cbn; lia |]. split; [lia |].
      rewrite !sent_app, !slept_app, H1, H2. split; reflexivity. }
    destruct r as [res | err].
    + destruct (ReadErr res); [apply Hnext |].
      destruct (StatusCode res =? StatusOK).
      { destruct (json_Unmarshal_activities (Body res)); cbn [snd].
        - specialize (Hstop [] eq_refl eq_refl).
          rewrite app_nil_r in Hstop. exact Hstop.
        - apply Hstop; reflexivity. }
      destruct (StatusCode res =? StatusTooManyRequests); [apply Hnext |].
      destruct (StatusCode res =? StatusUnauthorized); cbn [snd];
        apply Hstop; reflexivity.
    + apply Hnext.
Qed.

(** X6. One call of [fetchActivitiesPage] sends at most three requests,
    all of them the request for the given page with the given token, and
    sleeps only between attempts: 1 s after the first, 2 s after the
    second, 4 s after the third, so at most 7 s in all. *)
Theorem fetch_at_most_three_attempts (tok : string) (p : Z) (t : Trace) :
  exists (l : Trace) (k j : nat),
    snd (fetchActivitiesPage tok p t) = t ++ l /\
    (k <= 3)%nat /\ (j <= k <= S j)%nat /\
    sent l = repeat (pageReq tok p) k /\
    slept l = firstn j backoffs /\
    fold_right Z.add 0 (slept l) <= 7 * Second.
Proof.
  unfold fetchActivitiesPage.
  destruct (fetchAttempts_schedule attemptsFrom1 tok p 0 (mkRL "" "") t)
    as (l & k & j & Heq & Hk & Hj & Hs & Hz).
  exists l, k, j. rewrite attemptsFrom1_eq in *. cbn [List.length] in Hk.
  split; [exact Heq |]. split; [exact Hk |]. split; [exact Hj |].
  split; [exact Hs |].
  assert (Hz' : slept l = firstn j backoffs).
  { rewrite Hz. destruct j as [| [| [| [| j]]]]; reflexivity. }
  split; [exact Hz' |].
  rewrite Hz'. destruct j as [| [| [| [| j]]]]; vm_compute; discriminate.
Qed.

(** X7. Activities come back only with status 200: with any other status
    the returned slice is empty. *)
Theorem fetch_activities_only_with_200 (tok : string) (p : Z) (t t' : Trace)
    (acts : list activity) (st : Z) (rl : rateLimitUsage) :
  fetchActivitiesPage tok p t = ((acts, st, rl), t') ->
  st <> StatusOK -> acts = [].
Proof.
  unfold fetchActivitiesPage. intros H Hst.
  exact (fetchAttempts_activities attemptsFrom1 tok p 0 (mkRL "" "") t
           acts st rl t' H Hst).
Qed.

(** X8. A response that is read without error and has a status other
    than 429 ends the call at once: one request, no sleep, the status and
    the rate-limit headers of that response are returned, and the
    activities are the decoded body when the status is 200 and the body
    decodes, and none otherwise. *)
Theorem fetch_final_response (tok : string) (p : Z) (t : Trace) (res : Response) :
  srv (sent t) (pageReq tok p) = Ok res ->
  ReadErr res = None ->
  StatusCode res <> StatusTooManyRequests ->
  exists l,
    fetchActivitiesPage tok p t =
    ((if StatusCode res =? StatusOK
      then match json_Unmarshal_activities (Body res) with
           | Ok items => items
           | Err _ => []
           end
      else [],
      StatusCode res, rateLimitOf res),
     t ++ EvDo (pageReq tok p) (Ok res) :: l) /\
    sent l = [] /\ slept l = [].
Proof.
  intros Hs Hr Hst. unfold fetchActivitiesPage.
  rewrite attemptsFrom1_eq, fetchAttempts_cons. cbv zeta. rewrite Hs, Hr.
  destruct (StatusCode res =? StatusOK).
  - destruct (json_Unmarshal_activities (Body res)).
    + exists []. repeat split.
    + eexists. rewrite <- app_assoc. cbn [app].
      split; [reflexivity |]. split; reflexivity.
  - destruct (StatusCode res =? StatusTooManyRequests) eqn:E429.
    { apply Z.eqb_eq in E429. contradiction. }
    destruct (StatusCode res =? StatusUnauthorized);
      eexists; rewrite <- app_assoc; cbn [app];
      (split; [reflexivity |]); split; reflexivity.
Qed.

(** When every answer to the page request is retryable, every attempt is
    used: one request and one backoff sleep per attempt, no activities,
    and a status and snapshot that are the initial ones or ones the server
    sent. *)
Lemma fetchAttempts_exhausted (P : Z -> rateLimitUsage -> Prop)
    (tok : string) (p : Z) :
  (forall hist, retryable (srv hist (pageReq tok p)) = true) ->
  (forall hist res, srv hist (pageReq tok p) = Ok res ->
                    P (StatusCode res) (rateLimitOf res)) ->
  forall (attempts : list Z) (lastStatus : Z) (lastRL : rateLimitUsage)
         (t : Trace),
    P lastStatus lastRL ->
    exists st rl l,
      fetchAttempts attempts tok p lastStatus lastRL t = (([], st, rl), t ++ l) /\
      P st rl /\
      sent l = repeat (pageReq tok p) (List.length attempts) /\
      slept l = map backoff attempts.
Proof.
  intros Hretry HP.
  induction attempts as [| attempt rest IH]; intros lastStatus lastRL t Hlast.
  - exists lastStatus, lastRL, []. cbn. unfold ret. rewrite app_nil_r.
    repeat split. exact Hlast.
  - rewrite fetchAttempts_cons. cbv zeta.
    pose proof (Hretry (sent t)) as Hr. pose proof (HP (sent t)) as Hp.
    assert (Hnext : forall st rl f a,
               P st rl ->
               exists st' rl' l,
                 fetchAttempts rest tok p st rl
                   ((t ++ [EvDo (pageReq tok p) (srv (sent t) (pageReq tok p))]) ++
                    [EvLog f a; EvSleep (backoff attempt)]) =
                 (([], st', rl'), t ++ l) /\
                 P st' rl' /\
                 sent l = repeat (pageReq tok p) (List.length (attempt :: rest)) /\
                 slept l = map backoff (attempt :: rest)).
    { intros st rl f a Hst.
      destruct (IH st rl
                  ((t ++ [EvDo (pageReq tok p) (srv (sent t) (pageReq tok p))]) ++
                   [EvLog f a; EvSleep (backoff attempt)]) Hst)
        as (st' & rl' & l & Heq & Hst' & Hs & Hz).
      exists st', rl',
        ([EvDo (pageReq tok p) (srv (sent t) (pageReq tok p))] ++
         [EvLog f a; EvSleep (backoff attempt)] ++ l).
      split; [rewrite Heq, <- !app_assoc; reflexivity |].
      split; [exact Hst' |].
      rewrite !sent_app, !slept_app, Hs, Hz. split; reflexivity. }
    destruct (srv (sent t) (pageReq tok p)) as [res | err] eqn:Hsrv.
    + specialize (Hp res eq_refl). cbn [retryable] in Hr.
      destruct (ReadErr res); [apply Hnext; exact Hp |].
      assert (H200 : (StatusCode res =? StatusOK) = false).
      { apply Z.eqb_eq in Hr. rewrite Hr. reflexivity. }
      rewrite H200, Hr. apply Hnext. exact Hp.
    + apply Hnext. exact Hlast.
Qed.

(** X9. When every answer to the page request is a transport error, a
    body that cannot be read, or status 429, the call uses all three
    attempts: three requests, sleeps of 1 s, 2 s and 4 s, and no
    activities. *)
Theorem fetch_exhausts_attempts (tok : string) (p : Z) (t : Trace) :
  (forall hist, retryable (srv hist (pageReq tok p)) = true) ->
  exists st rl l,
    fetchActivitiesPage tok p t = (([], st, rl), t ++ l) /\
    sent l = repeat (pageReq tok p) 3 /\
    slept l = backoffs.
Proof.
  intros Hretry. unfold fetchActivitiesPage.
  destruct (fetchAttempts_exhausted (fun _ _ => True) tok p Hretry
              (fun _ _ _ => I) attemptsFrom1 0 (mkRL "" "") t I)
    as (st & rl & l & Heq & _ & Hs & Hz).
  exists st, rl, l. split; [exact Heq |]. split; [exact Hs | exact Hz].
Qed.

(** X10. A page whose every attempt fails in transport ends the run:
    [fetchActivitiesPage] returns status 0 after three requests and the
    three backoff sleeps, and the loop stops with the fatal line about
    status 0, whatever was accumulated so far. *)
Theorem transport_failure_is_fatal (cfg : envVars) (d : driver) (t : Trace) :
  (forall hist, exists err,
      srv hist (pageReq (accessToken d) (page d)) = Err err) ->
  exists l,
    fst (fetchActivitiesPage (accessToken d) (page d) t) = ([], 0, mkRL "" "") /\
    (forall fuel, fetchAll (S fuel) cfg d t = (LoopFatal, t ++ l)) /\
    sent l = repeat (pageReq (accessToken d) (page d)) 3 /\
    slept l = backoffs /\
    In (EvLog "unexpected status code: %d" [AInt 0]) l.
Proof.
  intros Hfail.
  assert (Hretry : forall hist,
             retryable (srv hist (pageReq (accessToken d) (page d))) = true).
  { intros hist. destruct (Hfail hist) as (err & ->). reflexivity. }
  destruct (fetchAttempts_exhausted
              (fun st rl => st = 0 /\ rl = mkRL "" "")
              (accessToken d) (page d) Hretry) with
    (attempts := attemptsFrom1) (lastStatus := 0) (lastRL := mkRL "" "") (t := t)
    as (st & rl & l & Heq & (-> & ->) & Hs & Hz).
  { intros hist res H. destruct (Hfail hist) as (err & He). congruence. }
  { split; reflexivity. }
  fold (fetchActivitiesPage (accessToken d) (page d) t) in Heq.
  exists (l ++ [pageLog (page d) 0 (mkRL "" "");
                EvLog "unexpected status code: %d" [AInt 0]]).
  split; [rewrite Heq; reflexivity |].
  split; [| split; [| split]].
  - intros fuel. apply fetchAll_fatal.
    rewrite (pageStep_unfold cfg d _ _ _ _ _ Heq). cbn.
    rewrite <- !app_assoc. reflexivity.
  - rewrite sent_app, Hs. cbn. apply app_nil_r.
  - rewrite slept_app, Hz. cbn. reflexivity.
  - apply in_or_app. right. right. left. reflexivity.
Qed.

(** X11. While the server answers every request for the page with 429,
    the loop makes no progress and never ends: each iteration repeats the
    same page (three requests, sleeps of 1 s, 2 s and 4 s, then the pause
    of 60 s), so for every fuel the model runs out of fuel. *)
Theorem rate_limited_forever (cfg : envVars) (d : driver) :
  (forall hist, exists res,
      srv hist (pageReq (accessToken d) (page d)) = Ok res /\
      StatusCode res = StatusTooManyRequests) ->
  forall (fuel : nat) (t : Trace),
  exists t',
    fetchAll fuel cfg d t = (LoopOutOfFuel, t') /\
    sent t' = sent t ++ repeat (pageReq (accessToken d) (page d)) (3 * fuel) /\
    slept t' = slept t ++ List.concat (repeat (backoffs ++ [60 * Second]) fuel).
Proof.
  intros H429.
  assert (Hretry : forall hist,
             retryable (srv hist (pageReq (accessToken d) (page d))) = true).
  { intros hist. destruct (H429 hist) as (res & -> & Hst). cbn [retryable].
    destruct (ReadErr res); [reflexivity |]. rewrite Hst. reflexivity. }
  assert (Hfetch : forall t,
             exists rl l,
               fetchActivitiesPage (accessToken d) (page d) t =
               (([], StatusTooManyRequests, rl), t ++ l) /\
               sent l = repeat (pageReq (accessToken d) (page d)) 3 /\
               slept l = backoffs).
  { intros t. unfold fetchActivitiesPage. rewrite attemptsFrom1_eq.
    rewrite fetchAttempts_cons. cbv zeta.
    destruct (H429 (sent t)) as (res & Hs & Hst). rewrite Hs.
    assert (Hnext : forall f a,
               exists rl l,
                 fetchAttempts [2; 3] (accessToken d) (page d)
                   (StatusCode res) (rateLimitOf res)
                   ((t ++ [EvDo (pageReq (accessToken d) (page d)) (Ok res)]) ++
                    [EvLog f a; EvSleep (backoff 1)]) =
                 (([], StatusTooManyRequests, rl), t ++ l) /\
                 sent l = repeat (pageReq (accessToken d) (page d)) 3 /\
                 slept l = backoffs).
    { intros f a.
      destruct (fetchAttempts_exhausted
                  (fun st _ => st = StatusTooManyRequests)
                  (accessToken d) (page d) Hretry) with
        (attempts := [2; 3]) (lastStatus := StatusCode res)
        (lastRL := rateLimitOf res)
        (t := (t ++ [EvDo (pageReq (accessToken d) (page d)) (Ok res)]) ++
              [EvLog f a; EvSleep (backoff 1)])
        as (st & rl & l & Heq & -> & Hsent & Hslept).
      { intros hist res' H. destruct (H429 hist) as (res'' & He & Hst'').
        congruence. }
      { exact Hst. }
      exists rl,
        ([EvDo (pageReq (accessToken d) (page d)) (Ok res)] ++
         [EvLog f a; EvSleep (backoff 1)] ++ l).
      split; [rewrite Heq, <- !app_assoc; reflexivity |].
      rewrite !sent_app, !slept_app, Hsent, Hslept. split; reflexivity. }
    destruct (ReadErr res); [apply Hnext |].
    assert (H200 : (StatusCode res =? StatusOK) = false)
      by (rewrite Hst; reflexivity).
    assert (H429' : (StatusCode res =? StatusTooManyRequests) = true)
      by (rewrite Hst; reflexivity).
    rewrite H200, H429'. apply Hnext. }
  induction fuel as [| fuel IH]; intros t.
  - exists t. cbn. unfold ret. rewrite !app_nil_r. repeat split.
  - destruct (Hfetch t) as (rl & l & Heq & Hs & Hz).
    rewrite fetchAll_S. rewrite (pageStep_unfold cfg d _ _ _ _ _ Heq).
    cbn [Z.eqb StatusTooManyRequests StatusUnauthorized Pos.eqb]. cbv zeta.
    destruct (IH (((t ++ l) ++ [pageLog (page d) StatusTooManyRequests rl]) ++
                  [EvLog "429 rate limited; backing off for 60s before retry…" [];
                   EvSleep (60 * Second)]))
      as (t' & Hrun & Hsent & Hslept).
    exists t'. split; [exact Hrun |]. split.
    + rewrite Hsent, !sent_app, Hs. cbn [sent pageLog].
      rewrite !app_nil_r, <- app_assoc, <- repeat_app.
      replace (3 * S fuel)%nat with (3 + 3 * fuel)%nat by lia. reflexivity.
    + rewrite Hslept, !slept_app, Hz. cbn [slept pageLog repeat List.concat].
      rewrite !app_nil_r, <- !app_assoc. reflexivity.
Qed.

(** X12. A fetch that comes back with a status other than 200, 401 and
    429 ends the run at once: the loop stops with the fatal line carrying
    that status, and nothing is appended or fetched after it. *)
Theorem unexpected_status_is_fatal (cfg : envVars) (d : driver) (t t1 : Trace)
    (acts : list activity) (st : Z) (rl : rateLimitUsage) :
  fetchActivitiesPage (accessToken d) (page d) t = ((acts, st, rl), t1) ->
  st <> StatusOK -> st <> StatusUnauthorized -> st <> StatusTooManyRequests ->
  forall fuel,
    fetchAll (S fuel) cfg d t =
    (LoopFatal,
     t1 ++ [pageLog (page d) st rl; EvLog "unexpected status code: %d" [AInt st]]).
Proof.
  intros Hf H200 H401 H429 fuel. apply fetchAll_fatal.
  rewrite (pageStep_unfold cfg d _ _ _ _ _ Hf). cbv zeta.
  apply Z.eqb_neq in H200, H401, H429. rewrite H200, H401, H429.
  rewrite <- app_assoc. reflexivity.
Qed.

(** X13. When the body of every answer for a page cannot be read although
    the status is 200, [fetchActivitiesPage] gives up after three attempts
    and returns the last status seen, 200, with no activities; the loop
    then ends as on a short last page, with the accumulated slice
    unchanged. *)
Theorem unreadable_200_ends_loop (cfg : envVars) (d : driver) (t : Trace) :
  (forall hist, exists res err,
      srv hist (pageReq (accessToken d) (page d)) = Ok res /\
      StatusCode res = StatusOK /\ ReadErr res = Some err) ->
  exists rl l d',
    fetchActivitiesPage (accessToken d) (page d) t = (([], StatusOK, rl), t ++ l) /\
    sent l = repeat (pageReq (accessToken d) (page d)) 3 /\
    (forall fuel, fst (fetchAll (S fuel) cfg d t) = LoopDone d') /\
    all d' = all d /\ page d' = page d.
Proof.
  intros Hbad.
  assert (Hretry : forall hist,
             retryable (srv hist (pageReq (accessToken d) (page d))) = true).
  { intros hist. destruct (Hbad hist) as (res & err & -> & _ & Hr).
    cbn [retryable]. rewrite Hr. reflexivity. }
  unfold fetchActivitiesPage at 1. rewrite attemptsFrom1_eq.
  rewrite fetchAttempts_cons. cbv zeta.
  destruct (Hbad (sent t)) as (res & err & Hs & Hst & Hr). rewrite Hs, Hr.
  destruct (fetchAttempts_exhausted
              (fun st _ => st = StatusOK)
              (accessToken d) (page d) Hretry) with
    (attempts := [2; 3]) (lastStatus := StatusCode res)
    (lastRL := rateLimitOf res)
    (t := (t ++ [EvDo (pageReq (accessToken d) (page d)) (Ok res)]) ++
          [EvLog "read body (attempt %d/%d): %v"
             [AInt 1; AInt maxRetries; AErr err];
           EvSleep (backoff 1)])
    as (st & rl & l & Heq & -> & Hsent & Hslept).
  { intros hist res' H. destruct (Hbad hist) as (res'' & e & He & Hst'' & _).
    congruence. }
  { exact Hst. }
  exists rl,
    ([EvDo (pageReq (accessToken d) (page d)) (Ok res)] ++
     [EvLog "read body (attempt %d/%d): %v" [AInt 1; AInt maxRetries; AErr err];
      EvSleep (backoff 1)] ++ l),
    (mkDriver (accessToken d) (refreshToken d) (page d) (all d ++ [])).
  assert (Hfetch :
            fetchActivitiesPage (accessToken d) (page d) t =
            (([], StatusOK, rl),
             t ++ [EvDo (pageReq (accessToken d) (page d)) (Ok res)] ++
               [EvLog "read body (attempt %d/%d): %v"
                  [AInt 1; AInt maxRetries; AErr err];
                EvSleep (backoff 1)] ++ l)).
  { unfold fetchActivitiesPage. rewrite attemptsFrom1_eq.
    rewrite fetchAttempts_cons. cbv zeta. rewrite Hs, Hr.
    rewrite Heq, <- !app_assoc. reflexivity. }
  split; [rewrite Heq, <- !app_assoc; reflexivity |].
  split; [rewrite !sent_app, Hsent; reflexivity |].
  split; [| split; [cbn; apply app_nil_r | reflexivity]].
  intros fuel. rewrite fetchAll_S.
  rewrite (pageStep_unfold cfg d _ _ _ _ _ Hfetch). cbn. reflexivity.
Qed.

End Retries.

(* ================================================================= *)
(** ** Page loop: what it keeps and what it sends *)

Section LoopInvariants.

Context {E : Env}.

Lemma continues_refl (t : Trace) : continues t t.
Proof. exists []. symmetry. apply app_nil_r. Qed.

Lemma continues_trans (t1 t2 t3 : Trace) :
  continues t1 t2 -> continues t2 t3 -> continues t1 t3.
Proof.
  intros (l1 & ->) (l2 & ->). exists (l1 ++ l2). symmetry. apply app_assoc.
Qed.

Lemma continues_app (t l : Trace) : continues t (t ++ l).
Proof. exists l. reflexivity. Qed.

Lemma fetch_continues (tok : string) (p : Z) (t t1 : Trace)
    (acts : list activity) (st : Z) (rl : rateLimitUsage) :
  fetchActivitiesPage tok p t = ((acts, st, rl), t1) -> continues t t1.
Proof.
  intros Hf. destruct (fetch_delta tok p t) as (l & k & Hl & _).
  rewrite Hf in Hl. cbn [snd] in Hl. exists l. exact Hl.
Qed.

Lemma refresh_continues (cfg : envVars) (t t2 : Trace)
    (r : result (string * string)) :
  refreshAccessToken cfg t = (r, t2) -> continues t t2.
Proof.
  intros Hr. destruct (refresh_delta cfg t) as (l & Hl & _).
  rewrite Hr in Hl. cbn [snd] in Hl. exists l. exact Hl.
Qed.

(** The chain of accepted pages may be read from any earlier trace. *)
Lemma acceptedFrom_earlier (p q : Z) (t0 t t' : Trace)
    (pages : list (list activity)) :
  continues t0 t -> acceptedFrom p t pages q t' -> acceptedFrom p t0 pages q t'.
Proof.
  intros H0 H.
  destruct H as [p t t1 t2 t' tok acts rl Ha Hf Hlen Hb
                | p q t t1 t2 t' tok acts rl rest Ha Hf Hlen Hrest].
  - eapply accepted_last;
      [eapply continues_trans; [exact H0 | exact Ha]
      | exact Hf | exact Hlen | exact Hb].
  - eapply accepted_next;
      [eapply continues_trans; [exact H0 | exact Ha]
      | exact Hf | exact Hlen | exact Hrest].
Qed.

(** The shape of a chain: full pages, then one short page. *)
Lemma acceptedFrom_shape (p q : Z) (t t' : Trace) (pages : list (list activity)) :
  acceptedFrom p t pages q t' ->
  exists full last,
    pages = full ++ [last] /\
    Forall (fun pg => perPage <= lenSlice pg) full /\
    lenSlice last < perPage.
Proof.
  induction 1 as [p t t0 t1 t' tok acts rl H0 Hf Hlen H1
                 | p q t t0 t1 t' tok acts rl rest H0 Hf Hlen Hrest IH].
  - exists [], acts. repeat split; [constructor | exact Hlen].
  - destruct IH as (full & last & -> & Hfull & Hlast).
    exists (acts :: full), last. repeat split; [constructor |]; assumption.
Qed.

(** One iteration either repeats the page with nothing changed (429),
    appends the page a fetch returned with status 200 (a page of at least
    [perPage] items, and goes on; or a shorter page, and ends the loop),
    or is fatal. *)
Lemma pageStep_cases (cfg : envVars) (d : driver) (t t' : Trace) (s : stepResult) :
  pageStep cfg d t = (s, t') ->
  continues t t' /\
  match s with
  | Continue d1 => d1 = d \/ tookPage d d1 t t' false
  | Break d1 => tookPage d d1 t t' true
  | Fatal => True
  end.
Proof.
  intros H.
  assert (Hafter : forall d0 tok t0 acts rl t1 l,
             page d0 = page d -> all d0 = all d ->
             continues t t0 ->
             fetchActivitiesPage tok (page d) t0 = ((acts, StatusOK, rl), t1) ->
             match afterPage d0 acts with
             | Continue d1 => d1 = d \/ tookPage d d1 t (t1 ++ l) false
             | Break d1 => tookPage d d1 t (t1 ++ l) true
             | Fatal => True
             end).
  { intros d0 tok t0 acts rl t1 l Hpage Hall H0 Hf. unfold afterPage.
    destruct (lenSlice acts <? perPage) eqn:Hlt.
    - apply Z.ltb_lt in Hlt. exists tok, t0, acts, rl, t1. cbn [page all].
      rewrite Hpage, Hall.
      repeat split; [exact H0 | exact Hf | apply continues_app | exact Hlt].
    - apply Z.ltb_ge in Hlt. right. exists tok, t0, acts, rl, t1. cbn [page all].
      rewrite Hpage, Hall.
      repeat split; [exact H0 | exact Hf | apply continues_app | exact Hlt]. }
  destruct (fetchActivitiesPage (accessToken d) (page d) t)
    as [[[acts st] rl] t1] eqn:Hf.
  pose proof (fetch_continues _ _ _ _ _ _ _ Hf) as Ht1.
  rewrite (pageStep_unfold cfg d _ _ _ _ _ Hf) in H. cbv zeta in H.
  destruct (st =? StatusUnauthorized).
  - destruct (refreshAccessToken cfg _) as [[[tok rtok] | rerr] t2] eqn:Hr.
    + pose proof (refresh_continues _ _ _ _ Hr) as Ht2.
      assert (Htt2 : continues t t2).
      { eapply continues_trans; [| exact Ht2].
        eapply continues_trans; [exact Ht1 |].
        rewrite <- app_assoc. apply continues_app. }
      destruct (fetchActivitiesPage tok (page d) t2)
        as [[[acts' st'] rl'] t3] eqn:Hf2.
      pose proof (fetch_continues _ _ _ _ _ _ _ Hf2) as Ht3.
      destruct (st' =? StatusOK) eqn:E200; inversion H; subst.
      * apply Z.eqb_eq in E200. subst st'. split.
        { eapply continues_trans; [exact Htt2 |].
          eapply continues_trans; [exact Ht3 |].
          rewrite <- app_assoc. apply continues_app. }
        rewrite <- app_assoc.
        eapply Hafter; [reflexivity | reflexivity | exact Htt2 | exact Hf2].
      * split; [| exact I].
        eapply continues_trans; [exact Htt2 |].
        eapply continues_trans; [exact Ht3 |].
        rewrite <- app_assoc. apply continues_app.
    + pose proof (refresh_continues _ _ _ _ Hr) as Ht2.
      inversion H; subst. split; [| exact I].
      eapply continues_trans; [exact Ht1 |].
      eapply continues_trans; [| apply continues_app].
      eapply continues_trans; [| exact Ht2].
      rewrite <- app_assoc. apply continues_app.
  - destruct (st =? StatusTooManyRequests).
    + inversion H; subst. split; [| left; reflexivity].
      eapply continues_trans; [exact Ht1 |].
      rewrite <- app_assoc. apply continues_app.
    + destruct (st =? StatusOK) eqn:E200; inversion H; subst.
      * apply Z.eqb_eq in E200. subst st. split.
        { eapply continues_trans; [exact Ht1 |].
          rewrite <- app_assoc. apply continues_app. }
        rewrite <- app_assoc.
        eapply Hafter; [reflexivity | reflexivity | apply continues_refl | exact Hf].
      * split; [| exact I].
        eapply continues_trans; [exact Ht1 |].
        rewrite <- app_assoc. apply continues_app.
Qed.

(** X14. Whenever the loop ends normally, what it accumulated is what it
    started with followed by the pages it accepted, in order, and nothing
    else: the accepted pages are the activities that calls of
    [fetchActivitiesPage] returned with status 200, made one after the
    other within this run for the consecutive indices from the current
    one up to the index the loop ends on, any number of them with at
    least [perPage] items and then one shorter page. *)
Theorem loop_done_structure (cfg : envVars) (fuel : nat) :
  forall (d d' : driver) (t t' : Trace),
    fetchAll fuel cfg d t = (LoopDone d', t') ->
    exists pages full last,
      acceptedFrom (page d) t pages (page d') t' /\
      all d' = all d ++ List.concat pages /\
      pages = full ++ [last] /\
      Forall (fun pg => perPage <= lenSlice pg) full /\
      lenSlice last < perPage.
Proof.
  assert (Hchain : forall (fuel0 : nat) (d d' : driver) (t t' : Trace),
             fetchAll fuel0 cfg d t = (LoopDone d', t') ->
             exists pages,
               acceptedFrom (page d) t pages (page d') t' /\
               all d' = all d ++ List.concat pages).
  { induction fuel0 as [| fuel0 IH]; intros d d' t t' H.
    - cbn in H. discriminate.
    - rewrite fetchAll_S in H.
      destruct (pageStep cfg d t) as [s t1] eqn:Hstep.
      destruct (pageStep_cases cfg d t t1 s Hstep) as (Hcont & Hcases).
      destruct s as [d1 | d1 |]; [| | discriminate].
      + destruct (IH d1 d' t1 t' H) as (pages & Hacc & Hall).
        destruct Hcases
          as [-> | (tok & t0 & acts & rl & t2 & H0 & Hf & H2 & (Hlen & Hpage) & Hd1)].
        * exists pages. split; [| exact Hall].
          eapply acceptedFrom_earlier; eassumption.
        * exists (acts :: pages). split.
          -- eapply accepted_next; [exact H0 | exact Hf | exact Hlen |].
             rewrite <- Hpage. eapply acceptedFrom_earlier; eassumption.
          -- rewrite Hall, Hd1. cbn [List.concat]. symmetry. apply app_assoc.
      + inversion H; subst.
        destruct Hcases
          as (tok & t0 & acts & rl & t2 & H0 & Hf & H2 & (Hlen & Hpage) & Hd1).
        exists [acts]. split.
        * rewrite Hpage.
          eapply accepted_last; [exact H0 | exact Hf | exact Hlen | exact H2].
        * rewrite Hd1. cbn [List.concat]. rewrite app_nil_r. reflexivity. }
  intros d d' t t' H.
  destruct (Hchain fuel d d' t t' H) as (pages & Hacc & Hall).
  destruct (acceptedFrom_shape _ _ _ _ _ Hacc) as (full & last & Hp & Hfull & Hlast).
  exists pages, full, last. repeat split; assumption.
Qed.

Lemma loopRequest_repeat (cfg : envVars) (tok : string) (p : Z) (k : nat) :
  Forall (loopRequest cfg) (repeat (pageReq tok p) k).
Proof.
  induction k as [| k IH]; cbn; constructor; [| exact IH].
  right. exists tok, p. reflexivity.
Qed.

Lemma loopRequest_refresh (cfg : envVars) :
  Forall (loopRequest cfg) (refreshRequests cfg).
Proof.
  unfold refreshRequests. destruct (credentialsMissing cfg); constructor;
    [left; reflexivity | constructor].
Qed.

Lemma pageStep_requests (cfg : envVars) (d : driver) (t : Trace) :
  exists l,
    snd (pageStep cfg d t) = t ++ l /\ Forall (loopRequest cfg) (sent l).
Proof.
  destruct (fetchActivitiesPage (accessToken d) (page d) t)
    as [[[acts st] rl] t1] eqn:Hf.
  destruct (fetch_delta (accessToken d) (page d) t)
    as (l1 & k1 & Hl1 & _ & Hs1 & _).
  rewrite Hf in Hl1. cbn [snd] in Hl1. subst t1.
  rewrite (pageStep_unfold cfg d _ _ _ _ _ Hf). cbv zeta.
  assert (H1 : Forall (loopRequest cfg) (sent l1))
    by (rewrite Hs1; apply loopRequest_repeat).
  destruct (st =? StatusUnauthorized).
  - destruct (refresh_delta cfg
                (((t ++ l1) ++ [pageLog (page d) st rl]) ++
                 [unauthorizedLog (page d)])) as (l2 & Hl2 & Hs2 & _).
    destruct (refreshAccessToken cfg _) as [[[tok rtok] | rerr] t2];
      cbn [snd] in Hl2; subst t2.
    + destruct (fetch_delta tok (page d)
                  ((((t ++ l1) ++ [pageLog (page d) st rl]) ++
                    [unauthorizedLog (page d)]) ++ l2))
        as (l3 & k3 & Hl3 & _ & Hs3 & _).
      destruct (fetchActivitiesPage tok (page d) _) as [[[acts' st'] rl'] t3];
        cbn [snd] in Hl3; subst t3.
      assert (H3 : Forall (loopRequest cfg)
                     (sent (l1 ++ [pageLog (page d) st rl] ++
                            [unauthorizedLog (page d)] ++ l2 ++ l3))).
      { rewrite !sent_app, Hs2, Hs3. cbn [sent pageLog unauthorizedLog app].
        apply Forall_app. split; [exact H1 |].
        apply Forall_app. split;
          [apply loopRequest_refresh | apply loopRequest_repeat]. }
      destruct (st' =? StatusOK); cbn [snd]; eexists;
        (split; [rewrite <- !app_assoc; reflexivity |]);
        rewrite !app_assoc, sent_app, sent_app; cbn [sent retryLog retrievedLog];
        rewrite !app_nil_r, <- !app_assoc; exact H3.
    + cbn [snd]. eexists. split; [rewrite <- !app_assoc; reflexivity |].
      rewrite !sent_app, Hs2. cbn [sent pageLog unauthorizedLog app].
      rewrite app_nil_r. apply Forall_app. split;
        [exact H1 | apply loopRequest_refresh].
  - destruct (st =? StatusTooManyRequests);
      [| destruct (st =? StatusOK)]; cbn [snd]; eexists;
      (split; [rewrite <- !app_assoc; reflexivity |]);
      rewrite !sent_app; cbn [sent pageLog retrievedLog app];
      rewrite ?app_nil_r; exact H1.
Qed.

(** X15. Whatever the server does and however long the loop runs, the
    only requests it sends are page requests and the refresh grant built
    from the configuration: a refresh token handed out by an earlier grant
    is never sent. *)
Theorem loop_sends_only_page_and_grant_requests (cfg : envVars) (fuel : nat) :
  forall (d : driver) (t : Trace),
  exists l,
    snd (fetchAll fuel cfg d t) = t ++ l /\
    Forall (loopRequest cfg) (sent l) /\
    Forall (fun r => isRefreshRequest r = true ->
                     refreshTokenSent r = StravaRefreshToken cfg) (sent l).
Proof.
  assert (Hgrant : forall reqs,
             Forall (loopRequest cfg) reqs ->
             Forall (fun r => isRefreshRequest r = true ->
                              refreshTokenSent r = StravaRefreshToken cfg) reqs).
  { intros reqs H. induction H as [| r reqs Hr _ IH]; constructor; [| exact IH].
    destruct Hr as [-> | (tok & p & ->)]; intros Hq; [reflexivity |].
    discriminate Hq. }
  induction fuel as [| fuel IH]; intros d t.
  - exists []. cbn. rewrite app_nil_r. repeat split; constructor.
  - rewrite fetchAll_S.
    destruct (pageStep_requests cfg d t) as (l1 & Hl1 & H1).
    destruct (pageStep cfg d t) as [s t1]. cbn [snd] in Hl1. subst t1.
    destruct s as [d1 | d1 |].
    + destruct (IH d1 (t ++ l1)) as (l2 & Hl2 & H2 & _).
      exists (l1 ++ l2). rewrite Hl2, app_assoc.
      assert (H12 : Forall (loopRequest cfg) (sent (l1 ++ l2)))
        by (rewrite sent_app; apply Forall_app; split; assumption).
      split; [reflexivity |]. split; [exact H12 | apply Hgrant; exact H12].
    + exists l1. split; [reflexivity |]. split; [exact H1 | apply Hgrant; exact H1].
    + exists l1. split; [reflexivity |]. split; [exact H1 | apply Hgrant; exact H1].
Qed.

End LoopInvariants.

(* ================================================================= *)
(** ** Token manager and [main]: requests and exits *)

Section TokenRequests.

Context {E : Env}.

(** What one call of [refreshAccessToken] sends, and that it does not
    sleep. *)
Lemma refresh_trace (cfg : envVars) (t : Trace) :
  exists l,
    snd (refreshAccessToken cfg t) = t ++ l /\
    sent l = (if credentialsMissing cfg then [] else [refreshRequest cfg]) /\
    slept l = [].
Proof.
  destruct (credentialsMissing cfg) eqn:Hc.
  - rewrite refresh_missing by exact Hc. exists []. cbn [snd].
    rewrite app_nil_r. repeat split.
  - rewrite refresh_unfold by exact Hc. cbv zeta.
    destruct (srv (sent t) (refreshRequest cfg)) as [res | err].
    + destruct (StatusCode res =? StatusOK).
      * destruct (json_Unmarshal_auth (Body res)) as [auth | err]; cbn [snd].
        -- rewrite <- app_assoc. eexists. split; [reflexivity |].
           split; reflexivity.
        -- eexists. split; [reflexivity |]. split; reflexivity.
      * eexists. split; [reflexivity |]. split; reflexivity.
    + eexists. split; [reflexivity |]. split; reflexivity.
Qed.

Lemma ensure_blank (cfg : envVars) (t : Trace) :
  blank (StravaAccessToken cfg) = true ->
  ensureAccessToken cfg t =
  refreshAccessToken cfg
    (t ++ [EvLog "No STRAVA_ACCESS_TOKEN provided; refreshing with STRAVA_REFRESH_TOKEN…" []]).
Proof.
  intros Hb. unfold ensureAccessToken. rewrite Hb. run_step. reflexivity.
Qed.

Lemma probeToken_trace (tok : string) (t : Trace) :
  snd (probeToken tok t) =
  t ++ [EvDo (athleteRequest tok) (srv (sent t) (athleteRequest tok))].
Proof.
  unfold probeToken. cbn [NewRequestWithContext]. fold (athleteRequest tok).
  run_step.
  destruct (srv (sent t) (athleteRequest tok)) as [res | err]; [| reflexivity].
  destruct (StatusCode res =? StatusOK); reflexivity.
Qed.

(** X16. [refreshAccessToken] is one shot: it sends the grant once when
    the three credentials are present and nothing otherwise, it never
    sleeps, and a transport error is returned at once, wrapped, without a
    second attempt. *)
Theorem refresh_one_shot (cfg : envVars) (t : Trace) :
  (exists l,
      snd (refreshAccessToken cfg t) = t ++ l /\
      sent l = (if credentialsMissing cfg then [] else [refreshRequest cfg]) /\
      slept l = []) /\
  (forall err,
      credentialsMissing cfg = false ->
      srv (sent t) (refreshRequest cfg) = Err err ->
      refreshAccessToken cfg t =
      (Err (fmt_Errorf "refresh req: %w" [AErr err]),
       t ++ [EvDo (refreshRequest cfg) (Err err)])).
Proof.
  split.
  - apply refresh_trace.
  - intros err Hc Hs. rewrite refresh_unfold by exact Hc. cbv zeta.
    rewrite Hs. reflexivity.
Qed.

(** X17. The grant is a POST to the token URL whose form carries the
    client id, the client secret and the refresh token of the
    configuration with [grant_type=refresh_token]; it is sent as a form,
    asks for JSON, and carries no bearer token. *)
Theorem refresh_request_fields (cfg : envVars) (t : Trace) :
  credentialsMissing cfg = false ->
  exists r f,
    sent (snd (refreshAccessToken cfg t)) = sent t ++ [r] /\
    Method r = "POST" /\ URL r = authURL /\ RawQuery r = [] /\
    Form r = Some f /\
    Values_Get "client_id" f = StravaClientId cfg /\
    Values_Get "client_secret" f = StravaClientSecret cfg /\
    Values_Get "grant_type" f = "refresh_token" /\
    Values_Get "refresh_token" f = StravaRefreshToken cfg /\
    List.length f = 4%nat /\
    Values_Get "Content-Type" (Header r) = "application/x-www-form-urlencoded" /\
    Values_Get "Accept" (Header r) = "application/json" /\
    Values_Get "Authorization" (Header r) = "".
Proof.
  intros Hc. exists (refreshRequest cfg), (refreshForm cfg).
  rewrite refresh_sent. unfold refreshRequests. rewrite Hc.
  repeat split.
Qed.

(** X18. Every request of [fetchActivitiesPage] is a GET of the
    activities URL with [per_page=200], the page index in decimal, and the
    access token as bearer token. *)
Theorem page_request_fields (tok : string) (p : Z) (t : Trace) :
  exists l,
    snd (fetchActivitiesPage tok p t) = t ++ l /\
    Forall (fun r =>
              Method r = "GET" /\ URL r = activitiesURL /\ Form r = None /\
              Values_Get "per_page" (RawQuery r) = "200" /\
              Values_Get "page" (RawQuery r) = Itoa p /\
              Values_Get "Authorization" (Header r) = ("Bearer " ++ tok)%string /\
              Values_Get "Accept" (Header r) = "application/json")
           (sent l).
Proof.
  destruct (fetch_delta tok p t) as (l & k & Hl & _ & Hs & _).
  exists l. split; [exact Hl |]. rewrite Hs.
  clear. induction k as [| k IH]; cbn [repeat]; constructor; [| exact IH].
  repeat split.
Qed.

(** X19. [ensureAccessToken] sends at most two requests and never sleeps:
    the probe, unless the cached access token is blank, and then at most
    one refresh grant. With a blank cached token it is [refreshAccessToken]
    after one log line. *)
Theorem ensure_requests (cfg : envVars) (t : Trace) :
  (exists l g,
      snd (ensureAccessToken cfg t) = t ++ l /\
      sent l =
      (if blank (StravaAccessToken cfg) then [] else [probeRequest cfg]) ++ g /\
      (g = [] \/ g = [refreshRequest cfg]) /\
      slept l = []) /\
  (blank (StravaAccessToken cfg) = true ->
   ensureAccessToken cfg t =
   refreshAccessToken cfg
     (t ++ [EvLog "No STRAVA_ACCESS_TOKEN provided; refreshing with STRAVA_REFRESH_TOKEN…" []])).
Proof.
  assert (Hrefresh : forall t0,
             exists l,
               snd (refreshAccessToken cfg t0) = t0 ++ l /\
               (sent l = [] \/ sent l = [refreshRequest cfg]) /\
               slept l = []).
  { intros t0. destruct (refresh_trace cfg t0) as (l & Hl & Hs & Hz).
    exists l. split; [exact Hl |]. split; [| exact Hz].
    rewrite Hs. destruct (credentialsMissing cfg); auto. }
  pose proof (ensure_blank cfg t) as Hblank.
  split; [| exact Hblank].
  destruct (blank (StravaAccessToken cfg)) eqn:Hb.
  - rewrite (Hblank eq_refl).
    destruct (Hrefresh (t ++ [EvLog "No STRAVA_ACCESS_TOKEN provided; refreshing with STRAVA_REFRESH_TOKEN…" []]))
      as (l & Hl & Hs & Hz).
    eexists. exists (sent l). rewrite Hl, <- app_assoc.
    split; [reflexivity |]. rewrite sent_app, slept_app, Hz.
    repeat split. exact Hs.
  - rewrite ensure_unfold by exact Hb. cbv zeta.
    destruct (srv (sent t) (probeRequest cfg)) as [res | err].
    + destruct (StatusCode res =? StatusUnauthorized).
      * destruct (Hrefresh
                    ((t ++ [EvDo (probeRequest cfg) (Ok res)]) ++
                     [EvLog "Configured access token rejected; refreshing…" []]))
          as (l & Hl & Hs & Hz).
        eexists. exists (sent l). rewrite Hl, <- !app_assoc.
        split; [reflexivity |]. rewrite !sent_app, !slept_app, Hz.
        repeat split. exact Hs.
      * exists [EvDo (probeRequest cfg) (Ok res)], []. cbn [snd].
        repeat split. left. reflexivity.
    + destruct (Hrefresh
                  ((t ++ [EvDo (probeRequest cfg) (Err err)]) ++
                   [EvLog "token probe failed (will refresh): %v" [AErr err]]))
        as (l & Hl & Hs & Hz).
      eexists. exists (sent l). rewrite Hl, <- !app_assoc.
      split; [reflexivity |]. rewrite !sent_app, !slept_app, Hz.
      repeat split. exact Hs.
Qed.

(** X20. [probeToken] sends one request, for the athlete, with the access
    token as bearer token. It reports no error exactly when the answer has
    status 200; on any other status the error carries the status and at
    most 203 bytes of the body. *)
Theorem probeToken_outcome (tok : string) (t : Trace) :
  snd (probeToken tok t) =
  t ++ [EvDo (athleteRequest tok) (srv (sent t) (athleteRequest tok))] /\
  Values_Get "Authorization" (Header (athleteRequest tok)) =
  ("Bearer " ++ tok)%string /\
  (fst (probeToken tok t) = None <->
   exists res, srv (sent t) (athleteRequest tok) = Ok res /\
               StatusCode res = StatusOK) /\
  (forall res,
      srv (sent t) (athleteRequest tok) = Ok res ->
      StatusCode res <> StatusOK ->
      exists text,
        fst (probeToken tok t) =
        Some (fmt_Errorf "probe /athlete status=%d body=%s"
                [AInt (StatusCode res); AStr text]) /\
        text = truncate (Body res) 200 /\ len text <= 203).
Proof.
  unfold probeToken. cbn [NewRequestWithContext]. fold (athleteRequest tok).
  run_step.
  destruct (srv (sent t) (athleteRequest tok)) as [res | err].
  - destruct (StatusCode res =? StatusOK) eqn:Est; cbn [negb fst snd].
    + apply Z.eqb_eq in Est. repeat split.
      * intros _. exists res. split; [reflexivity | exact Est].
      * intros res' H Hne. inversion H; subst. contradiction.
    + apply Z.eqb_neq in Est. repeat split.
      * discriminate.
      * intros (res' & H & Hst). inversion H; subst. contradiction.
      * intros res' H _. inversion H; subst.
        eexists. split; [reflexivity |]. split; [reflexivity |].
        apply (truncate_cases (Body res') 200). lia.
  - cbn [fst snd]. repeat split.
    + discriminate.
    + intros (res & H & _). discriminate.
    + intros res H. discriminate.
Qed.

End TokenRequests.

(* ================================================================= *)
(** ** [main] end to end *)

Section MainRuns.

Context {E : Env}.

Lemma main_unfold (fuel : nat) (cfg : envVars) (t : Trace) :
  main fuel (Loaded cfg) t =
  let (r, t0) := ensureAccessToken cfg t in
  match r with
  | Err err => (Exit 1, t0 ++ [EvLog "ensure access token: %v" [AErr err]])
  | Ok (tok, rtok) =>
      let (perr, t1) := probeToken tok t0 in
      let t2 :=
        (match perr with
         | Some err => t1 ++ [EvLog "token probe warning: %v" [AErr err]]
         | None => t1
         end) ++ [EvLog "Authenticated. Fetching activities (pages of 200)…" []] in
      let (l, t3) := fetchAll fuel cfg (mkDriver tok rtok 1 []) t2 in
      match l with
      | LoopOutOfFuel => (OutOfFuel, t3)
      | LoopFatal => (Exit 1, t3)
      | LoopDone d => report cfg d t3
      end
  end.
Proof.
  cbn [main]. unfold bind at 1.
  destruct (ensureAccessToken cfg t) as [[[tok rtok] | err] t0]; [| reflexivity].
  unfold bind at 1. destruct (probeToken tok t0) as [perr t1].
  unfold bind at 1.
  destruct perr as [err |]; run_step;
    destruct (fetchAll fuel cfg _ _) as [[d | |] t3]; reflexivity.
Qed.

(** X21. With a blank cached access token and a blank client id, client
    secret or refresh token, [main] exits with code 1 after two log lines
    and without sending any request; so it does when the configuration
    cannot be read. *)
Theorem main_without_credentials (fuel : nat) (cfg : envVars) (t : Trace) :
  (blank (StravaAccessToken cfg) = true ->
   credentialsMissing cfg = true ->
   main fuel (Loaded cfg) t =
   (Exit 1,
    t ++ [EvLog "No STRAVA_ACCESS_TOKEN provided; refreshing with STRAVA_REFRESH_TOKEN…" [];
          EvLog "ensure access token: %v" [AErr missingCredentials]]) /\
   sent (snd (main fuel (Loaded cfg) t)) = sent t) /\
  (forall err,
      fst (main fuel (ReadInConfigError err) t) = Exit 1 /\
      sent (snd (main fuel (ReadInConfigError err) t)) = sent t /\
      fst (main fuel (UnmarshalConfigError err) t) = Exit 1 /\
      sent (snd (main fuel (UnmarshalConfigError err) t)) = sent t).
Proof.
  split.
  - intros Hb Hc. rewrite main_unfold.
    rewrite (ensure_blank cfg t Hb), refresh_missing by exact Hc.
    rewrite <- app_assoc. cbn [app snd]. split; [reflexivity |].
    rewrite sent_app. cbn. apply app_nil_r.
  - intros err. cbn [main]. run_step. cbn [fst snd].
    rewrite !sent_app. cbn. rewrite app_nil_r. repeat split.
Qed.

(** X22. A whole run with a cached token: when the probe of the cached
    token is answered with a status other than 401 and the server then
    hands out the pages [full ++ [last]] with clean 200 responses, [main]
    exits with code 0. It sent the probe, the athlete request and one
    request per page, in that order, with the cached token; it never
    refreshed; and its last three lines are the summary over the
    concatenation of the pages, with no rotation notice. *)
Theorem main_cached_token_run (cfg : envVars) (t : Trace) (res0 : Response)
    (full : list (list activity)) (last : list activity) (extra : nat) :
  blank (StravaAccessToken cfg) = false ->
  srv (sent t) (probeRequest cfg) = Ok res0 ->
  StatusCode res0 <> StatusUnauthorized ->
  lenSlice full < 2 ^ 63 - 1 ->
  Forall (fun pg => perPage <= lenSlice pg) full ->
  lenSlice last < perPage ->
  servesPages
    (sent t ++ [probeRequest cfg; athleteRequest (StravaAccessToken cfg)])
    (StravaAccessToken cfg) 1 (full ++ [last]) ->
  exists t3,
    main (S (List.length full) + extra) (Loaded cfg) t =
    (Exit 0,
     t3 ++ summaryLines
             (mkDriver (StravaAccessToken cfg) (StravaRefreshToken cfg)
                (1 + lenSlice full) (List.concat (full ++ [last])))) /\
    sent t3 =
    sent t ++ [probeRequest cfg; athleteRequest (StravaAccessToken cfg)] ++
    map (pageReq (StravaAccessToken cfg)) (pagesFrom 1 (S (List.length full))) /\
    refreshTokensSent t3 = refreshTokensSent t.
Proof.
  intros Hb Hs Hst Hlen Hfull Hlast Hsv.
  rewrite main_unfold, ensure_unfold by exact Hb. cbv zeta. rewrite Hs.
  apply Z.eqb_neq in Hst. rewrite Hst.
  pose proof (probeToken_trace (StravaAccessToken cfg)
                (t ++ [EvDo (probeRequest cfg) (Ok res0)])) as Hp.
  destruct (probeToken (StravaAccessToken cfg)
              (t ++ [EvDo (probeRequest cfg) (Ok res0)])) as [perr t1].
  cbn [snd] in Hp. subst t1.
  set (t2 := (match perr with
              | Some err => _ ++ [EvLog "token probe warning: %v" [AErr err]]
              | None => _
              end) ++ [EvLog "Authenticated. Fetching activities (pages of 200)…" []]).
  assert (Hsent2 : sent t2 =
                   sent t ++ [probeRequest cfg;
                              athleteRequest (StravaAccessToken cfg)]).
  { subst t2. destruct perr; rewrite !sent_app; cbn [sent];
      rewrite ?app_nil_r, <- app_assoc; reflexivity. }
  destruct (fetchAll_serves cfg (StravaAccessToken cfg) (StravaRefreshToken cfg)
              last extra Hlast full 1 [] t2)
    as (t3 & Hrun & Hsent3 & _); try lia; try assumption.
  { rewrite Hsent2. exact Hsv. }
  rewrite Hrun, report_eq, noticeRotation_eq. cbn [refreshToken].
  rewrite String.eqb_refl, orb_true_r. cbn [snd app].
  exists t3. split; [reflexivity |]. split.
  - rewrite Hsent3, Hsent2, <- app_assoc. reflexivity.
  - unfold refreshTokensSent. rewrite Hsent3, Hsent2, !filter_app, !map_app.
    assert (Hpages : forall n p,
               filter isRefreshRequest
                 (map (pageReq (StravaAccessToken cfg)) (pagesFrom p n)) = []).
    { induction n as [| n IH]; intros p; [reflexivity |].
      cbn [pagesFrom map filter]. apply IH. }
    rewrite Hpages. cbn. rewrite !app_nil_r. reflexivity.
Qed.

End MainRuns.

(* ================================================================= *)
(** ** Aggregation over appended slices; blank strings *)

Section MoreAggregation.

Context {E : Env}.

(** X23. Aggregating a slice made of two parts is aggregating the first
    part and carrying the count and the sum on into the second: the totals
    of a run are those of its pages taken in order. *)
Theorem aggregateFrom_app (l1 l2 : list activity) (n : Z) (m : float) :
  aggregateFrom (l1 ++ l2) n m =
  aggregateFrom l2 (fst (aggregateFrom l1 n m)) (snd (aggregateFrom l1 n m)).
Proof.
  revert n m. induction l1 as [| a l1 IH]; intros n m; [reflexivity |].
  cbn [app aggregateFrom]. destruct (isDeskTreadmill a); apply IH.
Qed.

(** X24. On a string of ASCII bytes the test [strings.TrimSpace(s) == ""]
    of the credential guards holds exactly when every byte is a tab, a
    line feed, a vertical tab, a form feed, a carriage return or a
    space. *)
Theorem blank_ascii (s : string) :
  isASCII (bytes_of_string s) ->
  (blank s = true <-> spaces (bytes_of_string s)).
Proof.
  intros Hs. split; [apply spaces_of_blank; exact Hs | apply blank_of_spaces].
Qed.

End MoreAggregation.

(* ================================================================= *)
(** ** The earlier [main] *)

Lemma byte_of_lowerAscii (c : ascii) :
  byte_of (Legacy.lowerAscii c) = lowerByte (byte_of c).
Proof.
  unfold Legacy.lowerAscii, lowerByte. cbv zeta.
  destruct ((65 <=? byte_of c) && (byte_of c <=? 90)) eqn:Hup; [| reflexivity].
  apply andb_true_iff in Hup. destruct Hup as (H1 & H2).
  apply Z.leb_le in H1, H2. unfold byte_of at 1.
  rewrite N_ascii_embedding by lia. lia.
Qed.

Lemma byte_of_inj (c1 c2 : ascii) : byte_of c1 = byte_of c2 -> c1 = c2.
Proof.
  unfold byte_of. intros H. apply N2Z.inj in H.
  rewrite <- (ascii_N_embedding c1), <- (ascii_N_embedding c2), H. reflexivity.
Qed.

Lemma string_of_bytes_inj (l1 l2 : list ascii) :
  string_of_bytes l1 = string_of_bytes l2 -> l1 = l2.
Proof.
  intros H. rewrite <- (bytes_of_string_of_bytes l1), H.
  apply bytes_of_string_of_bytes.
Qed.

Lemma forallb_isASCII (l : list ascii) :
  isASCII l -> forallb (fun c => byte_of c <? RuneSelf) l = true.
Proof.
  intros H. apply forallb_forall. intros c Hc.
  apply Z.ltb_lt. unfold isASCII in H. rewrite Forall_forall in H.
  apply H. exact Hc.
Qed.

Section LegacyProps.

Context {E : Env}.
Variable ToLower_runes : string -> string.
Variable decode : string -> result (list Legacy.activity).

(** One iteration, by the answer of the server. *)
Lemma legacy_pageStep_unfold (tok : string) (p : Z)
    (acc : list Legacy.activity) (t : Trace) :
  Legacy.pageStep decode tok p acc t =
  let r := srv (sent t) (Legacy.pageReq tok p) in
  let t1 := t ++ [EvDo (Legacy.pageReq tok p) r] in
  match r with
  | Err err => (Legacy.Fatal, t1 ++ [EvLog "%v" [AErr err]])
  | Ok res =>
      match ReadErr res with
      | Some readErr => (Legacy.Fatal, t1 ++ [EvLog "%v" [AErr readErr]])
      | None =>
          match decode (Body res) with
          | Err err =>
              (Legacy.Fatal, t1 ++ [EvLog (Body res) []; EvLog "%v" [AErr err]])
          | Ok pg =>
              (if lenSlice pg =? 200
               then Legacy.Continue (add64 p 1) (acc ++ pg)
               else Legacy.Break (acc ++ pg),
               t1 ++ [EvLog (Body res) [];
                      EvLog "Page %d retrieved with %d activities\n"
                        [AInt p; AInt (lenSlice pg)]])
          end
      end
  end.
Proof.
  unfold Legacy.pageStep. cbn [Legacy.NewRequest]. fold (Legacy.pageReq tok p).
  unfold Legacy.Fatal_. run_step.
  destruct (srv (sent t) (Legacy.pageReq tok p)) as [res | err]; [| reflexivity].
  destruct (ReadErr res); [reflexivity |].
  destruct (decode (Body res)) as [pg | err].
  - destruct (lenSlice pg =? 200); rewrite <- !app_assoc; reflexivity.
  - rewrite <- !app_assoc. reflexivity.
Qed.

Lemma legacy_fetchAll_S (fuel : nat) (tok : string) (p : Z)
    (acc : list Legacy.activity) (t : Trace) :
  Legacy.fetchAll decode (S fuel) tok p acc t =
  let (s, t') := Legacy.pageStep decode tok p acc t in
  match s with
  | Legacy.Continue p' acc' => Legacy.fetchAll decode fuel tok p' acc' t'
  | Legacy.Break acc' => (Legacy.LoopDone acc', t')
  | Legacy.Fatal => (Legacy.LoopFatal, t')
  end.
Proof.
  cbn [Legacy.fetchAll]. unfold bind.
  destruct (Legacy.pageStep decode tok p acc t) as [[p' acc' | acc' |] t'];
    reflexivity.
Qed.

Lemma legacy_fatal_step (tok : string) (p : Z)
    (acc : list Legacy.activity) (t : Trace) :
  Legacy.fails decode (srv (sent t) (Legacy.pageReq tok p)) = true ->
  (forall fuel,
      exists l,
        Legacy.fetchAll decode (S fuel) tok p acc t =
        (Legacy.LoopFatal,
         t ++ EvDo (Legacy.pageReq tok p) (srv (sent t) (Legacy.pageReq tok p)) :: l) /\
        sent l = [] /\ slept l = []).
Proof.
  intros Hfail fuel. rewrite legacy_fetchAll_S, legacy_pageStep_unfold. cbv zeta.
  destruct (srv (sent t) (Legacy.pageReq tok p)) as [res | err];
    cbn [Legacy.fails] in Hfail.
  - destruct (ReadErr res).
    + eexists. rewrite <- app_assoc. cbn [app]. repeat split.
    + destruct (decode (Body res)); [discriminate |].
      eexists. rewrite <- app_assoc. cbn [app]. repeat split.
  - eexists. rewrite <- app_assoc. cbn [app]. repeat split.
Qed.

(** X25. The earlier loop aborts on every failure of a page: a transport
    error, a body that cannot be read or a body that does not decode stops
    the loop as fatal after that one request, with no retry and no
    sleep. *)
Theorem legacy_failure_is_fatal (tok : string) (p : Z)
    (acc : list Legacy.activity) (t : Trace) :
  Legacy.fails decode (srv (sent t) (Legacy.pageReq tok p)) = true ->
  (forall fuel,
      exists l,
        Legacy.fetchAll decode (S fuel) tok p acc t =
        (Legacy.LoopFatal,
         t ++ EvDo (Legacy.pageReq tok p) (srv (sent t) (Legacy.pageReq tok p)) :: l) /\
        sent l = [] /\ slept l = []).
Proof. exact (legacy_fatal_step tok p acc t). Qed.

(** X26. When the first page fails in one of these ways the earlier
    [main] exits with code 1 after that one request. *)
Theorem legacy_main_aborts (cfg : envVars) (t : Trace) :
  Legacy.fails decode
    (srv (sent t) (Legacy.pageReq (StravaAccessToken cfg) 1)) = true ->
  forall fuel,
    fst (Legacy.main ToLower_runes decode (S fuel) (Loaded cfg) t) = Exit 1 /\
    sent (snd (Legacy.main ToLower_runes decode (S fuel) (Loaded cfg) t)) =
    sent t ++ [Legacy.pageReq (StravaAccessToken cfg) 1].
Proof.
  intros Hfail fuel.
  destruct (legacy_fatal_step (StravaAccessToken cfg) 1 []
              (t ++ [EvLog "Authenticated - Preparing to get activities by page of 200" []]))
    with (fuel := fuel) as (l & Hrun & Hs & _).
  { rewrite sent_log. exact Hfail. }
  assert (Hmain : Legacy.main ToLower_runes decode (S fuel) (Loaded cfg) t =
                  (Exit 1,
                   snd (Legacy.fetchAll decode (S fuel) (StravaAccessToken cfg) 1 []
                          (t ++ [EvLog "Authenticated - Preparing to get activities by page of 200" []])))).
  { cbn [Legacy.main]. unfold bind at 1. unfold Println at 1, emit at 1.
    unfold bind at 1. rewrite Hrun. reflexivity. }
  rewrite Hmain, Hrun. cbn [fst snd]. split; [reflexivity |].
  rewrite sent_log.
  match goal with
  | |- sent (?a ++ ?x :: l) = _ => change (a ++ x :: l) with (a ++ [x] ++ l)
  end.
  rewrite !sent_app, Hs. cbn [sent]. rewrite !app_nil_r. reflexivity.
Qed.

(** X27. The earlier loop over a server whose bodies decode to [full ++ [last]]:
    pages of exactly 200 items are followed by the next index, any other
    length ends the loop; the status of the responses plays no part. *)
Theorem legacy_pages_until_other_length (tok : string)
    (last : list Legacy.activity) (extra : nat) :
  lenSlice last <> 200 ->
  forall (full : list (list Legacy.activity)) (p : Z)
         (acc : list Legacy.activity) (t : Trace),
    - 2 ^ 63 <= p ->
    p + lenSlice full < 2 ^ 63 ->
    Forall (fun pg => lenSlice pg = 200) full ->
    Legacy.servesPages decode (sent t) tok p (full ++ [last]) ->
    exists t',
      Legacy.fetchAll decode (S (List.length full) + extra) tok p acc t =
      (Legacy.LoopDone (acc ++ List.concat (full ++ [last])), t') /\
      sent t' =
      sent t ++ map (Legacy.pageReq tok) (pagesFrom p (S (List.length full))) /\
      slept t' = slept t.
Proof.
  intros Hlast. induction full as [| pg full IH]; intros p acc t Hlo Hhi Hfull Hsv.
  - cbn [app Legacy.servesPages] in Hsv.
    destruct Hsv as ((res & Hs & Hr & Hj) & _).
    cbn [List.length Nat.add]. rewrite legacy_fetchAll_S, legacy_pageStep_unfold.
    cbv zeta. rewrite Hs, Hr, Hj.
    apply Z.eqb_neq in Hlast. rewrite Hlast.
    eexists. split; [| split].
    + cbn [app List.concat]. rewrite app_nil_r. reflexivity.
    + rewrite !sent_app. cbn. rewrite app_nil_r. reflexivity.
    + rewrite !slept_app. cbn. rewrite !app_nil_r. reflexivity.
  - cbn [app Legacy.servesPages] in Hsv.
    destruct Hsv as ((res & Hs & Hr & Hj) & Hrest).
    inversion Hfull as [| ? ? Hpg Hfull']; subst.
    assert (Hlen : lenSlice (pg :: full) = 1 + lenSlice full).
    { unfold lenSlice. cbn [List.length]. lia. }
    pose proof (lenSlice_nonneg full) as Hnn.
    cbn [List.length Nat.add]. rewrite legacy_fetchAll_S, legacy_pageStep_unfold.
    cbv zeta. rewrite Hs, Hr, Hj.
    assert (Heq : (lenSlice pg =? 200) = true) by (apply Z.eqb_eq; exact Hpg).
    rewrite Heq. rewrite add64_small by lia.
    destruct (IH (p + 1) (acc ++ pg)
                ((t ++ [EvDo (Legacy.pageReq tok p) (Ok res)]) ++
                 [EvLog (Body res) [];
                  EvLog "Page %d retrieved with %d activities\n"
                    [AInt p; AInt (lenSlice pg)]]))
      as (t' & Hrun & Hsent & Hslept).
    + lia.
    + lia.
    + exact Hfull'.
    + rewrite !sent_app. cbn [sent]. rewrite app_nil_r. exact Hrest.
    + exists t'. split; [| split].
      * cbn [Nat.add] in Hrun. rewrite Hrun.
        cbn [app List.concat]. rewrite <- app_assoc. reflexivity.
      * rewrite Hsent, !sent_app. cbn [sent pagesFrom map].
        rewrite app_nil_r, <- app_assoc. reflexivity.
      * rewrite Hslept, !slept_app. cbn. rewrite !app_nil_r. reflexivity.
Qed.

(** X28. The earlier loop sends one request per iteration at most, each a GET
    of the activities URL with [per_page=200] whose only header is the
    bearer token it started with; it never sleeps and never asks for a
    new token. *)
Theorem legacy_requests (fuel : nat) (tok : string) :
  forall (p : Z) (acc : list Legacy.activity) (t : Trace),
  exists l,
    snd (Legacy.fetchAll decode fuel tok p acc t) = t ++ l /\
    Forall (Legacy.bearerGet tok) (sent l) /\
    (List.length (sent l) <= fuel)%nat /\
    slept l = [].
Proof.
  induction fuel as [| fuel IH]; intros p acc t.
  - exists []. cbn. rewrite app_nil_r. repeat split; [constructor | lia].
  - rewrite legacy_fetchAll_S, legacy_pageStep_unfold. cbv zeta.
    assert (Hreq : Legacy.bearerGet tok (Legacy.pageReq tok p))
      by (repeat split).
    assert (Hstop : forall l0,
               sent l0 = [] -> slept l0 = [] ->
               exists l,
                 (t ++ [EvDo (Legacy.pageReq tok p)
                          (srv (sent t) (Legacy.pageReq tok p))]) ++ l0 = t ++ l /\
                 Forall (Legacy.bearerGet tok) (sent l) /\
                 (List.length (sent l) <= S fuel)%nat /\
                 slept l = []).
    { intros l0 H1 H2. eexists. rewrite <- app_assoc.
      split; [reflexivity |]. rewrite sent_app, slept_app, H1, H2. cbn.
      repeat split; [constructor; [exact Hreq | constructor] | lia]. }
    destruct (srv (sent t) (Legacy.pageReq tok p)) as [res | err] eqn:Hsrv;
      [| cbn [snd]; apply Hstop; reflexivity].
    destruct (ReadErr res); [cbn [snd]; apply Hstop; reflexivity |].
    destruct (decode (Body res)) as [pg | err];
      [| cbn [snd]; apply Hstop; reflexivity].
    destruct (lenSlice pg =? 200); [| cbn [snd]; apply Hstop; reflexivity].
    destruct (IH (add64 p 1) (acc ++ pg)
                ((t ++ [EvDo (Legacy.pageReq tok p) (Ok res)]) ++
                 [EvLog (Body res) [];
                  EvLog "Page %d retrieved with %d activities\n"
                    [AInt p; AInt (lenSlice pg)]]))
      as (l & Hl & Hf & Hn & Hz).
    eexists. rewrite Hl, <- !app_assoc. split; [reflexivity |].
    rewrite !sent_app, !slept_app, Hz. cbn [sent slept app List.length].
    repeat split; [constructor; [exact Hreq | exact Hf] | lia].
Qed.

Lemma legacy_ToLower_ascii (s : string) :
  isASCII (bytes_of_string s) ->
  Legacy.ToLower ToLower_runes s =
  string_of_bytes (map Legacy.lowerAscii (bytes_of_string s)).
Proof.
  intros H. unfold Legacy.ToLower. rewrite forallb_isASCII by exact H.
  reflexivity.
Qed.

Lemma map_lowerAscii_sameLetter (tl TL : list ascii) :
  Forall2 (fun tc C => byte_of tc = lowerByte (byte_of C)) tl TL ->
  forall bs, map Legacy.lowerAscii bs = tl <-> Forall2 sameLetter bs TL.
Proof.
  induction 1 as [| tc C tl TL Hc _ IH]; intros [| c bs]; cbn [map].
  - split; [constructor | reflexivity].
  - split; [discriminate | intros H; inversion H].
  - split; [discriminate | intros H; inversion H].
  - split.
    + intros H. inversion H as [[Hh Ht]]. constructor.
      * unfold sameLetter. rewrite <- byte_of_lowerAscii, Hh. exact Hc.
      * apply IH. exact Ht.
    + intros H. inversion H as [| ? ? ? ? Hl Hrest]; subst. f_equal.
      * apply byte_of_inj. rewrite byte_of_lowerAscii, Hc. exact Hl.
      * apply IH. exact Hrest.
Qed.

(** X29. The name test of the earlier [main], on ASCII names: it holds exactly
    when the whole name is the literal up to letter case, with no space
    around it; every name it accepts is accepted by the test of the later
    [main]. *)
Theorem legacy_name_test (a : Legacy.activity) :
  isASCII (bytes_of_string (Legacy.Name a)) ->
  (Legacy.isDeskTreadmill ToLower_runes a = true <->
   Forall2 sameLetter (bytes_of_string (Legacy.Name a))
     (bytes_of_string "Desk Treadmill")) /\
  (Legacy.isDeskTreadmill ToLower_runes a = true ->
   forall b : activity, Name b = Legacy.Name a -> isDeskTreadmill b = true).
Proof.
  intros Hascii.
  assert (Hiff : Legacy.isDeskTreadmill ToLower_runes a = true <->
                 Forall2 sameLetter (bytes_of_string (Legacy.Name a))
                   (bytes_of_string "Desk Treadmill")).
  { unfold Legacy.isDeskTreadmill.
    rewrite legacy_ToLower_ascii by exact Hascii.
    rewrite String.eqb_eq.
    rewrite <- (map_lowerAscii_sameLetter (bytes_of_string "desk treadmill")).
    - split.
      + intros H. apply string_of_bytes_inj.
        rewrite H. symmetry. apply string_of_bytes_of_string.
      + intros ->. apply string_of_bytes_of_string.
    - repeat constructor. }
  split; [exact Hiff |].
  intros Hold b Hname. apply isDeskTreadmill_ascii.
  - rewrite Hname. exact Hascii.
  - exists [], (bytes_of_string (Legacy.Name a)), [].
    rewrite Hname, app_nil_r. cbn [app].
    repeat split; try constructor. apply Hiff. exact Hold.
Qed.

End LegacyProps.

(* ================================================================= *)
(** ** Concrete runs of the further properties *)

Module Run2.

Import Scenario Scenario2.

Lemma truncate_length_witness :
  0 <= 300 /\
  (len longBody <= 300 -> truncate longBody 300 = longBody) /\
  (300 < len longBody ->
   exists head rest,
     longBody = (head ++ rest)%string /\ len head = 300 /\
     map byte_of (bytes_of_string (truncate longBody 300)) =
     map byte_of (bytes_of_string head) ++ [226; 128; 166] /\
     len (truncate longBody 300) = 300 + 3) /\
  len (truncate longBody 300) <= 300 + 3.
Proof.
  assert (H : 0 <= 300) by lia.
  exact (conj H (truncate_length longBody 300 H)).
Defined.

Lemma truncate_idempotent_witness :
  0 <= 300 /\ truncate (truncate longBody 300) 300 = truncate longBody 300.
Proof.
  assert (H : 0 <= 300) by lia.
  exact (conj H (truncate_idempotent longBody 300 H)).
Defined.

Lemma backoff_capped_witness :
  0 < 1 /\ backoff 0 = backoff 1.
Proof.
  assert (H : 0 < 1) by lia.
  exact (conj H (proj2 (backoff_capped 0) H)).
Defined.

Lemma backoff_exponential_witness :
  1 <= 3 <= 34 /\
  backoff 3 = Z.min (2 ^ (3 - 1) * Second) (30 * Second) /\
  Second <= backoff 3 /\
  (3 < 34 -> backoff 3 <= backoff (3 + 1)).
Proof.
  assert (H : 1 <= 3 <= 34) by lia.
  exact (conj H (backoff_exponential 3 H)).
Defined.

Lemma fetch_activities_only_with_200_witness :
  let out := fetchActivitiesPage (E := always401) "A0" 1 [] in
  out = (([], 401, mkRL "" ""), snd out) /\
  401 <> StatusOK /\
  @nil activity = [].
Proof.
  intros out.
  assert (H1 : out = (([], 401, mkRL "" ""), snd out)) by (vm_compute; reflexivity).
  assert (H2 : 401 <> StatusOK) by (vm_compute; discriminate).
  refine (conj H1 (conj H2 _)).
  exact (@fetch_activities_only_with_200 always401 "A0" 1 [] (snd out) []
           401 (mkRL "" "") H1 H2).
Defined.

Lemma fetch_final_response_witness :
  @srv always401 (sent []) (pageReq "A0" 1) = ok 401 "unauthorized" /\
  ReadErr (mkResp 401 [] "unauthorized" None) = None /\
  StatusCode (mkResp 401 [] "unauthorized" None) <> StatusTooManyRequests /\
  exists l,
    fetchActivitiesPage (E := always401) "A0" 1 [] =
    ((if StatusCode (mkResp 401 [] "unauthorized" None) =? StatusOK
      then match @json_Unmarshal_activities always401
                   (Body (mkResp 401 [] "unauthorized" None)) with
           | Ok items => items
           | Err _ => []
           end
      else [],
      StatusCode (mkResp 401 [] "unauthorized" None),
      rateLimitOf (mkResp 401 [] "unauthorized" None)),
     [] ++ EvDo (pageReq "A0" 1) (Ok (mkResp 401 [] "unauthorized" None)) :: l) /\
    sent l = [] /\ slept l = [].
Proof.
  assert (H1 : @srv always401 (sent []) (pageReq "A0" 1) = ok 401 "unauthorized")
    by reflexivity.
  assert (H2 : ReadErr (mkResp 401 [] "unauthorized" None) = None) by reflexivity.
  assert (H3 : StatusCode (mkResp 401 [] "unauthorized" None) <>
               StatusTooManyRequests) by (vm_compute; discriminate).
  refine (conj H1 (conj H2 (conj H3 _))).
  exact (@fetch_final_response always401 "A0" 1 []
           (mkResp 401 [] "unauthorized" None) H1 H2 H3).
Defined.

Lemma fetch_exhausts_attempts_witness :
  (forall hist, retryable (@srv unreachable hist (pageReq "A0" 1)) = true) /\
  exists st rl l,
    fetchActivitiesPage (E := unreachable) "A0" 1 [] = (([], st, rl), [] ++ l) /\
    sent l = repeat (pageReq "A0" 1) 3 /\
    slept l = backoffs.
Proof.
  assert (H : forall hist, retryable (@srv unreachable hist (pageReq "A0" 1)) = true)
    by (intros hist; reflexivity).
  exact (conj H (@fetch_exhausts_attempts unreachable "A0" 1 [] H)).
Defined.

Lemma transport_failure_is_fatal_witness :
  let d := mkDriver "A0" "R0" 1 [] in
  (forall hist, exists err,
      @srv unreachable hist (pageReq (accessToken d) (page d)) = Err err) /\
  exists l,
    fst (fetchActivitiesPage (E := unreachable) (accessToken d) (page d) []) =
    ([], 0, mkRL "" "") /\
    (forall fuel, fetchAll (E := unreachable) (S fuel) cfg0 d [] = (LoopFatal, [] ++ l)) /\
    sent l = repeat (pageReq (accessToken d) (page d)) 3 /\
    slept l = backoffs /\
    In (EvLog "unexpected status code: %d" [AInt 0]) l.
Proof.
  intros d.
  assert (H : forall hist, exists err,
             @srv unreachable hist (pageReq (accessToken d) (page d)) = Err err)
    by (intros hist; eexists; reflexivity).
  exact (conj H (@transport_failure_is_fatal unreachable cfg0 d [] H)).
Defined.

Lemma rate_limited_forever_witness :
  let d := mkDriver "A0" "R0" 1 [] in
  (forall hist, exists res,
      @srv always429 hist (pageReq (accessToken d) (page d)) = Ok res /\
      StatusCode res = StatusTooManyRequests) /\
  exists t',
    fetchAll (E := always429) 5 cfg0 d [] = (LoopOutOfFuel, t') /\
    sent t' = sent [] ++ repeat (pageReq (accessToken d) (page d)) (3 * 5) /\
    slept t' = slept [] ++ List.concat (repeat (backoffs ++ [60 * Second]) 5).
Proof.
  intros d.
  assert (H : forall hist, exists res,
             @srv always429 hist (pageReq (accessToken d) (page d)) = Ok res /\
             StatusCode res = StatusTooManyRequests)
    by (intros hist; eexists; split; reflexivity).
  exact (conj H (@rate_limited_forever always429 cfg0 d H 5%nat [])).
Defined.

Lemma unexpected_status_is_fatal_witness :
  let d := mkDriver "A0" "R0" 1 [] in
  let out := fetchActivitiesPage (E := failing500) "A0" 1 [] in
  out = (([], 500, mkRL "" ""), snd out) /\
  500 <> StatusOK /\ 500 <> StatusUnauthorized /\ 500 <> StatusTooManyRequests /\
  forall fuel,
    fetchAll (E := failing500) (S fuel) cfg0 d [] =
    (LoopFatal,
     snd out ++ [pageLog (page d) 500 (mkRL "" "");
                 EvLog "unexpected status code: %d" [AInt 500]]).
Proof.
  intros d out.
  assert (H1 : fetchActivitiesPage (E := failing500) (accessToken d) (page d) [] =
               (([], 500, mkRL "" ""), snd out)) by (vm_compute; reflexivity).
  assert (H2 : 500 <> StatusOK) by (vm_compute; discriminate).
  assert (H3 : 500 <> StatusUnauthorized) by (vm_compute; discriminate).
  assert (H4 : 500 <> StatusTooManyRequests) by (vm_compute; discriminate).
  refine (conj H1 (conj H2 (conj H3 (conj H4 _)))).
  exact (@unexpected_status_is_fatal failing500 cfg0 d [] (snd out) []
           500 (mkRL "" "") H1 H2 H3 H4).
Defined.

Lemma unreadable_200_ends_loop_witness :
  let d := mkDriver "A0" "R0" 1 [] in
  (forall hist, exists res err,
      @srv unreadable200 hist (pageReq (accessToken d) (page d)) = Ok res /\
      StatusCode res = StatusOK /\ ReadErr res = Some err) /\
  exists rl l d',
    fetchActivitiesPage (E := unreadable200) (accessToken d) (page d) [] =
    (([], StatusOK, rl), [] ++ l) /\
    sent l = repeat (pageReq (accessToken d) (page d)) 3 /\
    (forall fuel, fst (fetchAll (E := unreadable200) (S fuel) cfg0 d []) = LoopDone d') /\
    all d' = all d /\ page d' = page d.
Proof.
  intros d.
  assert (H : forall hist, exists res err,
             @srv unreadable200 hist (pageReq (accessToken d) (page d)) = Ok res /\
             StatusCode res = StatusOK /\ ReadErr res = Some err)
    by (intros hist; do 2 eexists; repeat split).
  exact (conj H (@unreadable_200_ends_loop unreadable200 cfg0 d [] H)).
Defined.

Lemma loop_done_structure_witness :
  let d := mkDriver "A0" "R0" 1 [] in
  let d' := mkDriver "A0" "R0" 3 (pageA ++ pageB ++ pageC) in
  let out := fetchAll (E := threePages) 3 cfg0 d [] in
  out = (LoopDone d', snd out) /\
  exists pgs full last,
    acceptedFrom (E := threePages) (page d) [] pgs (page d') (snd out) /\
    all d' = all d ++ List.concat pgs /\
    pgs = full ++ [last] /\
    Forall (fun pg => perPage <= lenSlice pg) full /\
    lenSlice last < perPage.
Proof.
  intros d d' out.
  assert (H : fetchAll (E := threePages) 3 cfg0 d [] = (LoopDone d', snd out))
    by (vm_compute; reflexivity).
  exact (conj H (@loop_done_structure threePages cfg0 3%nat d d' [] (snd out) H)).
Defined.

Lemma refresh_one_shot_witness :
  credentialsMissing (E := unreachable) cfg0 = false /\
  @srv unreachable (sent []) (refreshRequest cfg0) =
  Err (ExternalError "dial tcp: i/o timeout") /\
  refreshAccessToken (E := unreachable) cfg0 [] =
  (Err (fmt_Errorf "refresh req: %w" [AErr (ExternalError "dial tcp: i/o timeout")]),
   [] ++ [EvDo (refreshRequest cfg0) (Err (ExternalError "dial tcp: i/o timeout"))]).
Proof.
  assert (H1 : credentialsMissing (E := unreachable) cfg0 = false)
    by (vm_compute; reflexivity).
  assert (H2 : @srv unreachable (sent []) (refreshRequest cfg0) =
               Err (ExternalError "dial tcp: i/o timeout")) by reflexivity.
  refine (conj H1 (conj H2 _)).
  exact (proj2 (@refresh_one_shot unreachable cfg0 [])
           (ExternalError "dial tcp: i/o timeout") H1 H2).
Defined.

Lemma refresh_request_fields_witness :
  credentialsMissing (E := alwaysOK) cfg0 = false /\
  exists r f,
    sent (snd (refreshAccessToken (E := alwaysOK) cfg0 [])) = sent [] ++ [r] /\
    Method r = "POST" /\ URL r = authURL /\ RawQuery r = [] /\
    Form r = Some f /\
    Values_Get "client_id" f = StravaClientId cfg0 /\
    Values_Get "client_secret" f = StravaClientSecret cfg0 /\
    Values_Get "grant_type" f = "refresh_token" /\
    Values_Get "refresh_token" f = StravaRefreshToken cfg0 /\
    List.length f = 4%nat /\
    Values_Get "Content-Type" (Header r) = "application/x-www-form-urlencoded" /\
    Values_Get "Accept" (Header r) = "application/json" /\
    Values_Get "Authorization" (Header r) = "".
Proof.
  assert (H : credentialsMissing (E := alwaysOK) cfg0 = false)
    by (vm_compute; reflexivity).
  exact (conj H (@refresh_request_fields alwaysOK cfg0 [] H)).
Defined.

Lemma ensure_requests_witness :
  blank (E := alwaysOK) (StravaAccessToken cfgNoAccess) = true /\
  ensureAccessToken (E := alwaysOK) cfgNoAccess [] =
  refreshAccessToken (E := alwaysOK) cfgNoAccess
    ([] ++ [EvLog "No STRAVA_ACCESS_TOKEN provided; refreshing with STRAVA_REFRESH_TOKEN…" []]).
Proof.
  assert (H : blank (E := alwaysOK) (StravaAccessToken cfgNoAccess) = true)
    by (vm_compute; reflexivity).
  exact (conj H (proj2 (@ensure_requests alwaysOK cfgNoAccess []) H)).
Defined.

Lemma probeToken_outcome_witness :
  @srv failing500 (sent []) (athleteRequest "A0") = Ok (mkResp 500 [] longBody None) /\
  StatusCode (mkResp 500 [] longBody None) <> StatusOK /\
  exists text,
    fst (probeToken (E := failing500) "A0" []) =
    Some (fmt_Errorf "probe /athlete status=%d body=%s"
            [AInt (StatusCode (mkResp 500 [] longBody None)); AStr text]) /\
    text = truncate (Body (mkResp 500 [] longBody None)) 200 /\ len text <= 203.
Proof.
  assert (H1 : @srv failing500 (sent []) (athleteRequest "A0") =
               Ok (mkResp 500 [] longBody None)) by reflexivity.
  assert (H2 : StatusCode (mkResp 500 [] longBody None) <> StatusOK)
    by (vm_compute; discriminate).
  refine (conj H1 (conj H2 _)).
  exact (proj2 (proj2 (proj2 (@probeToken_outcome failing500 "A0" [])))
           (mkResp 500 [] longBody None) H1 H2).
Defined.

Lemma main_without_credentials_witness :
  blank (E := alwaysOK) (StravaAccessToken cfgEmpty) = true /\
  credentialsMissing (E := alwaysOK) cfgEmpty = true /\
  main (E := alwaysOK) 3 (Loaded cfgEmpty) [] =
  (Exit 1,
   [] ++ [EvLog "No STRAVA_ACCESS_TOKEN provided; refreshing with STRAVA_REFRESH_TOKEN…" [];
          EvLog "ensure access token: %v" [AErr missingCredentials]]) /\
  sent (snd (main (E := alwaysOK) 3 (Loaded cfgEmpty) [])) = sent [].
Proof.
  assert (H1 : blank (E := alwaysOK) (StravaAccessToken cfgEmpty) = true)
    by (vm_compute; reflexivity).
  assert (H2 : credentialsMissing (E := alwaysOK) cfgEmpty = true)
    by (vm_compute; reflexivity).
  refine (conj H1 (conj H2 _)).
  exact (proj1 (@main_without_credentials alwaysOK 3%nat cfgEmpty []) H1 H2).
Defined.

Lemma main_cached_token_run_witness :
  blank (E := fullRun) (StravaAccessToken cfg0) = false /\
  @srv fullRun (sent []) (probeRequest cfg0) = ok 200 "[]" /\
  StatusCode (mkResp 200 [] "[]" None) <> StatusUnauthorized /\
  lenSlice [pageA; pageB] < 2 ^ 63 - 1 /\
  Forall (fun pg => perPage <= lenSlice pg) [pageA; pageB] /\
  lenSlice pageC < perPage /\
  servesPages (E := fullRun)
    (sent [] ++ [probeRequest cfg0; athleteRequest (StravaAccessToken cfg0)])
    (StravaAccessToken cfg0) 1 ([pageA; pageB] ++ [pageC]) /\
  exists t3,
    main (E := fullRun) (S (List.length [pageA; pageB]) + 0) (Loaded cfg0) [] =
    (Exit 0,
     t3 ++ summaryLines (E := fullRun)
             (mkDriver (StravaAccessToken cfg0) (StravaRefreshToken cfg0)
                (1 + lenSlice [pageA; pageB])
                (List.concat ([pageA; pageB] ++ [pageC])))) /\
    sent t3 =
    sent [] ++ [probeRequest cfg0; athleteRequest (StravaAccessToken cfg0)] ++
    map (pageReq (StravaAccessToken cfg0))
      (pagesFrom 1 (S (List.length [pageA; pageB]))) /\
    refreshTokensSent t3 = refreshTokensSent [].
Proof.
  assert (H1 : blank (E := fullRun) (StravaAccessToken cfg0) = false)
    by (vm_compute; reflexivity).
  assert (H2 : @srv fullRun (sent []) (probeRequest cfg0) = ok 200 "[]")
    by reflexivity.
  assert (H3 : StatusCode (mkResp 200 [] "[]" None) <> StatusUnauthorized)
    by (vm_compute; discriminate).
  assert (H4 : lenSlice [pageA; pageB] < 2 ^ 63 - 1) by (vm_compute; reflexivity).
  assert (H5 : Forall (fun pg => perPage <= lenSlice pg) [pageA; pageB]).
  { repeat constructor; vm_compute; discriminate. }
  assert (H6 : lenSlice pageC < perPage) by (vm_compute; reflexivity).
  assert (H7 : servesPages (E := fullRun)
                 (sent [] ++ [probeRequest cfg0;
                              athleteRequest (StravaAccessToken cfg0)])
                 (StravaAccessToken cfg0) 1 ([pageA; pageB] ++ [pageC])).
  { cbn [app servesPages sent]. repeat split.
    - eexists. repeat split; vm_compute; reflexivity.
    - eexists. repeat split; vm_compute; reflexivity.
    - eexists. repeat split; vm_compute; reflexivity. }
  refine (conj H1 (conj H2 (conj H3 (conj H4 (conj H5 (conj H6 (conj H7 _))))))).
  exact (@main_cached_token_run fullRun cfg0 [] (mkResp 200 [] "[]" None)
           [pageA; pageB] pageC 0%nat H1 H2 H3 H4 H5 H6 H7).
Defined.

Lemma blank_ascii_witness :
  isASCII (bytes_of_string (StravaClientSecret cfgBlankSecret)) /\
  (blank (E := alwaysOK) (StravaClientSecret cfgBlankSecret) = true <->
   spaces (bytes_of_string (StravaClientSecret cfgBlankSecret))).
Proof.
  assert (H : isASCII (bytes_of_string (StravaClientSecret cfgBlankSecret))).
  { repeat constructor. }
  exact (conj H (@blank_ascii alwaysOK (StravaClientSecret cfgBlankSecret) H)).
Defined.

Lemma legacy_failure_is_fatal_witness :
  Legacy.fails oldPages (@srv html200 (sent []) (Legacy.pageReq "A0" 1)) = true /\
  forall fuel,
    exists l,
      Legacy.fetchAll (E := html200) oldPages (S fuel) "A0" 1 [] [] =
      (Legacy.LoopFatal,
       [] ++ EvDo (Legacy.pageReq "A0" 1)
               (@srv html200 (sent []) (Legacy.pageReq "A0" 1)) :: l) /\
      sent l = [] /\ slept l = [].
Proof.
  assert (H : Legacy.fails oldPages
                (@srv html200 (sent []) (Legacy.pageReq "A0" 1)) = true)
    by (vm_compute; reflexivity).
  exact (conj H (@legacy_failure_is_fatal html200 oldPages "A0" 1 [] [] H)).
Defined.

Lemma legacy_main_aborts_witness :
  Legacy.fails oldPages
    (@srv html200 (sent []) (Legacy.pageReq (StravaAccessToken cfg0) 1)) = true /\
  forall fuel,
    fst (Legacy.main (E := html200) (fun s => s) oldPages (S fuel) (Loaded cfg0) []) =
    Exit 1 /\
    sent (snd (Legacy.main (E := html200) (fun s => s) oldPages (S fuel)
                 (Loaded cfg0) [])) =
    sent [] ++ [Legacy.pageReq (StravaAccessToken cfg0) 1].
Proof.
  assert (H : Legacy.fails oldPages
                (@srv html200 (sent [])
                   (Legacy.pageReq (StravaAccessToken cfg0) 1)) = true)
    by (vm_compute; reflexivity).
  exact (conj H (@legacy_main_aborts html200 (fun s => s) oldPages cfg0 [] H)).
Defined.

Lemma legacy_pages_witness :
  lenSlice oldPageC <> 200 /\
  - 2 ^ 63 <= 1 /\
  1 + lenSlice [oldPageA] < 2 ^ 63 /\
  Forall (fun pg => lenSlice pg = 200) [oldPageA] /\
  Legacy.servesPages (E := twoOldPages) oldPages (sent []) "A0" 1
    ([oldPageA] ++ [oldPageC]) /\
  exists t',
    Legacy.fetchAll (E := twoOldPages) oldPages (S (List.length [oldPageA]) + 0)
      "A0" 1 [] [] =
    (Legacy.LoopDone ([] ++ List.concat ([oldPageA] ++ [oldPageC])), t') /\
    sent t' =
    sent [] ++ map (Legacy.pageReq "A0") (pagesFrom 1 (S (List.length [oldPageA]))) /\
    slept t' = slept [].
Proof.
  assert (H1 : lenSlice oldPageC <> 200) by (vm_compute; discriminate).
  assert (H2 : - 2 ^ 63 <= 1) by lia.
  assert (H3 : 1 + lenSlice [oldPageA] < 2 ^ 63) by (vm_compute; reflexivity).
  assert (H4 : Forall (fun pg => lenSlice pg = 200) [oldPageA]).
  { repeat constructor. }
  assert (H5 : Legacy.servesPages (E := twoOldPages) oldPages (sent []) "A0" 1
                 ([oldPageA] ++ [oldPageC])).
  { cbn [app Legacy.servesPages sent]. repeat split.
    - eexists. repeat split; vm_compute; reflexivity.
    - eexists. repeat split; vm_compute; reflexivity. }
  refine (conj H1 (conj H2 (conj H3 (conj H4 (conj H5 _))))).
  exact (@legacy_pages_until_other_length twoOldPages oldPages "A0" oldPageC 0%nat
           H1 [oldPageA] 1 [] [] H2 H3 H4 H5).
Defined.

Lemma legacy_name_test_witness :
  isASCII (bytes_of_string (Legacy.Name oldWalk)) /\
  (Legacy.isDeskTreadmill (fun s => s) oldWalk = true <->
   Forall2 sameLetter (bytes_of_string (Legacy.Name oldWalk))
     (bytes_of_string "Desk Treadmill")) /\
  (Legacy.isDeskTreadmill (fun s => s) oldWalk = true ->
   forall b : activity,
     Name b = Legacy.Name oldWalk -> isDeskTreadmill (E := alwaysOK) b = true).
Proof.
  assert (H : isASCII (bytes_of_string (Legacy.Name oldWalk))).
  { repeat constructor. }
  exact (conj H (@legacy_name_test alwaysOK (fun s => s) oldWalk H)).
Defined.

End Run2.
